(** * azure_idle_report: classification and cost attribution

    A shallow embedding of [scripts/azure_idle_report.py]: the AKS
    heuristics, the inventory filters, the Cost Management lookup and the
    per-subscription loop of [main] that turns inventory listings into
    findings.

    Conventions of the embedding.
    - Text is ASCII ([string]); [lower] is [str.lower] on ASCII letters,
      every other character is left as it is.
    - A record of an [az ... --query "{id:id, ...}"] listing is a
      [resource]; a field is [None] when the key is absent or [null],
      which is all that [dict.get] can tell apart.
    - Dicts that the script builds itself keep their insertion order and
      are association lists ([dict]); the cost map is a [gmap], the
      [seen] set a [gset].
    - Calls that leave the process ([run], [datetime.now]) are explicit
      inputs: the outcomes of the requests, the readings of the clock.
    - A [float] that comes from outside is the rational it denotes; where
      the script computes one from integers ([timestamp()], [float(int)])
      the rounding is that of binary64 ([Binary64]). *)

From Stdlib Require Import ZArith QArith Ascii String DecimalString List Permutation Sorted Btauto.
From Stdlib Require Import Floats.SpecFloat.
From stdpp Require Import base option list gmap strings.

Local Open Scope Z_scope.
Local Open Scope list_scope.

(** ** Python strings *)

Module Py.

Definition is_upper (c : ascii) : bool :=
  let n := nat_of_ascii c in (Nat.leb 65 n && Nat.leb n 90)%bool.

Definition lower_char (c : ascii) : ascii :=
  if is_upper c then ascii_of_nat (nat_of_ascii c + 32) else c.

(** [s.lower()] *)
Fixpoint lower (s : string) : string :=
  match s with
  | EmptyString => EmptyString
  | String c s' => String (lower_char c) (lower s')
  end.

(** [s.startswith(p)] *)
Fixpoint startswith (s p : string) {struct p} : bool :=
  match p, s with
  | EmptyString, _ => true
  | String _ _, EmptyString => false
  | String a p', String b s' => if Ascii.eqb a b then startswith s' p' else false
  end.

(** [sub in s] *)
Fixpoint str_in (sub s : string) : bool :=
  startswith s sub ||
  match s with
  | EmptyString => false
  | String _ s' => str_in sub s'
  end.

(** [s.replace(c, by)] for a one-character [c]. *)
Fixpoint replace_char (c : ascii) (by_ : string) (s : string) : string :=
  match s with
  | EmptyString => EmptyString
  | String a s' =>
      if Ascii.eqb a c then String.append by_ (replace_char c by_ s')
      else String a (replace_char c by_ s')
  end.

(** Truth value of a string: [bool(s)]. *)
Definition truthy (s : string) : bool :=
  match s with EmptyString => false | String _ _ => true end.

(** [x or ""] for [x] a string or [None]. *)
Definition or_empty (x : option string) : string :=
  match x with Some s => s | None => EmptyString end.

(** [s.isascii()] *)
Fixpoint isascii (s : string) : bool :=
  match s with
  | EmptyString => true
  | String c s' => Nat.ltb (nat_of_ascii c) 128 && isascii s'
  end.

(** [s.endswith(suf)] *)
Fixpoint endswith (s suf : string) : bool :=
  String.eqb suf s ||
  match s with
  | EmptyString => false
  | String _ s' => endswith s' suf
  end.

(** The characters that [str.strip()] removes: [c.isspace()]. *)
Definition is_space (c : ascii) : bool :=
  let n := nat_of_ascii c in
  (Nat.leb 9 n && Nat.leb n 13) || (Nat.leb 28 n && Nat.leb n 32).

(** [s.lstrip()] *)
Fixpoint lstrip (s : string) : string :=
  match s with
  | EmptyString => EmptyString
  | String c s' => if is_space c then lstrip s' else s
  end.

(** [s.rstrip()] *)
Fixpoint rstrip (s : string) : string :=
  match s with
  | EmptyString => EmptyString
  | String c s' =>
      match rstrip s' with
      | EmptyString => if is_space c then EmptyString else String c EmptyString
      | String _ _ as r => String c r
      end
  end.

(** Whether [s] consists of such characters only. *)
Fixpoint blank (s : string) : bool :=
  match s with
  | EmptyString => true
  | String c s' => is_space c && blank s'
  end.

(** [s.strip()] *)
Definition strip (s : string) : string := rstrip (lstrip s).

(** [s.split(sep)] for a one-character [sep]: never an empty list. *)
Fixpoint split (sep : ascii) (s : string) : list string :=
  match s with
  | EmptyString => [EmptyString]
  | String c s' =>
      if Ascii.eqb c sep then EmptyString :: split sep s'
      else match split sep s' with
           | h :: t => String c h :: t
           | [] => [String c EmptyString]
           end
  end.

End Py.

(** ** Regular expressions, as far as [_AKS_RG_PATTERN] needs them *)

Module Re.

Inductive re : Type :=
| Eps                       (* the empty pattern *)
| Bol                       (* ^ *)
| Eol                       (* $ *)
| Chr (c : ascii)           (* a literal character *)
| Cls (cs : list ascii)     (* [...] *)
| Seq (a b : re)
| Alt (a b : re).

(** A literal word is the sequence of its characters. *)
Fixpoint word (s : string) : re :=
  match s with
  | EmptyString => Eps
  | String c s' => Seq (Chr c) (word s')
  end.

(** Under [re.IGNORECASE] two characters match when they agree up to case. *)
Definition same_ci (a b : ascii) : bool :=
  Ascii.eqb (Py.lower_char a) (Py.lower_char b).

Definition newline : ascii := ascii_of_nat 10.

(** [$] without [re.MULTILINE]: the end of the text, or just before a
    newline that ends the text. *)
Definition at_eol (s : string) : bool :=
  match s with
  | EmptyString => true
  | String c EmptyString => Ascii.eqb c newline
  | _ => false
  end.

(** [matches r bol s k]: [r] matches a prefix of [s] and [k] accepts the
    rest; [bol] says whether [s] starts at the beginning of the text. *)
Fixpoint matches (r : re) (bol : bool) (s : string)
         (k : bool -> string -> bool) : bool :=
  match r with
  | Eps => k bol s
  | Bol => bol && k bol s
  | Eol => at_eol s && k bol s
  | Chr c =>
      match s with
      | String x s' => same_ci c x && k false s'
      | EmptyString => false
      end
  | Cls cs =>
      match s with
      | String x s' => existsb (fun c => same_ci c x) cs && k false s'
      | EmptyString => false
      end
  | Seq a b => matches a bol s (fun bol' s' => matches b bol' s' k)
  | Alt a b => matches a bol s k || matches b bol s k
  end.

Definition accept : bool -> string -> bool := fun _ _ => true.

Fixpoint search_from (r : re) (bol : bool) (s : string) : bool :=
  matches r bol s accept ||
  match s with
  | EmptyString => false
  | String _ s' => search_from r false s'
  end.

(** [pattern.search(s)] as a truth value. *)
Definition search (r : re) (s : string) : bool := search_from r true s.

End Re.

(** ** AKS heuristics *)

Definition delim : Re.re := Re.Cls ["_"%char; "-"%char].

(** [(^MC_)|([_\-]aks[_\-])|(^aks[_\-])|([_\-]aks$)], compiled with
    [re.IGNORECASE]. *)
Definition _AKS_RG_PATTERN : Re.re :=
  Re.Alt (Re.Seq Re.Bol (Re.word "MC_"))
 (Re.Alt (Re.Seq delim (Re.Seq (Re.word "aks") delim))
 (Re.Alt (Re.Seq Re.Bol (Re.Seq (Re.word "aks") delim))
         (Re.Seq delim (Re.Seq (Re.word "aks") Re.Eol)))).

Definition is_aks_related (name resource_group : option string) : bool :=
  let n := Py.lower (Py.or_empty name) in
  let rg := Py.or_empty resource_group in
  if Re.search _AKS_RG_PATTERN rg then true
  else if Py.startswith n "pvc-" then true
  else if Py.str_in "kube" n || Py.str_in "kube-apiserver.nic" n || Py.str_in "-pe-" n
       then true
  else false.

(** ** Inventory *)

(** One record of a listing.  The [--query] projections of the script
    name the keys; a key that a listing does not project is [None]. *)
Record resource : Type := {
  r_id : option string;
  r_name : option string;
  r_resourceGroup : option string;
  r_location : option string;
  r_sizeGb : option Z;
  r_sku : option string;
  r_ip : option string;
  r_powerState : option string;
  r_timeCreated : option string;
  r_ageDays : option Z
}.

(** [s["ageDays"] = n] *)
Definition set_ageDays (s : resource) (n : Z) : resource :=
  {| r_id := r_id s; r_name := r_name s; r_resourceGroup := r_resourceGroup s;
     r_location := r_location s; r_sizeGb := r_sizeGb s; r_sku := r_sku s;
     r_ip := r_ip s; r_powerState := r_powerState s;
     r_timeCreated := r_timeCreated s; r_ageDays := Some n |}.

(** [(d.get("id") or "").lower()] *)
Definition lower_id (d : resource) : string := Py.lower (Py.or_empty (r_id d)).

(** The loop of [get_orphaned_disks] over [by_managed + by_state], with
    its two accumulators. *)
Fixpoint merge_disks (ds : list resource) (seen : gset string)
         (result : list resource) : list resource :=
  match ds with
  | [] => result
  | d :: ds' =>
      let rid := lower_id d in
      if Py.truthy rid && bool_decide (rid ∉ seen)
      then merge_disks ds' ({[rid]} ∪ seen) (result ++ [d])
      else merge_disks ds' seen result
  end.

(** What the loop keeps true of its accumulators: [seen] holds the keys
    of [result], no key occurs twice, no key is empty. *)
Definition merge_inv (seen : gset string) (result : list resource) : Prop :=
  (forall k, k ∈ seen <-> k ∈ lower_id <$> result) /\
  NoDup (lower_id <$> result) /\
  Forall (fun d => Py.truthy (lower_id d) = true) result.

(** [by_managed] and [by_state] are the answers to the two
    [az resource list] queries. *)
Definition get_orphaned_disks (by_managed by_state : list resource) : list resource :=
  merge_disks (by_managed ++ by_state) ∅ [].

(** The test of [get_stopped_not_deallocated_vms] on one VM. *)
Definition stopped_not_deallocated (v : resource) : bool :=
  let ps := Py.lower (Py.or_empty (r_powerState v)) in
  Py.str_in "stopped" ps && negb (Py.str_in "deallocated" ps).

Fixpoint likely_vms (vms : list resource) (likely : list resource) : list resource :=
  match vms with
  | [] => likely
  | v :: vms' =>
      if stopped_not_deallocated v then likely_vms vms' (likely ++ [v])
      else likely_vms vms' likely
  end.

(** [vms] is the answer to [az vm list -d]. *)
Definition get_stopped_not_deallocated_vms (vms : list resource) : list resource :=
  likely_vms vms [].

(** *** Snapshots and time

    Instants are counted in microseconds since the epoch, the resolution
    of [datetime]; [timestamp()] and the cutoff are taken exactly, so the
    comparison [dt.timestamp() <= cutoff] is a comparison of integers (the
    rounding of the binary64 value that [timestamp()] returns is not
    modelled). *)

Record datetime : Type := {
  dt_wall : Z;                 (* the wall-clock reading, read as if it were UTC *)
  dt_utcoffset : option Z      (* [None]: a naive datetime *)
}.

Definition usec_per_day : Z := 86400 * 1000000.

(** [dt.replace(tzinfo=timezone.utc)] when [dt.tzinfo is None]. *)
Definition assume_utc (dt : datetime) : datetime :=
  match dt_utcoffset dt with
  | None => {| dt_wall := dt_wall dt; dt_utcoffset := Some 0 |}
  | Some _ => dt
  end.

(** The instant of an aware datetime, in microseconds since the epoch:
    [dt - epoch], which [dt.timestamp()] divides by [10**6]. *)
Definition timestamp (dt : datetime) : Z :=
  dt_wall dt - default 0 (dt_utcoffset dt).

Section Snapshots.

(** [datetime.fromisoformat]; [None] when it raises. *)
Variable fromisoformat : string -> option datetime.

(** The successive readings of [datetime.now(timezone.utc)]. *)
Variable clock : nat -> Z.

(** The loop of [get_snapshots_older_than_days], the instants compared
    as they are, in microseconds ([Rounded] below compares them as the
    floats that [timestamp()] returns); [tick] counts the readings of the
    clock made so far. *)
Fixpoint old_snapshots (cutoff : Z) (snaps : list resource) (tick : nat)
         (out : list resource) : list resource * nat :=
  match snaps with
  | [] => (out, tick)
  | s :: snaps' =>
      match r_timeCreated s with
      | None => old_snapshots cutoff snaps' tick out
      | Some tc =>
          if negb (Py.truthy tc) then old_snapshots cutoff snaps' tick out
          else
            let tcn := Py.replace_char "Z"%char "+00:00" tc in
            match fromisoformat tcn with
            | None => old_snapshots cutoff snaps' tick out
            | Some dt0 =>
                let dt := assume_utc dt0 in
                if timestamp dt <=? cutoff then
                  let age := (clock tick - timestamp dt) / usec_per_day in
                  old_snapshots cutoff snaps' (S tick) (out ++ [set_ageDays s age])
                else old_snapshots cutoff snaps' tick out
            end
      end
  end.

(** [snaps] is the answer to [az snapshot list]; the first reading of
    the clock fixes the cutoff. *)
Definition get_snapshots_older_than_days (days : Z) (snaps : list resource)
  : list resource :=
  let cutoff := clock 0 - days * usec_per_day in
  fst (old_snapshots cutoff snaps 1 []).

End Snapshots.

(** ** Values and exceptions *)

(** A JSON scalar as Python reads it: [None], [str], [int], [float]
    (a finite float is the rational it denotes). *)
Inductive value : Type :=
| VNone
| VStr (s : string)
| VInt (z : Z)
| VFloat (q : Q).

#[global] Instance Q_eq_dec : EqDecision Q.
Proof. solve_decision. Defined.

#[global] Instance value_eq_dec : EqDecision value.
Proof. solve_decision. Defined.

(** [bool(v)] *)
Definition value_truthy (v : value) : bool :=
  match v with
  | VNone => false
  | VStr s => Py.truthy s
  | VInt z => negb (z =? 0)
  | VFloat q => negb (Qeq_bool q 0)
  end.

Definition of_str (x : option string) : value :=
  match x with Some s => VStr s | None => VNone end.

Definition of_int (x : option Z) : value :=
  match x with Some z => VInt z | None => VNone end.

Definition of_float (x : option Q) : value :=
  match x with Some q => VFloat q | None => VNone end.

Inductive exn : Type :=
  RuntimeError | ValueError | TypeError | IndexError | OverflowError.

Inductive result (A : Type) : Type :=
| Ok (a : A)
| Raise (e : exn).

Arguments Ok {A} a.
Arguments Raise {A} e.

(** An exception ends the computation: [x ← r; k]. *)
#[global] Instance result_bind : MBind result :=
  fun A B (f : A -> result B) (r : result A) =>
    match r with
    | Ok a => f a
    | Raise e => Raise e
    end.

(** Unfold one [x ← r; k]. *)
Ltac unbind := unfold mbind, result_bind; cbn beta iota.

(** [l[i]] *)
Definition item {A : Type} (l : list A) (i : nat) : result A :=
  match l !! i with
  | Some a => Ok a
  | None => Raise IndexError
  end.

(** ** Floats

    Python's [float] is IEEE 754 binary64.  The operations are those of
    the Standard Library's executable specification of it: every result
    is the exact one rounded to the nearest float, ties to even. *)

Module Binary64.

Definition prec : Z := 53.
Definition emax : Z := 1024.

(** An integer as it stands, before any rounding. *)
Definition exact (z : Z) : spec_float :=
  match z with
  | Z0 => S754_zero false
  | Zpos m => S754_finite false m 0
  | Zneg m => S754_finite true m 0
  end.

(** [a / b] on two [int]s, [b] not zero: the quotient, rounded once. *)
Definition truediv (a b : Z) : spec_float :=
  SFdiv prec emax (exact a) (exact b).

(** [float(z)], which is also what becomes of the [int] operand of a
    mixed operation; an [int] beyond the range of the floats raises. *)
Definition of_int (z : Z) : result spec_float :=
  match binary_normalize prec emax z 0 false with
  | S754_infinity _ => Raise OverflowError
  | f => Ok f
  end.

(** [x - y] and [x <= y] on floats. *)
Definition sub (x y : spec_float) : spec_float := SFsub prec emax x y.
Definition leb (x y : spec_float) : bool := SFleb x y.

(** The rational that a float denotes ([0] for what is not finite). *)
Definition to_Q (f : spec_float) : Q :=
  match f with
  | S754_finite sign m e =>
      let n := if sign then Zneg m else Zpos m in
      Qred (if 0 <=? e then inject_Z (n * 2 ^ e) else Qmake n (Z.to_pos (2 ^ (- e))))
  | _ => 0%Q
  end.

End Binary64.

(** ** Snapshots, the cutoff as the interpreter computes it

    [datetime.timestamp()] is a [float]: the microseconds since the epoch
    divided by [10**6].  The cutoff and the test [dt.timestamp() <= cutoff]
    are therefore in binary64; the age, [(now - dt).days], is exact.
    Section [Snapshots] above reads the same loop with exact instants. *)

Module Rounded.

(** The microseconds from the epoch to an aware datetime. *)
Definition usec (dt : datetime) : Z := timestamp dt.

(** [dt.timestamp()] of an aware datetime. *)
Definition timestamp (dt : datetime) : spec_float :=
  Binary64.truediv (usec dt) 1000000.

(** [datetime.now(timezone.utc).timestamp() - (days * 86400)], [now] in
    microseconds since the epoch. *)
Definition cutoff_of (now days : Z) : result spec_float :=
  d ← Binary64.of_int (days * 86400);
  Ok (Binary64.sub (Binary64.truediv now 1000000) d).

Section Loop.

Variable fromisoformat : string -> option datetime.
Variable clock : nat -> Z.

Fixpoint old_snapshots (cutoff : spec_float) (snaps : list resource) (tick : nat)
         (out : list resource) : list resource * nat :=
  match snaps with
  | [] => (out, tick)
  | s :: snaps' =>
      match r_timeCreated s with
      | None => old_snapshots cutoff snaps' tick out
      | Some tc =>
          if negb (Py.truthy tc) then old_snapshots cutoff snaps' tick out
          else
            let tcn := Py.replace_char "Z"%char "+00:00" tc in
            match fromisoformat tcn with
            | None => old_snapshots cutoff snaps' tick out
            | Some dt0 =>
                let dt := assume_utc dt0 in
                if Binary64.leb (timestamp dt) cutoff then
                  let age := (clock tick - usec dt) / usec_per_day in
                  old_snapshots cutoff snaps' (S tick) (out ++ [set_ageDays s age])
                else old_snapshots cutoff snaps' tick out
            end
      end
  end.

(** The first reading of the clock fixes the cutoff; a threshold too
    large for a float raises before any snapshot is looked at. *)
Definition get_snapshots_older_than_days (days : Z) (snaps : list resource)
  : result (list resource) :=
  cutoff ← cutoff_of (clock 0) days;
  Ok (fst (old_snapshots cutoff snaps 1 [])).

End Loop.

End Rounded.

(** ** Cost management *)

(** The [properties] of a Cost Management answer; an answer without them
    (or one that is not an object) has no columns, no rows and no link.
    A column is known by its [name].  The answer has the shape that the
    API documents: [columns] and [rows], where present, are lists, and a
    column is an object. *)
Record response : Type := {
  columns : list (option string);
  rows : list (list value);
  nextLink : option string
}.

Record lookup_state : Type := {
  all_rows : list (list value);
  cols : list (option string)
}.

(** The closure [extract_from_response]: it extends [all_rows], keeps the
    first non-empty column list and returns the link. *)
Definition extract_from_response (st : lookup_state) (r : response)
  : lookup_state * option string :=
  ({| all_rows := all_rows st ++ rows r;
      cols := match cols st with [] => columns r | _ :: _ => cols st end |},
   nextLink r).

(** The [while next_link:] loop.  [pages] holds the outcomes of the
    continuation requests in the order they are made; [requested] records
    the links asked for.  [None]: the loop asks for more pages than
    [pages] describes. *)
Fixpoint paginate (next_link : option string) (pages : list (result response))
         (st : lookup_state) (requested : list string)
  : option (lookup_state * list string) :=
  match next_link with
  | None => Some (st, requested)
  | Some link =>
      if negb (Py.truthy link) then Some (st, requested)
      else
        match pages with
        | [] => None
        | Raise _ :: _ => Some (st, requested ++ [link])
        | Ok resp :: pages' =>
            let '(st', next_link') := extract_from_response st resp in
            paginate next_link' pages' st' (requested ++ [link])
        end
  end.

Record indices : Type := {
  idx_cost : option nat;
  idx_rid : option nat;
  idx_currency : option nat
}.

(** [for i, c in enumerate(cols)] *)
Fixpoint find_columns (cs : list (option string)) (i : nat) (ix : indices) : indices :=
  match cs with
  | [] => ix
  | c :: cs' =>
      let name := Py.lower (Py.or_empty c) in
      let ix' :=
        if String.eqb name "pretaxcost" then
          {| idx_cost := Some i; idx_rid := idx_rid ix; idx_currency := idx_currency ix |}
        else if String.eqb name "resourceid" then
          {| idx_cost := idx_cost ix; idx_rid := Some i; idx_currency := idx_currency ix |}
        else if String.eqb name "currency" then
          {| idx_cost := idx_cost ix; idx_rid := idx_rid ix; idx_currency := Some i |}
        else ix in
      find_columns cs' (S i) ix'
  end.

Definition resolve_columns (cs : list (option string)) : indices :=
  find_columns cs 0 {| idx_cost := None; idx_rid := None; idx_currency := None |}.

Definition cost_data : Type := gmap string Q * value.

Definition api_url (subscription_id : string) : string :=
  String.append "https://management.azure.com/subscriptions/"
    (String.append subscription_id
       "/providers/Microsoft.CostManagement/query?api-version=2025-03-01").

Record lookup_run : Type := {
  outcome : result cost_data;     (* what the function returns or raises *)
  requested : list string         (* the URIs it asked for, in order *)
}.

Section CostLookup.

(** Python's own conversions between numbers and text: [str] of a
    float, and [float] of a string ([None] when it raises). *)
Variable float_repr : Q -> string.
Variable float_of_str : string -> option Q.

(** [str(v)] *)
Definition py_str (v : value) : string :=
  match v with
  | VNone => "None"
  | VStr s => s
  | VInt z => NilZero.string_of_int (Z.to_int z)
  | VFloat q => float_repr q
  end.

(** [float(v)]: an [int] is rounded to the nearest float. *)
Definition py_float (v : value) : result Q :=
  match v with
  | VNone => Raise TypeError
  | VStr s => match float_of_str s with Some q => Ok q | None => Raise ValueError end
  | VInt z => f ← Binary64.of_int z; Ok (Binary64.to_Q f)
  | VFloat q => Ok q
  end.

(** [v or 0.0] *)
Definition or_zero (v : value) : value :=
  if value_truthy v then v else VFloat 0.

(** [for r in all_rows] *)
Fixpoint index_rows (i_rid i_cost : nat) (i_currency : option nat)
         (rs : list (list value)) (cost_map : gmap string Q) (currency : value)
  : result cost_data :=
  match rs with
  | [] => Ok (cost_map, currency)
  | r :: rs' =>
      rid ← item r i_rid;
      cost ← item r i_cost;
      currency' ← match i_currency with
                  | Some i => item r i
                  | None => Ok currency
                  end;
      if negb (value_truthy rid) then
        index_rows i_rid i_cost i_currency rs' cost_map currency'
      else
        c ← py_float (or_zero cost);
        index_rows i_rid i_cost i_currency rs'
          (<[Py.lower (py_str rid) := c]> cost_map) currency'
  end.

(** What follows the pagination: resolve the columns, index the rows. *)
Definition build_cost_map (st : lookup_state) : result cost_data :=
  let ix := resolve_columns (cols st) in
  match idx_cost ix, idx_rid ix with
  | Some i_cost, Some i_rid =>
      index_rows i_rid i_cost (idx_currency ix) (all_rows st) ∅ VNone
  | _, _ => Ok (∅, VNone)
  end.

(** [first] is the outcome of the first request, [pages] those of the
    continuation requests. *)
Definition get_cost_map_last30d_by_resource_id (subscription_id : string)
           (first : result response) (pages : list (result response))
  : option lookup_run :=
  let url := api_url subscription_id in
  match first with
  | Raise e => Some {| outcome := Raise e; requested := [url] |}
  | Ok resp =>
      let '(st, next_link) :=
        extract_from_response {| all_rows := []; cols := [] |} resp in
      match paginate next_link pages st [url] with
      | None => None
      | Some (st', reqs) =>
          Some {| outcome := build_cost_map st'; requested := reqs |}
      end
  end.

End CostLookup.

(** ** Findings *)

(** A dict built by the script: keys in insertion order. *)
Definition dict : Type := list (string * value).

(** [d[k] = v] *)
Fixpoint dict_set (d : dict) (k : string) (v : value) : dict :=
  match d with
  | [] => [(k, v)]
  | (k', v') :: d' =>
      if String.eqb k' k then (k', v) :: d' else (k', v') :: dict_set d' k v
  end.

(** [d.get(k)]; [None] when the key is absent. *)
Fixpoint dict_get (d : dict) (k : string) : option value :=
  match d with
  | [] => None
  | (k', v') :: d' => if String.eqb k' k then Some v' else dict_get d' k
  end.

(** A dict display [{k1: v1, ..., **d}]: the pairs are set from left to
    right. *)
Definition display (kvs : list (string * value)) : dict :=
  fold_left (fun d kv => dict_set d (fst kv) (snd kv)) kvs [].

Definition build_entry (subscription_name : string) (subscription_id : option string)
           (bucket : string) (it : dict) : dict :=
  display ([("subscription", VStr subscription_name);
            ("subscriptionId", of_str subscription_id);
            ("bucket", VStr bucket)] ++ it).

(** The three loops of [build_findings], each appending to [findings].
    (Its arguments [cost_immediate], [cost_review], [currency] and
    [no_cost] are not used by its body.) *)
Definition build_findings (subscription_name : string) (subscription_id : option string)
           (immediate_lines review_lines snapshot_lines : list dict) : list dict :=
  let findings := [] in
  let findings :=
    fold_left (fun fs it => fs ++ [build_entry subscription_name subscription_id "immediate" it])
              immediate_lines findings in
  let findings :=
    fold_left (fun fs it => fs ++ [build_entry subscription_name subscription_id "aks_review" it])
              review_lines findings in
  let findings :=
    fold_left (fun fs it => fs ++ [build_entry subscription_name subscription_id "snapshot_review" it])
              snapshot_lines findings in
  findings.

Definition remediation_hint (resource_type : string) (resource_id : option string) : string :=
  let rid := Py.or_empty resource_id in
  if negb (Py.truthy rid) then ""
  else if String.eqb resource_type "disk" then
    String.append "az disk delete --ids " (String.append rid " --yes")
  else if String.eqb resource_type "publicIp" then
    String.append "az network public-ip delete --ids " rid
  else if String.eqb resource_type "nic" then
    String.append "az network nic delete --ids " rid
  else if String.eqb resource_type "vm" then
    String.append "az vm deallocate --ids " rid
  else if String.eqb resource_type "snapshot" then
    String.append "az snapshot delete --ids " rid
  else "".

(** ** The loop of [main] over one subscription *)

Inductive format : Type := text | json | csv.

Definition is_structured (f : format) : bool :=
  match f with
  | text => false
  | json | csv => true
  end.

Record args : Type := {
  include_snapshots : bool;
  snapshot_days : Z;
  no_cost : bool;
  output_format : format
}.

(** What [main] does with the outcome of the cost lookup. *)
Definition subscription_costs (a : args) (lookup : result cost_data) : cost_data :=
  if no_cost a then (∅, VNone)
  else match lookup with
       | Ok cd => cd
       | Raise _ => (∅, VNone)
       end.

(** The closure [get_cost] of [main]. *)
Definition get_cost (a : args) (cost_map : gmap string Q) (resource_id : option string)
  : option Q :=
  if no_cost a || negb (Py.truthy (Py.or_empty resource_id)) then None
  else cost_map !! Py.lower (Py.or_empty resource_id).

Record items : Type := {
  immediate_items : list dict;
  review_items : list dict;
  snapshot_items : list dict
}.

Definition add_immediate (st : items) (it : dict) : items :=
  {| immediate_items := immediate_items st ++ [it];
     review_items := review_items st;
     snapshot_items := snapshot_items st |}.

Definition add_review (st : items) (it : dict) : items :=
  {| immediate_items := immediate_items st;
     review_items := review_items st ++ [it];
     snapshot_items := snapshot_items st |}.

Definition add_snapshot (st : items) (it : dict) : items :=
  {| immediate_items := immediate_items st;
     review_items := review_items st;
     snapshot_items := snapshot_items st ++ [it] |}.

Section Subscription.

Variable a : args.
Variable cost_map : gmap string Q.
Variable currency : value.

Definition disk_item (d : resource) : dict :=
  let rid := r_id d in
  let cost_val := get_cost a cost_map rid in
  let hint := remediation_hint "disk" rid in
  display [("resourceType", VStr "disk");
           ("name", of_str (r_name d));
           ("resourceGroup", of_str (r_resourceGroup d));
           ("location", of_str (r_location d));
           ("sizeGb", of_int (r_sizeGb d));
           ("sku", of_str (r_sku d));
           ("resourceId", of_str rid);
           ("costLast30d", of_float cost_val);
           ("currency", currency);
           ("remediation", VStr hint)].

Definition public_ip_item (p : resource) : dict :=
  let rid := r_id p in
  let cost_val := get_cost a cost_map rid in
  let hint := remediation_hint "publicIp" rid in
  display [("resourceType", VStr "publicIp");
           ("name", of_str (r_name p));
           ("resourceGroup", of_str (r_resourceGroup p));
           ("location", of_str (r_location p));
           ("sku", of_str (r_sku p));
           ("ip", of_str (r_ip p));
           ("resourceId", of_str rid);
           ("costLast30d", of_float cost_val);
           ("currency", currency);
           ("remediation", VStr hint)].

Definition nic_item (n : resource) : dict :=
  let rid := r_id n in
  let cost_val := get_cost a cost_map rid in
  let hint := remediation_hint "nic" rid in
  display [("resourceType", VStr "nic");
           ("name", of_str (r_name n));
           ("resourceGroup", of_str (r_resourceGroup n));
           ("location", of_str (r_location n));
           ("resourceId", of_str rid);
           ("costLast30d", of_float cost_val);
           ("currency", currency);
           ("remediation", VStr hint)].

Definition vm_item (v : resource) : dict :=
  let rid := r_id v in
  let cost_val := get_cost a cost_map rid in
  let hint := remediation_hint "vm" rid in
  display [("resourceType", VStr "vm");
           ("name", of_str (r_name v));
           ("resourceGroup", of_str (r_resourceGroup v));
           ("location", of_str (r_location v));
           ("powerState", of_str (r_powerState v));
           ("resourceId", of_str rid);
           ("costLast30d", of_float cost_val);
           ("currency", currency);
           ("remediation", VStr hint)].

Definition snapshot_item (sshot : resource) : dict :=
  let rid := r_id sshot in
  let hint := remediation_hint "snapshot" rid in
  display [("resourceType", VStr "snapshot");
           ("name", of_str (r_name sshot));
           ("resourceGroup", of_str (r_resourceGroup sshot));
           ("location", of_str (r_location sshot));
           ("sizeGb", of_int (r_sizeGb sshot));
           ("ageDays", of_int (r_ageDays sshot));
           ("resourceId", of_str rid);
           ("costLast30d", VNone);
           ("currency", currency);
           ("remediation", VStr hint)].

(** The bodies of the five [for] loops, on the item lists only: the
    console lines, the counters and the running cost totals that the
    same loops maintain are left out. *)
Definition disk_step (st : items) (d : resource) : items :=
  if is_aks_related (r_name d) (r_resourceGroup d)
  then add_review st (disk_item d)
  else add_immediate st (disk_item d).

Definition public_ip_step (st : items) (p : resource) : items :=
  add_immediate st (public_ip_item p).

Definition nic_step (st : items) (n : resource) : items :=
  if is_aks_related (r_name n) (r_resourceGroup n)
  then add_review st (nic_item n)
  else add_immediate st (nic_item n).

Definition vm_step (st : items) (v : resource) : items :=
  add_immediate st (vm_item v).

Definition snapshot_step (st : items) (sshot : resource) : items :=
  add_snapshot st (snapshot_item sshot).

Definition subscription_items
           (orphan_disks public_ips nics vms_waste snapshots_old : list resource)
  : items :=
  let st := {| immediate_items := []; review_items := []; snapshot_items := [] |} in
  let st := fold_left disk_step orphan_disks st in
  let st := fold_left public_ip_step public_ips st in
  let st := fold_left nic_step nics st in
  let st := fold_left vm_step vms_waste st in
  if include_snapshots a then fold_left snapshot_step snapshots_old st else st.

End Subscription.

(** ** The snapshot section of the text report *)

(** A printed line, by its format and the values it is filled with. *)
Inductive line : Type :=
| SnapshotsHeader (days : Z)
| SnapshotLine (name rg loc : option string) (sizeGb ageDays : option Z)
| MoreLine (n : Z)
| NoSnapshotsLine (days : Z).

(** [sorted(l, key=key, reverse=True)]: a stable sort, the greatest key
    first; records with equal keys keep the order they had in [l]. *)
Fixpoint insert_desc {A : Type} (key : A -> Z) (x : A) (l : list A) : list A :=
  match l with
  | [] => [x]
  | y :: l' => if key x <? key y then y :: insert_desc key x l' else x :: l
  end.

Definition sorted_desc {A : Type} (key : A -> Z) (l : list A) : list A :=
  foldr (insert_desc key) [] l.

(** [x.get("ageDays", 0)] *)
Definition age_key (x : resource) : Z := default 0 (r_ageDays x).

Definition snapshot_line (sshot : resource) : line :=
  SnapshotLine (r_name sshot) (r_resourceGroup sshot) (r_location sshot)
               (r_sizeGb sshot) (r_ageDays sshot).

Definition snapshot_section (a : args) (snapshots_old : list resource) : list line :=
  if include_snapshots a then
    match snapshots_old with
    | [] => [NoSnapshotsLine (snapshot_days a)]
    | _ :: _ =>
        SnapshotsHeader (snapshot_days a)
        :: map snapshot_line (take 20 (sorted_desc age_key snapshots_old))
        ++ (if (20 <? length snapshots_old)%nat
            then [MoreLine (Z.of_nat (length snapshots_old) - 20)]
            else [])
    end
  else [].

(** ** One subscription, from the listings to the report *)

Record subscription : Type := {
  s_id : option string;
  s_name : option string
}.

(** The answers of the inventory queries for one subscription. *)
Record listings : Type := {
  disks_by_managed : list resource;
  disks_by_state : list resource;
  public_ips : list resource;
  nics : list resource;
  vms : list resource;
  snaps : list resource
}.

(** What the iteration adds to [all_findings] and what it prints about
    snapshots. *)
Record report : Type := {
  findings : list dict;
  snapshot_text : list line
}.

(** [s.get("name") or sub_id or "Unknown"] *)
Definition subscription_name (s : subscription) : string :=
  if Py.truthy (Py.or_empty (s_name s)) then Py.or_empty (s_name s)
  else if Py.truthy (Py.or_empty (s_id s)) then Py.or_empty (s_id s)
  else "Unknown".

Section Scan.

Variable fromisoformat : string -> option datetime.
Variable clock : nat -> Z.

Definition collect_snapshots (a : args) (w : listings) : list resource :=
  if include_snapshots a
  then get_snapshots_older_than_days fromisoformat clock (snapshot_days a) (snaps w)
  else [].

(** The body of [for s in subs] for a subscription that is scanned.
    [lookup] is the outcome of the cost lookup, [w] the inventory. *)
Definition scan_subscription (a : args) (s : subscription)
           (lookup : result cost_data) (w : listings) : report :=
  let sub_id := s_id s in
  let sub_name := subscription_name s in
  let '(cost_map, currency) := subscription_costs a lookup in
  let orphan_disks := get_orphaned_disks (disks_by_managed w) (disks_by_state w) in
  let vms_waste := get_stopped_not_deallocated_vms (vms w) in
  let snapshots_old := collect_snapshots a w in
  let its := subscription_items a cost_map currency
               orphan_disks (public_ips w) (nics w) vms_waste snapshots_old in
  if is_structured (output_format a) then
    {| findings := build_findings sub_name sub_id
                     (immediate_items its) (review_items its) (snapshot_items its);
       snapshot_text := [] |}
  else
    {| findings := []; snapshot_text := snapshot_section a snapshots_old |}.

End Scan.

(** ** Records and the findings they stand for

    The loops of [main] file each record under one of three lists.  The
    definitions below say, record by record, which finding the loops are
    expected to build; the properties relate the two. *)

Inductive kind : Type := Disk | PublicIp | Nic | Vm | Snapshot.

(** The bucket under which [main] files a record. *)
Definition bucket_of (k : kind) (r : resource) : string :=
  match k with
  | Disk | Nic =>
      if is_aks_related (r_name r) (r_resourceGroup r) then "aks_review" else "immediate"
  | PublicIp | Vm => "immediate"
  | Snapshot => "snapshot_review"
  end.

Definition item_of (a : args) (cost_map : gmap string Q) (currency : value)
           (k : kind) (r : resource) : dict :=
  match k with
  | Disk => disk_item a cost_map currency r
  | PublicIp => public_ip_item a cost_map currency r
  | Nic => nic_item a cost_map currency r
  | Vm => vm_item a cost_map currency r
  | Snapshot => snapshot_item currency r
  end.

Definition finding_of (a : args) (s : subscription) (costs : cost_data)
           (kr : kind * resource) : dict :=
  build_entry (subscription_name s) (s_id s) (bucket_of kr.1 kr.2)
              (item_of a costs.1 costs.2 kr.1 kr.2).

(** The records that the collectors hand to the loops, by kind. *)
Definition collected (fromisoformat : string -> option datetime) (clock : nat -> Z)
           (a : args) (w : listings) : list (kind * resource) :=
  (pair Disk <$> get_orphaned_disks (disks_by_managed w) (disks_by_state w))
  ++ (pair PublicIp <$> public_ips w)
  ++ (pair Nic <$> nics w)
  ++ (pair Vm <$> get_stopped_not_deallocated_vms (vms w))
  ++ (pair Snapshot <$> collect_snapshots fromisoformat clock a w).

(** The findings that [build_findings] makes of the three lists. *)
Definition entries (s : subscription) (st : items) : list dict :=
  build_findings (subscription_name s) (s_id s)
                 (immediate_items st) (review_items st) (snapshot_items st).

(** ** The resource-group pattern, read as tests on text

    What [_AKS_RG_PATTERN] asks of a lower-cased resource group: one of
    three beginnings, [aks] between two delimiters anywhere, or [aks]
    after a delimiter at the end ([$] also accepts one final newline). *)
(** The same tests when the text is searched from a position on: the
    beginnings count at the start of the text only ([bol]). *)
Definition rg_rules_from (bol : bool) (l : string) : bool :=
  (bol && (Py.startswith l "mc_" || Py.startswith l "aks_" || Py.startswith l "aks-"))
  || Py.str_in "_aks_" l || Py.str_in "_aks-" l
  || Py.str_in "-aks_" l || Py.str_in "-aks-" l
  || Py.endswith l "_aks" || Py.endswith l "-aks"
  || Py.endswith l (String.append "_aks" (String Re.newline EmptyString))
  || Py.endswith l (String.append "-aks" (String Re.newline EmptyString)).

(** And at one position: what a match that starts there asks. *)
Definition rg_rules_here (bol : bool) (l : string) : bool :=
  (bol && (Py.startswith l "mc_" || Py.startswith l "aks_" || Py.startswith l "aks-"))
  || Py.startswith l "_aks_" || Py.startswith l "_aks-"
  || Py.startswith l "-aks_" || Py.startswith l "-aks-"
  || String.eqb "_aks" l || String.eqb "-aks" l
  || String.eqb (String.append "_aks" (String Re.newline EmptyString)) l
  || String.eqb (String.append "-aks" (String Re.newline EmptyString)) l.

Definition rg_rules (l : string) : bool :=
  Py.startswith l "mc_" || Py.startswith l "aks_" || Py.startswith l "aks-"
  || Py.str_in "_aks_" l || Py.str_in "_aks-" l
  || Py.str_in "-aks_" l || Py.str_in "-aks-" l
  || Py.endswith l "_aks" || Py.endswith l "-aks"
  || Py.endswith l (String.append "_aks" (String Re.newline EmptyString))
  || Py.endswith l (String.append "-aks" (String Re.newline EmptyString)).

(** ** Tenant and subscriptions *)

(** [prompt_tenant_id] on the line the user types; [None] stands for
    [SystemExit]. *)
Definition prompt_tenant_id (typed : string) : option string :=
  let tid := Py.strip typed in
  if Py.truthy tid then Some tid else None.

(** [set([s.strip() for s in arg.split(",") if s.strip()])] *)
Definition names_of (arg : string) : gset string :=
  list_to_set (filter (fun x => Py.truthy x = true)
                      (Py.strip <$> Py.split ","%char arg)).

Definition sub_matches (sub : subscription) (names_or_ids : gset string) : bool :=
  let sub_name := Py.strip (Py.or_empty (s_name sub)) in
  let sub_id := Py.strip (Py.or_empty (s_id sub)) in
  bool_decide (sub_name ∈ names_or_ids) || bool_decide (sub_id ∈ names_or_ids).

(** The two [continue] tests at the head of [for s in subs]. *)
Definition is_scanned (skip only : gset string) (s : subscription) : bool :=
  if bool_decide (only <> ∅) && negb (sub_matches s only) then false
  else if sub_matches s skip then false
  else true.

(** ** Counters and running totals *)

Definition grand_counts_init : dict :=
  display [("immediate_disks", VInt 0); ("immediate_pips", VInt 0);
           ("immediate_vms", VInt 0); ("aks_review_disks", VInt 0);
           ("aks_review_nics", VInt 0); ("immediate_nics", VInt 0);
           ("snapshots_old", VInt 0)].

(** [d[k] += 1] on a counter; a dict without the key is left as it is
    (the script only counts under the seven keys above). *)
Definition incr (d : dict) (k : string) : dict :=
  match dict_get d k with
  | Some (VInt n) => dict_set d k (VInt (n + 1))
  | _ => d
  end.

(** What the loops of one subscription keep besides the items. *)
Record tally : Type := {
  grand_counts : dict;
  cost_immediate : Q;
  cost_review : Q
}.

Section Tally.

(** Addition of two floats. *)
Variable fadd : Q -> Q -> Q.

Variable a : args.
Variable cost_map : gmap string Q.

(** The closure [accumulate_cost]. *)
Definition accumulate_cost (t : tally) (cost_val : option Q) (bucket : string) : tally :=
  match cost_val with
  | None => t
  | Some c =>
      if String.eqb bucket "immediate" then
        {| grand_counts := grand_counts t;
           cost_immediate := fadd (cost_immediate t) c;
           cost_review := cost_review t |}
      else
        {| grand_counts := grand_counts t;
           cost_immediate := cost_immediate t;
           cost_review := fadd (cost_review t) c |}
  end.

Definition count (t : tally) (k : string) : tally :=
  {| grand_counts := incr (grand_counts t) k;
     cost_immediate := cost_immediate t;
     cost_review := cost_review t |}.

Definition disk_tally (t : tally) (d : resource) : tally :=
  let cost_val := get_cost a cost_map (r_id d) in
  if is_aks_related (r_name d) (r_resourceGroup d)
  then count (accumulate_cost t cost_val "review") "aks_review_disks"
  else count (accumulate_cost t cost_val "immediate") "immediate_disks".

Definition public_ip_tally (t : tally) (p : resource) : tally :=
  let cost_val := get_cost a cost_map (r_id p) in
  count (accumulate_cost t cost_val "immediate") "immediate_pips".

Definition nic_tally (t : tally) (n : resource) : tally :=
  let cost_val := get_cost a cost_map (r_id n) in
  if is_aks_related (r_name n) (r_resourceGroup n)
  then count (accumulate_cost t cost_val "review") "aks_review_nics"
  else count t "immediate_nics".

Definition vm_tally (t : tally) (v : resource) : tally :=
  let cost_val := get_cost a cost_map (r_id v) in
  count (accumulate_cost t cost_val "immediate") "immediate_vms".

Definition snapshot_tally (t : tally) (sshot : resource) : tally :=
  count t "snapshots_old".

(** The five loops of one subscription on the counters and the totals;
    [counts] is [grand_counts] as the subscription finds it, the totals
    start from [0.0]. *)
Definition subscription_tally (counts : dict)
           (orphan_disks public_ips nics vms_waste snapshots_old : list resource)
  : tally :=
  let t := {| grand_counts := counts; cost_immediate := 0; cost_review := 0 |} in
  let t := fold_left disk_tally orphan_disks t in
  let t := fold_left public_ip_tally public_ips t in
  let t := fold_left nic_tally nics t in
  let t := fold_left vm_tally vms_waste t in
  if include_snapshots a then fold_left snapshot_tally snapshots_old t else t.

End Tally.

(** ** The loop over the subscriptions *)

(** What the outside answers while one subscription is scanned. *)
Record answers : Type := {
  cost_lookup : result cost_data;
  inventory : listings;
  readings : nat -> Z
}.

(** [x or y] *)
Definition value_or (x y : value) : value := if value_truthy x then x else y.

Record run_state : Type := {
  all_findings : list dict;
  counts_so_far : dict;
  grand_cost_immediate : Q;
  grand_cost_review : Q;
  grand_currency : value
}.

Section Run.

Variable fadd : Q -> Q -> Q.
Variable fromisoformat : string -> option datetime.
Variable a : args.
Variable skip only : gset string.

Definition run_init : run_state :=
  {| all_findings := []; counts_so_far := grand_counts_init;
     grand_cost_immediate := 0; grand_cost_review := 0; grand_currency := VNone |}.

(** One turn of [for s in subs]. *)
Definition run_step (st : run_state) (sw : subscription * answers) : run_state :=
  let '(s, w) := sw in
  if negb (is_scanned skip only s) then st
  else
    let costs := subscription_costs a (cost_lookup w) in
    let currency' :=
      if no_cost a then grand_currency st
      else match cost_lookup w with
           | Ok cd => value_or (grand_currency st) cd.2
           | Raise _ => grand_currency st
           end in
    let orphan_disks :=
      get_orphaned_disks (disks_by_managed (inventory w)) (disks_by_state (inventory w)) in
    let vms_waste := get_stopped_not_deallocated_vms (vms (inventory w)) in
    let snapshots_old := collect_snapshots fromisoformat (readings w) a (inventory w) in
    let t := subscription_tally fadd a costs.1 (counts_so_far st)
               orphan_disks (public_ips (inventory w)) (nics (inventory w))
               vms_waste snapshots_old in
    {| all_findings :=
         all_findings st
         ++ findings (scan_subscription fromisoformat (readings w) a s (cost_lookup w)
                                        (inventory w));
       counts_so_far := grand_counts t;
       grand_cost_immediate := fadd (grand_cost_immediate st) (cost_immediate t);
       grand_cost_review := fadd (grand_cost_review st) (cost_review t);
       grand_currency := currency' |}.

Definition run_subscriptions (subs : list (subscription * answers)) : run_state :=
  fold_left run_step subs run_init.

End Run.

(** ** The CSV report *)

Definition fieldnames : list string :=
  ["subscription"; "subscriptionId"; "bucket"; "resourceType";
   "name"; "resourceGroup"; "location"; "sizeGb"; "sku"; "ip";
   "powerState"; "ageDays"; "resourceId"; "costLast30d"; "currency";
   "remediation"]%string.

(** The cells that [csv.DictWriter] makes of one finding, before they are
    turned into text: the value under each field name, the empty string
    for a missing key; keys that are no field name are ignored. *)
Definition csv_row (f : dict) : list value :=
  (fun k => default (VStr "") (dict_get f k)) <$> fieldnames.

(** The header and one row for each finding. *)
Definition csv_rows (fs : list dict) : list (list value) :=
  (VStr <$> fieldnames) :: (csv_row <$> fs).

(** ** Columns by name

    The position of the last [x] in a list of names: what the loop over
    the columns computes for each of its three names. *)
Fixpoint last_index (x : string) (l : list string) : option nat :=
  match l with
  | [] => None
  | y :: l' =>
      match last_index x l' with
      | Some j => Some (S j)
      | None => if String.eqb y x then Some 0%nat else None
      end
  end.

(** A position found in the columns that follow column [i0], or else the
    index held so far. *)
Definition shift (i0 : nat) (found : option nat) (before : option nat) : option nat :=
  match found with
  | Some j => Some (i0 + j)%nat
  | None => before
  end.

(** [(c.get("name") or "").lower()] of every column. *)
Definition column_names (cs : list (option string)) : list string :=
  (fun c => Py.lower (Py.or_empty c)) <$> cs.

(** ** Reading the counters

    The number under a counter, the counter that a record is counted
    under, and what the loops expect of [grand_counts]. *)
Definition counter (d : dict) (k : string) : Z :=
  match dict_get d k with
  | Some (VInt n) => n
  | _ => 0
  end.

Definition counter_of (k : kind) (r : resource) : string :=
  match k with
  | Disk =>
      if is_aks_related (r_name r) (r_resourceGroup r)
      then "aks_review_disks" else "immediate_disks"
  | PublicIp => "immediate_pips"
  | Nic =>
      if is_aks_related (r_name r) (r_resourceGroup r)
      then "aks_review_nics" else "immediate_nics"
  | Vm => "immediate_vms"
  | Snapshot => "snapshots_old"
  end.

Definition counter_names : list string :=
  ["immediate_disks"; "immediate_pips"; "immediate_vms"; "aks_review_disks";
   "aks_review_nics"; "immediate_nics"; "snapshots_old"]%string.

Definition counters_ready (d : dict) : Prop :=
  forall k : string, k ∈ counter_names -> exists n : Z, dict_get d k = Some (VInt n).

(** The three lists of items after the records [done] have been read. *)
Definition filed (a : args) (costs : cost_data) (st : items)
           (done : list (kind * resource)) : Prop :=
  immediate_items st
  = (fun kr => item_of a costs.1 costs.2 kr.1 kr.2)
      <$> filter (fun kr => bucket_of kr.1 kr.2 = "immediate"%string) done /\
  review_items st
  = (fun kr => item_of a costs.1 costs.2 kr.1 kr.2)
      <$> filter (fun kr => bucket_of kr.1 kr.2 = "aks_review"%string) done /\
  snapshot_items st
  = (fun kr => item_of a costs.1 costs.2 kr.1 kr.2)
      <$> filter (fun kr => bucket_of kr.1 kr.2 = "snapshot_review"%string) done.

(** The records collected in the subscriptions that the run scans, in
    the order of the run. *)
Definition scanned_records (fromisoformat : string -> option datetime) (a : args)
           (skip only : gset string) (subs : list (subscription * answers))
  : list (kind * resource) :=
  concat ((fun sw : subscription * answers =>
             if is_scanned skip only sw.1
             then collected fromisoformat (readings sw.2) a (inventory sw.2)
             else [])
          <$> subs).

(** The sum of the seven counters. *)
Definition counted (d : dict) : Z :=
  foldr Z.add 0 (counter d <$> counter_names).

(** A subscription is listed in the argument of [--skip-subs] or
    [--only-subs] when one of the pieces between the commas, whitespace
    around it apart, is its name or its id. *)
Definition listed (s : subscription) (arg : string) : Prop :=
  exists piece : string,
    piece ∈ Py.split ","%char arg /\ Py.strip piece <> EmptyString /\
    (Py.strip piece = Py.strip (Py.or_empty (s_name s)) \/
     Py.strip piece = Py.strip (Py.or_empty (s_id s))).

(** The currencies that the cost lookups of the scanned subscriptions
    return, in the order of the run. *)
Definition scanned_currencies (skip only : gset string)
           (subs : list (subscription * answers)) : list value :=
  omap (fun sw : subscription * answers =>
          if is_scanned skip only sw.1
          then match cost_lookup sw.2 with
               | Ok cd => Some cd.2
               | Raise _ => None
               end
          else None) subs.

(** ** Sample inputs *)

Definition named (rid name rg : string) : resource :=
  {| r_id := Some rid; r_name := Some name; r_resourceGroup := Some rg;
     r_location := None; r_sizeGb := None; r_sku := None; r_ip := None;
     r_powerState := None; r_timeCreated := None; r_ageDays := None |}.

Definition vm_in_state (ps : string) : resource :=
  {| r_id := Some "/subscriptions/abc/vm1"; r_name := Some "vm1";
     r_resourceGroup := Some "rg"; r_location := None; r_sizeGb := None;
     r_sku := None; r_ip := None; r_powerState := Some ps;
     r_timeCreated := None; r_ageDays := None |}.

(** A parser and a clock for one snapshot, created on 2024-01-01 at
    midnight UTC and listed exactly 180 days later. *)
Definition sample_fromisoformat (s : string) : option datetime :=
  if String.eqb s "2024-01-01T00:00:00+00:00"
  then Some {| dt_wall := 1704067200000000; dt_utcoffset := Some 0 |}
  else None.

Definition sample_clock (n : nat) : Z :=
  1704067200000000 + 180 * usec_per_day + Z.of_nat n.

Definition sample_snapshot : resource :=
  {| r_id := Some "/subscriptions/abc/Snap1"; r_name := Some "snap1";
     r_resourceGroup := Some "rg"; r_location := None; r_sizeGb := Some 128;
     r_sku := None; r_ip := None; r_powerState := None;
     r_timeCreated := Some "2024-01-01T00:00:00Z"; r_ageDays := None |}.

(** A snapshot created one day, to the microsecond, before a clock that
    is first read on 2038-01-19 at 08:14:08.000003 UTC. *)
Definition late_fromisoformat (s : string) : option datetime :=
  if String.eqb s "2038-01-18T08:14:08.000003+00:00"
  then Some {| dt_wall := 2147415248000003; dt_utcoffset := Some 0 |}
  else None.

Definition late_clock (n : nat) : Z := 2147501648000003 + Z.of_nat n.

Definition late_snapshot : resource :=
  {| r_id := Some "/subscriptions/abc/Snap2"; r_name := Some "snap2";
     r_resourceGroup := Some "rg"; r_location := None; r_sizeGb := Some 128;
     r_sku := None; r_ip := None; r_powerState := None;
     r_timeCreated := Some "2038-01-18T08:14:08.000003Z"; r_ageDays := None |}.

(** The sample snapshot, already aged by the collector. *)
Definition aged (n : Z) : resource := set_ageDays sample_snapshot n.

Definition sample_args (fmt : format) : args :=
  {| include_snapshots := true; snapshot_days := 180; no_cost := false;
     output_format := fmt |}.

(** One page of cost rows, the identifier in upper case. *)
Definition sample_page (link : option string) : response :=
  {| columns := [Some "PreTaxCost"; Some "ResourceId"; Some "Currency"];
     rows := [[VFloat (25 # 2); VStr "/SUBSCRIPTIONS/abc/Disk1"; VStr "GBP"]];
     nextLink := link |}.

Definition sample_index : gmap string Q :=
  <["/subscriptions/abc/disk1"%string := 25 # 2]> ∅.

(** Stand-ins for Python's conversions; the samples need neither, their
    identifiers being strings and their costs numbers. *)
Definition sample_float_repr : Q -> string := fun _ => "0.0"%string.
Definition sample_float_of_str : string -> option Q := fun _ => None.

(** One subscription: a disk behind a persistent volume claim, seen by
    both disk filters, a public IP, and the sample snapshot; the disk and
    the snapshot have a cost row. *)
Definition sample_listings : listings :=
  {| disks_by_managed := [named "/subscriptions/abc/Disk1" "pvc-1234" "rg-data"];
     disks_by_state := [named "/SUBSCRIPTIONS/abc/disk1" "pvc-1234" "rg-data"];
     public_ips := [named "/subscriptions/abc/pip1" "pip1" "flasks"];
     nics := []; vms := [];
     snaps := [sample_snapshot] |}.

Definition sample_costs : cost_data :=
  (<["/subscriptions/abc/snap1"%string := 5 # 1]> sample_index, VStr "GBP").

Definition sample_subscription : subscription :=
  {| s_id := Some "abc"%string; s_name := Some "Production"%string |}.

Definition sample_scan (fmt : format) : report :=
  scan_subscription sample_fromisoformat sample_clock (sample_args fmt)
                    sample_subscription (Ok sample_costs) sample_listings.

(** * Properties *)

(** ** Strings *)

Section PyFacts.

Import Py.

Lemma lower_char_idem (c : ascii) : lower_char (lower_char c) = lower_char c.
Proof. destruct c as [[] [] [] [] [] [] [] []]; reflexivity. Qed.

Lemma lower_idem (s : string) : lower (lower s) = lower s.
Proof.
  induction s as [|c s IH]; simpl; [reflexivity|].
  now rewrite lower_char_idem, IH.
Qed.

Lemma truthy_lower (s : string) : truthy (lower s) = truthy s.
Proof. destruct s; reflexivity. Qed.

Lemma truthy_true (s : string) : truthy s = true <-> s <> EmptyString.
Proof. destruct s; simpl; split; intros; congruence. Qed.

Lemma startswith_app (p post : string) : startswith (p +:+ post) p = true.
Proof.
  induction p as [|c p IH]; simpl; [reflexivity|].
  now rewrite Ascii.eqb_refl.
Qed.

Lemma startswith_spec (s p : string) :
  startswith s p = true <-> exists post, s = p +:+ post.
Proof.
  split.
  - revert s. induction p as [|c p IH]; intros s H.
    + now exists s.
    + destruct s as [|b s]; simpl in H; [discriminate|].
      destruct (Ascii.eqb c b) eqn:E; [|discriminate].
      apply Ascii.eqb_eq in E. subst b.
      destruct (IH _ H) as [post ->]. now exists post.
  - intros [post ->]. apply startswith_app.
Qed.

Lemma str_in_startswith (sub s : string) :
  startswith s sub = true -> str_in sub s = true.
Proof. intros H. destruct s; simpl; now rewrite H. Qed.

(** [sub in s] holds exactly when [s] is [pre + sub + post]. *)
Lemma str_in_spec (sub s : string) :
  str_in sub s = true <-> exists pre post, s = pre +:+ sub +:+ post.
Proof.
  split.
  - induction s as [|c s IH]; simpl; intros H.
    + rewrite orb_false_r in H. apply startswith_spec in H as [post H].
      now exists EmptyString, post.
    + apply orb_true_iff in H as [H|H].
      * apply startswith_spec in H as [post H]. now exists EmptyString, post.
      * destruct (IH H) as (pre & post & ->). now exists (String c pre), post.
  - intros (pre & post & ->).
    induction pre as [|c pre IH].
    + change (EmptyString +:+ sub +:+ post) with (sub +:+ post).
      apply str_in_startswith, startswith_app.
    + change (String c pre +:+ sub +:+ post) with (String c (pre +:+ sub +:+ post)).
      simpl. rewrite IH. apply orb_true_r.
Qed.

End PyFacts.

(** ** Virtual machines *)

Lemma likely_vms_filter (vms likely : list resource) :
  likely_vms vms likely = likely ++ filter (fun v => stopped_not_deallocated v = true) vms.
Proof.
  revert likely. induction vms as [|v vms IH]; intros likely; simpl.
  - now rewrite app_nil_r.
  - rewrite filter_cons. destruct (stopped_not_deallocated v) eqn:E.
    + rewrite IH. rewrite decide_True by reflexivity. now rewrite <- app_assoc.
    + rewrite IH. rewrite decide_False by discriminate. reflexivity.
Qed.

(** C4. A VM of the listing is kept by [get_stopped_not_deallocated_vms]
    exactly when its lower-cased power state contains [stopped] and does
    not contain [deallocated]; so [VM stopped] is flagged, [VM deallocated]
    and [VM stopping] are not. *)
Theorem vm_flagged_iff_stopped_not_deallocated :
  (forall (vms : list resource) (v : resource),
      v ∈ get_stopped_not_deallocated_vms vms <->
      v ∈ vms /\
      (exists pre post,
          Py.lower (Py.or_empty (r_powerState v)) = pre +:+ "stopped" +:+ post) /\
      ~ (exists pre post,
          Py.lower (Py.or_empty (r_powerState v)) = pre +:+ "deallocated" +:+ post))
  /\ get_stopped_not_deallocated_vms [vm_in_state "VM stopped"] = [vm_in_state "VM stopped"]
  /\ get_stopped_not_deallocated_vms [vm_in_state "VM deallocated"] = []
  /\ get_stopped_not_deallocated_vms [vm_in_state "VM stopping"] = [].
Proof.
  split; [|repeat split; reflexivity].
  intros vms v. unfold get_stopped_not_deallocated_vms.
  rewrite likely_vms_filter. simpl. rewrite list_elem_of_filter.
  unfold stopped_not_deallocated.
  rewrite andb_true_iff, negb_true_iff.
  rewrite <- !str_in_spec.
  split.
  - intros [[H1 H2] H3]. repeat split; [assumption..|]. congruence.
  - intros (H1 & H2 & H3). repeat split; [assumption| |assumption].
    now destruct (Py.str_in "deallocated" _).
Qed.

(** ** The classifier *)

Example aks_pattern_samples :
  Re.search _AKS_RG_PATTERN "MC_rg_cluster_westeurope" = true /\
  Re.search _AKS_RG_PATTERN "mc_rg" = true /\
  Re.search _AKS_RG_PATTERN "prod-AKS-nodes" = true /\
  Re.search _AKS_RG_PATTERN "aks_prod" = true /\
  Re.search _AKS_RG_PATTERN "prod_aks" = true /\
  Re.search _AKS_RG_PATTERN "aks" = false /\
  Re.search _AKS_RG_PATTERN "rg-MC_x" = false.
Proof. repeat split; reflexivity. Qed.

(** C5, as the code has it.  The resource-group pattern matches neither
    [flasks] nor [tasks-prod]; for a resource in such a group the
    classifier is decided by the tests on the name alone, and answers
    "not AKS-related" when none of them holds. *)
Theorem plain_groups_left_to_name_rules (rg : string) (name : option string) :
  rg = "flasks"%string \/ rg = "tasks-prod"%string ->
  Re.search _AKS_RG_PATTERN rg = false /\
  is_aks_related name (Some rg) =
    (let n := Py.lower (Py.or_empty name) in
     Py.startswith n "pvc-"
     || (Py.str_in "kube" n || Py.str_in "kube-apiserver.nic" n || Py.str_in "-pe-" n)) /\
  (let n := Py.lower (Py.or_empty name) in
   Py.startswith n "pvc-" = false -> Py.str_in "kube" n = false ->
   Py.str_in "-pe-" n = false ->
   is_aks_related name (Some rg) = false).
Proof.
  intros Hrg.
  assert (Hs : Re.search _AKS_RG_PATTERN rg = false)
    by (destruct Hrg as [-> | ->]; reflexivity).
  split; [exact Hs|]. unfold is_aks_related.
  change (Py.or_empty (Some rg)) with rg. cbv zeta. rewrite Hs. split.
  - destruct (Py.startswith _ "pvc-"); [reflexivity|].
    now destruct (_ || _ || _).
  - intros -> Hk Hpe. rewrite Hk, Hpe. simpl.
    destruct (Py.str_in "kube-apiserver.nic" _) eqn:E; [|reflexivity].
    apply str_in_spec in E as (pre & post & E).
    assert (Py.str_in "kube" (Py.lower (Py.or_empty name)) = true) as Hk'.
    { apply str_in_spec. exists pre, ("-apiserver.nic" +:+ post). rewrite E. reflexivity. }
    congruence.
Qed.

Lemma plain_groups_left_to_name_rules_witness :
  Re.search _AKS_RG_PATTERN "flasks" = false /\
  is_aks_related (Some "disk-01") (Some "flasks") = false.
Proof.
  destruct (plain_groups_left_to_name_rules "flasks" (Some "disk-01")) as (H1 & _ & H3).
  - left. reflexivity.
  - split; [exact H1|]. apply H3; reflexivity.
Defined.

(** C5 as stated fails: a disk named [pvc-1234] in the resource group
    [flasks] is AKS-related. *)
Lemma flasks_group_can_be_aks_related :
  ~ (forall (name : option string) (rg : string),
        rg = "flasks"%string \/ rg = "tasks-prod"%string ->
        is_aks_related name (Some rg) = false).
Proof.
  intros H. specialize (H (Some "pvc-1234"%string) "flasks"%string (or_introl eq_refl)).
  vm_compute in H. discriminate.
Qed.

(** ** Orphaned disks *)

Section Merge.

Lemma merge_inv_init : merge_inv ∅ [].
Proof.
  repeat split; try constructor.
  - intros H. now apply not_elem_of_empty in H.
  - intros H. inversion H.
Qed.

Lemma merge_inv_step (seen : gset string) (result : list resource) (d : resource) :
  merge_inv seen result ->
  Py.truthy (lower_id d) = true -> lower_id d ∉ seen ->
  merge_inv ({[lower_id d]} ∪ seen) (result ++ [d]).
Proof.
  intros (Hseen & Hnd & Hall) Ht Hnew. repeat split.
  - rewrite fmap_app, elem_of_union, elem_of_app, Hseen, elem_of_singleton.
    simpl. rewrite list_elem_of_singleton. tauto.
  - rewrite fmap_app, elem_of_union, elem_of_app, Hseen, elem_of_singleton.
    simpl. rewrite list_elem_of_singleton. tauto.
  - rewrite fmap_app. apply NoDup_app. split; [assumption|]. split.
    + intros k Hk Hk'. simpl in Hk'. apply list_elem_of_singleton in Hk'. subst k.
      apply Hnew, Hseen, Hk.
    + simpl. apply NoDup_singleton.
  - apply Forall_app. split; [assumption|]. now constructor.
Qed.

Lemma merge_disks_spec (ds : list resource) :
  forall (seen : gset string) (result : list resource),
    merge_inv seen result ->
    let out := merge_disks ds seen result in
    NoDup (lower_id <$> out) /\
    Forall (fun d => Py.truthy (lower_id d) = true) out /\
    (forall k, k ∈ lower_id <$> out <->
               k ∈ lower_id <$> result \/
               (Py.truthy k = true /\ k ∈ lower_id <$> ds)) /\
    (forall d, d ∈ out -> d ∈ result \/ d ∈ ds).
Proof.
  induction ds as [|d ds IH]; intros seen result Hinv; simpl.
  - destruct Hinv as (Hseen & Hnd & Hall). repeat split; try assumption.
    + now left.
    + intros [H | [_ H]]; [assumption|]. inversion H.
    + now left.
  - destruct (Py.truthy (lower_id d)) eqn:Ht; simpl.
    + destruct (bool_decide (lower_id d ∉ seen)) eqn:Hd.
      * apply bool_decide_eq_true in Hd.
        destruct (IH _ _ (merge_inv_step _ _ _ Hinv Ht Hd)) as (H1 & H2 & H3 & H4).
        repeat split; try assumption.
        -- intros Hk. apply H3 in Hk. rewrite fmap_app, elem_of_app in Hk. simpl in Hk.
           rewrite list_elem_of_singleton in Hk. rewrite elem_of_cons.
           destruct Hk as [[Hk | Hk] | [Hk1 Hk2]]; [now left| |right; split; auto].
           subst k. right. split; [assumption | now left].
        -- intros Hk. apply H3. rewrite fmap_app, elem_of_app. simpl.
           rewrite list_elem_of_singleton. rewrite elem_of_cons in Hk.
           destruct Hk as [Hk | [Hk1 [Hk2 | Hk2]]]; [left; now left | left; now right | right; split; auto].
        -- intros x Hx. apply H4 in Hx. rewrite elem_of_app, list_elem_of_singleton in Hx.
           rewrite elem_of_cons. tauto.
      * apply bool_decide_eq_false in Hd.
        assert (Hin : lower_id d ∈ seen) by (destruct (decide (lower_id d ∈ seen)); tauto).
        destruct (IH _ _ Hinv) as (H1 & H2 & H3 & H4).
        repeat split; try assumption.
        -- intros Hk. apply H3 in Hk. rewrite elem_of_cons. tauto.
        -- intros Hk. apply H3. rewrite elem_of_cons in Hk.
           destruct Hk as [Hk | [Hk1 [Hk2 | Hk2]]]; [now left | | right; split; auto].
           subst k. left. apply Hinv, Hin.
        -- intros x Hx. apply H4 in Hx. rewrite elem_of_cons. tauto.
    + destruct (IH _ _ Hinv) as (H1 & H2 & H3 & H4).
      repeat split; try assumption.
      * intros Hk. apply H3 in Hk. rewrite elem_of_cons. tauto.
      * intros Hk. apply H3. rewrite elem_of_cons in Hk.
        destruct Hk as [Hk | [Hk1 [Hk2 | Hk2]]]; [now left | | right; split; auto].
        subst k. congruence.
      * intros x Hx. apply H4 in Hx. rewrite elem_of_cons. tauto.
Qed.

Lemma get_orphaned_disks_spec (by_managed by_state : list resource) :
  let out := get_orphaned_disks by_managed by_state in
  NoDup (lower_id <$> out) /\
  Forall (fun d => Py.truthy (lower_id d) = true) out /\
  (forall k, k ∈ lower_id <$> out <->
             Py.truthy k = true /\ k ∈ lower_id <$> (by_managed ++ by_state)) /\
  (forall d, d ∈ out -> d ∈ by_managed ++ by_state).
Proof.
  destruct (merge_disks_spec (by_managed ++ by_state) ∅ [] merge_inv_init)
    as (H1 & H2 & H3 & H4).
  repeat split; try assumption.
  - apply H3 in H. destruct H as [H | H]; [inversion H | tauto].
  - apply H3 in H. destruct H as [H | H]; [inversion H | tauto].
  - intros H. apply H3. now right.
  - intros d Hd. apply H4 in Hd as [Hd | Hd]; [inversion Hd | assumption].
Qed.

Lemma filter_absent {A : Type} (f : A -> string) (l : list A) (k : string) :
  k ∉ f <$> l -> filter (fun x => f x = k) l = [].
Proof.
  induction l as [|x l IH]; simpl; intros Hk; [reflexivity|].
  apply not_elem_of_cons in Hk as [Hx Hk].
  rewrite filter_cons, decide_False by congruence. now apply IH.
Qed.

(** In a list without repeated keys, a key that occurs is the key of
    exactly one element. *)
Lemma NoDup_fmap_count {A : Type} (f : A -> string) (l : list A) (k : string) :
  NoDup (f <$> l) -> k ∈ f <$> l ->
  length (filter (fun x => f x = k) l) = 1%nat.
Proof.
  induction l as [|x l IH]; simpl; intros Hnd Hin.
  - inversion Hin.
  - apply NoDup_cons in Hnd as [Hx Hnd]. rewrite filter_cons.
    destruct (decide (f x = k)) as [E | E].
    + simpl. f_equal. subst k. now rewrite filter_absent.
    + apply elem_of_cons in Hin as [Hin | Hin]; [congruence|]. now apply IH.
Qed.

End Merge.

(** C3. When both filters return a record of the same non-empty
    identifier, up to case, the merged inventory holds exactly one record
    with that identifier, up to case; and no two records of the merged
    inventory have identifiers that are equal up to case. *)
Theorem orphaned_disks_one_record_per_identifier
        (by_managed by_state : list resource) (d1 d2 : resource) (x1 x2 : string) :
  d1 ∈ by_managed -> d2 ∈ by_state ->
  r_id d1 = Some x1 -> r_id d2 = Some x2 ->
  Py.lower x1 = Py.lower x2 -> x1 <> EmptyString ->
  length (filter (fun d => lower_id d = Py.lower x1)
                 (get_orphaned_disks by_managed by_state)) = 1%nat /\
  (forall (i j : nat) (di dj : resource),
      get_orphaned_disks by_managed by_state !! i = Some di ->
      get_orphaned_disks by_managed by_state !! j = Some dj ->
      lower_id di = lower_id dj -> i = j).
Proof.
  intros Hd1 Hd2 Hx1 Hx2 Hlow Hne.
  destruct (get_orphaned_disks_spec by_managed by_state) as (Hnd & _ & Hkeys & _).
  split.
  - apply NoDup_fmap_count; [assumption|]. apply Hkeys. split.
    + rewrite truthy_lower. now apply truthy_true.
    + apply list_elem_of_fmap. exists d1. split.
      * unfold lower_id. now rewrite Hx1.
      * apply elem_of_app. now left.
  - intros i j di dj Hi Hj Heq.
    apply (NoDup_lookup _ i j (lower_id di) Hnd).
    + now rewrite list_lookup_fmap, Hi.
    + now rewrite list_lookup_fmap, Hj, Heq.
Qed.

Lemma orphaned_disks_one_record_per_identifier_witness :
  length (filter (fun d => lower_id d = "/subscriptions/abc/disk1"%string)
            (get_orphaned_disks
               [named "/subscriptions/abc/Disk1" "data" "rg"]
               [named "/SUBSCRIPTIONS/abc/disk1" "data" "rg"])) = 1%nat.
Proof.
  apply (orphaned_disks_one_record_per_identifier
           [named "/subscriptions/abc/Disk1" "data" "rg"]
           [named "/SUBSCRIPTIONS/abc/disk1" "data" "rg"]
           (named "/subscriptions/abc/Disk1" "data" "rg")
           (named "/SUBSCRIPTIONS/abc/disk1" "data" "rg")
           "/subscriptions/abc/Disk1" "/SUBSCRIPTIONS/abc/disk1").
  - apply list_elem_of_singleton. reflexivity.
  - apply list_elem_of_singleton. reflexivity.
  - reflexivity.
  - reflexivity.
  - reflexivity.
  - discriminate.
Defined.

(** ** Snapshots *)

Section SnapshotFacts.

Variable fromisoformat : string -> option datetime.
Variable clock : nat -> Z.




End SnapshotFacts.



(** The two floats of the late snapshot: [0x1.fffbd3400000dp+30] and
    [0x1.fffbd3400000cp+30]. *)
Example late_snapshot_floats :
  Rounded.timestamp {| dt_wall := 2147415248000003; dt_utcoffset := Some 0 |}
  = S754_finite false 9006912364347405 (-22) /\
  Rounded.cutoff_of (late_clock 0) 1 = Ok (S754_finite false 9006912364347404 (-22)) /\
  Rounded.get_snapshots_older_than_days late_fromisoformat late_clock 1 [late_snapshot]
  = Ok [].
Proof. repeat split; vm_compute; reflexivity. Qed.


(** ** The cost index *)

Section CostFacts.

Variable float_repr : Q -> string.
Variable float_of_str : string -> option Q.

(** One turn of the loop over the rows, when it does not raise. *)
Lemma index_rows_cons (i_rid i_cost : nat) (i_currency : option nat)
      (r : list value) (rs : list (list value)) (m : gmap string Q) (cur : value) (res : cost_data) :
  index_rows float_repr float_of_str i_rid i_cost i_currency (r :: rs) m cur = Ok res ->
  exists rid cost cur',
    r !! i_rid = Some rid /\ r !! i_cost = Some cost /\
    ((value_truthy rid = false /\
      index_rows float_repr float_of_str i_rid i_cost i_currency rs m cur' = Ok res) \/
     (value_truthy rid = true /\
      exists c, py_float float_of_str (or_zero cost) = Ok c /\
                index_rows float_repr float_of_str i_rid i_cost i_currency rs
                  (<[Py.lower (py_str float_repr rid) := c]> m) cur' = Ok res)).
Proof.
  simpl. unfold item.
  destruct (r !! i_rid) as [rid|]; unbind; [|discriminate].
  destruct (r !! i_cost) as [cost|]; unbind; [|discriminate].
  set (c' := match i_currency with Some i => _ | None => _ end).
  destruct c' as [cur'|]; unbind; [|discriminate].
  intros H. exists rid, cost, cur'. repeat split.
  destruct (value_truthy rid); simpl in H.
  - right. split; [reflexivity|].
    destruct (py_float float_of_str (or_zero cost)) as [c|]; [|discriminate].
    now exists c.
  - left. now split.
Qed.

(** Every entry of the index comes from the map the loop started with
    or from a row, under the row's identifier in lower case. *)
Lemma index_rows_entries (i_rid i_cost : nat) (i_currency : option nat) (rs : list (list value)) :
  forall (m : gmap string Q) (cur : value) (m' : gmap string Q) (cur' : value),
    index_rows float_repr float_of_str i_rid i_cost i_currency rs m cur = Ok (m', cur') ->
    forall (k : string) (c : Q),
      m' !! k = Some c ->
      m !! k = Some c \/
      exists r rid cost,
        r ∈ rs /\ r !! i_rid = Some rid /\ r !! i_cost = Some cost /\
        value_truthy rid = true /\ k = Py.lower (py_str float_repr rid) /\
        py_float float_of_str (or_zero cost) = Ok c.
Proof.
  induction rs as [|r rs IH]; intros m cur m' cur' Hrun k c Hk.
  - simpl in Hrun. inversion Hrun; subst. now left.
  - apply index_rows_cons in Hrun
      as (rid & cost & cur1 & Hrid & Hcost & [[Ht Hrun] | [Ht (c1 & Hc1 & Hrun)]]).
    + destruct (IH _ _ _ _ Hrun k c Hk) as [H | (r' & rid' & cost' & Hin & H)].
      * now left.
      * right. exists r', rid', cost'. split; [now apply elem_of_cons; right | exact H].
    + destruct (IH _ _ _ _ Hrun k c Hk) as [H | (r' & rid' & cost' & Hin & H)].
      * destruct (decide (Py.lower (py_str float_repr rid) = k)) as [E | E].
        -- subst k. rewrite lookup_insert_eq in H. inversion H; subst c1.
           right. exists r, rid, cost. repeat split; try assumption. now left.
        -- rewrite lookup_insert_ne in H by assumption. now left.
      * right. exists r', rid', cost'. split; [now apply elem_of_cons; right | exact H].
Qed.

(** Rows whose keys differ from [k] leave the entry of [k] alone. *)
Lemma index_rows_untouched (i_rid i_cost : nat) (i_currency : option nat)
      (rs : list (list value)) (k : string) :
  (forall r rid, r ∈ rs -> r !! i_rid = Some rid -> value_truthy rid = true ->
                 Py.lower (py_str float_repr rid) <> k) ->
  forall (m : gmap string Q) (cur : value) (m' : gmap string Q) (cur' : value),
    index_rows float_repr float_of_str i_rid i_cost i_currency rs m cur = Ok (m', cur') ->
    m' !! k = m !! k.
Proof.
  induction rs as [|r rs IH]; intros Hfree m cur m' cur' Hrun.
  - simpl in Hrun. now inversion Hrun.
  - assert (Hfree' : forall r0 rid, r0 ∈ rs -> r0 !! i_rid = Some rid ->
              value_truthy rid = true -> Py.lower (py_str float_repr rid) <> k).
    { intros r0 rid0 Hin. apply Hfree. now apply elem_of_cons; right. }
    apply index_rows_cons in Hrun
      as (rid & cost & cur1 & Hrid & Hcost & [[Ht Hrun] | [Ht (c1 & Hc1 & Hrun)]]).
    + exact (IH Hfree' _ _ _ _ Hrun).
    + rewrite (IH Hfree' _ _ _ _ Hrun).
      apply lookup_insert_ne. apply (Hfree r rid); [now left | assumption..].
Qed.

(** A row that no later row supersedes is indexed with its own cost. *)
Lemma index_rows_last_wins (i_rid i_cost : nat) (i_currency : option nat)
      (rs1 : list (list value)) :
  forall (r : list value) (rs2 : list (list value)) (rid cost : value)
         (m : gmap string Q) (cur : value) (m' : gmap string Q) (cur' : value),
    index_rows float_repr float_of_str i_rid i_cost i_currency (rs1 ++ r :: rs2) m cur = Ok (m', cur') ->
    r !! i_rid = Some rid -> r !! i_cost = Some cost -> value_truthy rid = true ->
    (forall r' rid', r' ∈ rs2 -> r' !! i_rid = Some rid' -> value_truthy rid' = true ->
                     Py.lower (py_str float_repr rid') <> Py.lower (py_str float_repr rid)) ->
    exists c, py_float float_of_str (or_zero cost) = Ok c /\ m' !! Py.lower (py_str float_repr rid) = Some c.
Proof.
  induction rs1 as [|r1 rs1 IH]; intros r rs2 rid cost m cur m' cur' Hrun Hrid Hcost Ht Hfree.
  - simpl app in Hrun. apply index_rows_cons in Hrun
      as (rid0 & cost0 & cur1 & Hrid0 & Hcost0 & [[Ht0 Hrun] | [Ht0 (c1 & Hc1 & Hrun)]]).
    + congruence.
    + assert (rid0 = rid) by congruence. assert (cost0 = cost) by congruence. subst.
      exists c1. split; [assumption|].
      rewrite (index_rows_untouched _ _ _ _ _ Hfree _ _ _ _ Hrun).
      apply lookup_insert_eq.
  - change ((r1 :: rs1) ++ r :: rs2) with (r1 :: (rs1 ++ r :: rs2)) in Hrun.
    apply index_rows_cons in Hrun
      as (rid0 & cost0 & cur1 & Hrid0 & Hcost0 & [[Ht0 Hrun] | [Ht0 (c1 & Hc1 & Hrun)]]).
    + exact (IH _ _ _ _ _ _ _ _ Hrun Hrid Hcost Ht Hfree).
    + exact (IH _ _ _ _ _ _ _ _ Hrun Hrid Hcost Ht Hfree).
Qed.

Lemma get_cost_lower (a : args) (m : gmap string Q) (q : string) :
  no_cost a = false -> q <> EmptyString ->
  get_cost a m (Some q) = m !! Py.lower q.
Proof.
  intros Hnc Hq. unfold get_cost. rewrite Hnc. simpl.
  apply truthy_true in Hq. now rewrite Hq.
Qed.

End CostFacts.

(** C7, as the code has it.  In a cost index that the lookup returns,
    every key is the lower-cased identifier of a row and is bound to that
    row's cost; a query that equals a key up to case returns the cost
    bound to it; and a row that no later row supersedes is found, with
    its own cost, under every spelling of its identifier. *)
Theorem cost_index_is_case_insensitive
        (float_repr : Q -> string) (float_of_str : string -> option Q)
        (st : lookup_state) (m : gmap string Q) (cur : value) :
  build_cost_map float_repr float_of_str st = Ok (m, cur) ->
  (forall (k : string) (c : Q),
      m !! k = Some c ->
      Py.lower k = k /\
      exists (i_rid i_cost : nat) (r : list value) (rid cost : value),
        idx_rid (resolve_columns (cols st)) = Some i_rid /\
        idx_cost (resolve_columns (cols st)) = Some i_cost /\
        r ∈ all_rows st /\ r !! i_rid = Some rid /\ r !! i_cost = Some cost /\
        value_truthy rid = true /\
        k = Py.lower (py_str float_repr rid) /\
        py_float float_of_str (or_zero cost) = Ok c) /\
  (forall (a : args) (k q : string) (c : Q),
      no_cost a = false -> m !! k = Some c ->
      q <> EmptyString -> Py.lower q = k ->
      get_cost a m (Some q) = Some c) /\
  (forall (a : args) (i_rid i_cost : nat) (rs1 rs2 : list (list value)) (r : list value)
          (rid cost : value) (q : string),
      no_cost a = false ->
      idx_rid (resolve_columns (cols st)) = Some i_rid ->
      idx_cost (resolve_columns (cols st)) = Some i_cost ->
      all_rows st = rs1 ++ r :: rs2 ->
      r !! i_rid = Some rid -> r !! i_cost = Some cost -> value_truthy rid = true ->
      (forall r' rid', r' ∈ rs2 -> r' !! i_rid = Some rid' -> value_truthy rid' = true ->
                       Py.lower (py_str float_repr rid') <> Py.lower (py_str float_repr rid)) ->
      q <> EmptyString -> Py.lower q = Py.lower (py_str float_repr rid) ->
      exists c, py_float float_of_str (or_zero cost) = Ok c /\
                get_cost a m (Some q) = Some c).
Proof.
  unfold build_cost_map. intros Hbuild. repeat split.
  - destruct (idx_cost (resolve_columns (cols st))) as [i_cost|] eqn:Ec;
      destruct (idx_rid (resolve_columns (cols st))) as [i_rid|] eqn:Er;
      try (inversion Hbuild; subst; now rewrite lookup_empty in H).
    destruct (index_rows_entries _ _ _ _ _ _ _ _ _ _ Hbuild k c H)
      as [H0 | (r & rid & cost & _ & _ & _ & _ & -> & _)].
    + now rewrite lookup_empty in H0.
    + apply lower_idem.
  - destruct (idx_cost (resolve_columns (cols st))) as [i_cost|] eqn:Ec;
      destruct (idx_rid (resolve_columns (cols st))) as [i_rid|] eqn:Er;
      try (inversion Hbuild; subst; now rewrite lookup_empty in H).
    destruct (index_rows_entries _ _ _ _ _ _ _ _ _ _ Hbuild k c H)
      as [H0 | (r & rid & cost & H1 & H2 & H3 & H4 & H5 & H6)].
    + now rewrite lookup_empty in H0.
    + exists i_rid, i_cost, r, rid, cost. repeat split; assumption.
  - intros a k q c Hnc Hk Hq Hlow.
    rewrite get_cost_lower by assumption. now rewrite Hlow.
  - intros a i_rid i_cost rs1 rs2 r rid cost q Hnc Er Ec Hrows Hrid Hcost Ht Hfree Hq Hlow.
    rewrite Ec, Er, Hrows in Hbuild.
    destruct (index_rows_last_wins _ _ _ _ _ _ _ _ _ _ _ _ _ _
                Hbuild Hrid Hcost Ht Hfree) as (c & Hc & Hm).
    exists c. split; [assumption|].
    rewrite get_cost_lower by assumption. now rewrite Hlow.
Qed.

Lemma cost_index_is_case_insensitive_witness :
  get_cost (sample_args json) sample_index (Some "/subscriptions/abc/disk1"%string)
  = Some (25 # 2).
Proof.
  destruct (cost_index_is_case_insensitive sample_float_repr sample_float_of_str
              {| all_rows := rows (sample_page None);
                 cols := columns (sample_page None) |}
              sample_index (VStr "GBP")) as (_ & H & _).
  - reflexivity.
  - apply (H (sample_args json) "/subscriptions/abc/disk1"%string
             "/subscriptions/abc/disk1"%string (25 # 2)).
    + reflexivity.
    + reflexivity.
    + discriminate.
    + reflexivity.
Defined.

(** C7 as stated fails for a row that a later row supersedes: of two
    rows with the same identifier up to case the second overwrites the
    entry of the first, and a query for the first returns the cost of the
    second. *)
Lemma earlier_row_is_superseded :
  ~ (forall (float_repr : Q -> string) (float_of_str : string -> option Q)
            (st : lookup_state) (m : gmap string Q) (cur : value) (a : args)
            (i_rid i_cost : nat) (r : list value) (rid cost : value) (q : string),
        build_cost_map float_repr float_of_str st = Ok (m, cur) ->
        no_cost a = false ->
        idx_rid (resolve_columns (cols st)) = Some i_rid ->
        idx_cost (resolve_columns (cols st)) = Some i_cost ->
        r ∈ all_rows st ->
        r !! i_rid = Some rid -> r !! i_cost = Some cost -> value_truthy rid = true ->
        q <> EmptyString -> Py.lower q = Py.lower (py_str float_repr rid) ->
        exists c, py_float float_of_str (or_zero cost) = Ok c /\
                  get_cost a m (Some q) = Some c).
Proof.
  intros H.
  destruct (H sample_float_repr sample_float_of_str
              {| all_rows := [[VFloat 1; VStr "/SUBSCRIPTIONS/abc/Disk1"; VStr "GBP"];
                              [VFloat 2; VStr "/subscriptions/abc/disk1"; VStr "GBP"]];
                 cols := columns (sample_page None) |}
              (<["/subscriptions/abc/disk1"%string := 2%Q]>
                 (<["/subscriptions/abc/disk1"%string := 1%Q]> ∅))
              (VStr "GBP") (sample_args json) 1%nat 0%nat
              [VFloat 1; VStr "/SUBSCRIPTIONS/abc/Disk1"; VStr "GBP"]
              (VStr "/SUBSCRIPTIONS/abc/Disk1") (VFloat 1)
              "/SUBSCRIPTIONS/abc/Disk1"%string)
    as (c & Hc & Hq); try reflexivity.
  - apply list_elem_of_here.
  - discriminate.
  - injection Hc as <-. vm_compute in Hq. discriminate.
Qed.

(** ** Pagination *)

Section PaginationFacts.

Variable float_repr : Q -> string.
Variable float_of_str : string -> option Q.

(** The state after the answers [rs] have been read in turn. *)
Lemma extract_all_rows (rs : list response) :
  forall st : lookup_state,
    all_rows (fold_left (fun st r => (extract_from_response st r).1) rs st)
    = all_rows st ++ concat (rows <$> rs).
Proof.
  induction rs as [|r rs IH]; intros st; simpl.
  - now rewrite app_nil_r.
  - rewrite IH. simpl. now rewrite <- app_assoc.
Qed.

Lemma extract_cols (rs : list response) :
  forall st : lookup_state,
    cols (fold_left (fun st r => (extract_from_response st r).1) rs st)
    = match cols st with
      | [] => default [] (head (filter (fun cs => cs <> []) (columns <$> rs)))
      | _ :: _ => cols st
      end.
Proof.
  induction rs as [|r rs IH]; intros st; simpl.
  - now destruct (cols st).
  - rewrite IH. simpl. destruct (cols st) as [|c cs] eqn:E.
    + rewrite filter_cons. destruct (columns r) as [|c0 cs0] eqn:Ec.
      * now rewrite decide_False by (intros H; now apply H).
      * now rewrite decide_True by discriminate.
    + reflexivity.
Qed.

(** Pages that carry a link are followed one after the other; the
    request that fails ends the loop, whatever would have come next. *)
Lemma paginate_until_failure (oks : list response) :
  forall (link : string) (st : lookup_state) (reqs : list string)
         (e : exn) (rest : list (result response)),
    link <> EmptyString ->
    Forall (fun r => exists l, nextLink r = Some l /\ l <> EmptyString) oks ->
    paginate (Some link) ((Ok <$> oks) ++ Raise e :: rest) st reqs
    = Some (fold_left (fun st r => (extract_from_response st r).1) oks st,
            reqs ++ link :: omap nextLink oks).
Proof.
  induction oks as [|r oks IH]; intros link st reqs e rest Hlink Hall; simpl.
  - apply truthy_true in Hlink. now rewrite Hlink.
  - apply truthy_true in Hlink. rewrite Hlink. simpl.
    apply Forall_cons in Hall as [(l & Hl & Hne) Hall].
    rewrite Hl. rewrite (IH l _ _ e rest Hne Hall). simpl.
    now rewrite <- app_assoc.
Qed.

Lemma find_columns_bounds (cs : list (option string)) :
  forall (i : nat) (ix : indices),
    let ix' := find_columns cs i ix in
    (forall j, idx_cost ix' = Some j ->
               idx_cost ix = Some j \/ (i <= j < i + length cs)%nat) /\
    (forall j, idx_rid ix' = Some j ->
               idx_rid ix = Some j \/ (i <= j < i + length cs)%nat) /\
    (forall j, idx_currency ix' = Some j ->
               idx_currency ix = Some j \/ (i <= j < i + length cs)%nat).
Proof.
  induction cs as [|c cs IH]; intros i ix; simpl.
  - repeat split; intros j H; now left.
  - match goal with |- context [find_columns cs (S i) ?x] =>
      destruct (IH (S i) x) as (H1 & H2 & H3) end.
    repeat split; intros j H;
      [apply H1 in H | apply H2 in H | apply H3 in H];
      (destruct H as [H | H]; [|right; lia]);
      repeat (destruct (String.eqb _ _); simpl in H);
      first [ now left | right; inversion H; lia ].
Qed.

Lemma resolve_columns_bounds (cs : list (option string)) :
  (forall j, idx_cost (resolve_columns cs) = Some j -> (j < length cs)%nat) /\
  (forall j, idx_rid (resolve_columns cs) = Some j -> (j < length cs)%nat) /\
  (forall j, idx_currency (resolve_columns cs) = Some j -> (j < length cs)%nat).
Proof.
  destruct (find_columns_bounds cs 0
              {| idx_cost := None; idx_rid := None; idx_currency := None |})
    as (H1 & H2 & H3).
  unfold resolve_columns.
  repeat split; intros j H;
    [apply H1 in H | apply H2 in H | apply H3 in H];
    (destruct H as [H | H]; [discriminate | lia]).
Qed.

(** Rows that are long enough and whose cost cell converts are indexed
    without an exception. *)
Lemma index_rows_total (i_rid i_cost : nat) (i_currency : option nat)
      (rs : list (list value)) :
  (forall r, r ∈ rs ->
     (i_rid < length r)%nat /\ (i_cost < length r)%nat /\
     (forall i, i_currency = Some i -> (i < length r)%nat) /\
     (forall c, r !! i_cost = Some c ->
                exists q, py_float float_of_str (or_zero c) = Ok q)) ->
  forall (m : gmap string Q) (cur : value),
    exists m' cur',
      index_rows float_repr float_of_str i_rid i_cost i_currency rs m cur
      = Ok (m', cur').
Proof.
  induction rs as [|r rs IH]; intros Hwf m cur.
  - now exists m, cur.
  - assert (Hwf' : forall r0, r0 ∈ rs ->
       (i_rid < length r0)%nat /\ (i_cost < length r0)%nat /\
       (forall i, i_currency = Some i -> (i < length r0)%nat) /\
       (forall c, r0 !! i_cost = Some c ->
                  exists q, py_float float_of_str (or_zero c) = Ok q)).
    { intros r0 Hin. apply Hwf. now apply elem_of_cons; right. }
    destruct (Hwf r) as (Hr & Hc & Hcur & Hfl); [now left|].
    apply lookup_lt_is_Some_2 in Hr as [rid Hrid].
    apply lookup_lt_is_Some_2 in Hc as [cost Hcost].
    simpl. unfold item. rewrite Hrid, Hcost. unfold mbind, result_bind. cbn beta iota.
    assert (Hcur' : exists cur1,
               match i_currency with
               | Some i => match r !! i with Some a => Ok a | None => Raise IndexError end
               | None => Ok cur
               end = Ok cur1).
    { destruct i_currency as [i|]; [|now exists cur].
      destruct (lookup_lt_is_Some_2 r i (Hcur i eq_refl)) as [v Hv].
      rewrite Hv. now exists v. }
    destruct Hcur' as [cur1 ->].
    destruct (value_truthy rid); simpl.
    + destruct (Hfl cost Hcost) as [q ->]. apply (IH Hwf').
    + apply (IH Hwf').
Qed.

End PaginationFacts.

(** C8. When the pages [first], [oks] all carry a link and the request
    that follows them fails, the lookup returns; it has asked for the
    first URI and for each of those links, and for nothing after the
    failure.  What it returns is the index of the rows of [first] and
    [oks], under the columns of the first of these pages that names any:
    a value as soon as those rows are well formed, in which every row
    with an identifier that no later row supersedes is bound, under its
    lower-cased identifier, to its own cost, and in which every entry is
    that of such a row. *)
Theorem failed_continuation_keeps_accumulated_rows
        (float_repr : Q -> string) (float_of_str : string -> option Q)
        (subscription_id : string) (first : response) (oks : list response)
        (e : exn) (rest : list (result response)) :
  Forall (fun r => exists l, nextLink r = Some l /\ l <> EmptyString) (first :: oks) ->
  let kept := concat (rows <$> first :: oks) in
  let cs := default [] (head (filter (fun cs => cs <> []) (columns <$> first :: oks))) in
  exists out : result cost_data,
    get_cost_map_last30d_by_resource_id float_repr float_of_str subscription_id
      (Ok first) ((Ok <$> oks) ++ Raise e :: rest)
    = Some {| outcome := out;
              requested := api_url subscription_id :: omap nextLink (first :: oks) |} /\
    out = build_cost_map float_repr float_of_str {| all_rows := kept; cols := cs |} /\
    ((forall r, r ∈ kept ->
        (length cs <= length r)%nat /\
        (forall i c, idx_cost (resolve_columns cs) = Some i ->
                     r !! i = Some c ->
                     exists q, py_float float_of_str (or_zero c) = Ok q)) ->
     exists (m : gmap string Q) (cur : value), out = Ok (m, cur)) /\
    (forall (m : gmap string Q) (cur : value) (i_rid i_cost : nat),
        out = Ok (m, cur) ->
        idx_rid (resolve_columns cs) = Some i_rid ->
        idx_cost (resolve_columns cs) = Some i_cost ->
        (forall (rs1 : list (list value)) (r : list value) (rs2 : list (list value))
                (rid cost : value),
            kept = rs1 ++ r :: rs2 ->
            r !! i_rid = Some rid -> r !! i_cost = Some cost ->
            value_truthy rid = true ->
            (forall r' rid', r' ∈ rs2 -> r' !! i_rid = Some rid' ->
                             value_truthy rid' = true ->
                             Py.lower (py_str float_repr rid')
                             <> Py.lower (py_str float_repr rid)) ->
            exists c, py_float float_of_str (or_zero cost) = Ok c /\
                      m !! Py.lower (py_str float_repr rid) = Some c) /\
        (forall (k : string) (c : Q),
            m !! k = Some c ->
            exists (r : list value) (rid cost : value),
              r ∈ kept /\ r !! i_rid = Some rid /\ r !! i_cost = Some cost /\
              value_truthy rid = true /\
              k = Py.lower (py_str float_repr rid) /\
              py_float float_of_str (or_zero cost) = Ok c)).
Proof.
  intros Hall kept cs. apply Forall_cons in Hall as [(l & Hl & Hne) Hall].
  set (st := fold_left (fun st r => (extract_from_response st r).1) (first :: oks)
               {| all_rows := []; cols := [] |}).
  assert (Hst : st = {| all_rows := kept; cols := cs |}).
  { assert (Hr : all_rows st = kept) by (subst st kept; now rewrite extract_all_rows).
    assert (Hc : cols st = cs) by (subst st cs; now rewrite extract_cols).
    destruct st as [rs0 cs0]. simpl in Hr, Hc. now subst. }
  exists (build_cost_map float_repr float_of_str st).
  split; [|split; [|split]].
  - unfold get_cost_map_last30d_by_resource_id. simpl. rewrite Hl.
    rewrite (paginate_until_failure oks l _ _ e rest Hne Hall). reflexivity.
  - now rewrite Hst.
  - rewrite Hst. intros Hwf. unfold build_cost_map. cbn [cols all_rows].
    destruct (resolve_columns_bounds cs) as (Bc & Br & Bu).
    destruct (idx_cost (resolve_columns cs)) as [i_cost|] eqn:Ec;
      [|now exists ∅, VNone].
    destruct (idx_rid (resolve_columns cs)) as [i_rid|] eqn:Er;
      [|now exists ∅, VNone].
    apply index_rows_total. intros r Hr. destruct (Hwf r Hr) as [Hlen Hfl].
    specialize (Bc _ eq_refl). specialize (Br _ eq_refl).
    repeat split; try lia.
    + intros i Hi. specialize (Bu _ Hi). lia.
    + intros c Hc. now apply (Hfl i_cost).
  - rewrite Hst. intros m cur i_rid i_cost Hout Er Ec.
    unfold build_cost_map in Hout. cbn [cols all_rows] in Hout.
    rewrite Ec, Er in Hout. split.
    + intros rs1 r rs2 rid cost Hrows Hrid Hcost Ht Hfree. rewrite Hrows in Hout.
      exact (index_rows_last_wins float_repr float_of_str _ _ _ _ _ _ _ _ _ _ _ _
               Hout Hrid Hcost Ht Hfree).
    + intros k c Hk.
      destruct (index_rows_entries float_repr float_of_str _ _ _ _ _ _ _ _ Hout k c Hk)
        as [H0 | H0]; [now rewrite lookup_empty in H0 | exact H0].
Qed.

(** Two pages with the sample row, then a failure: the row is indexed. *)
Lemma failed_continuation_keeps_accumulated_rows_witness :
  exists (m : gmap string Q) (cur : value),
    get_cost_map_last30d_by_resource_id sample_float_repr sample_float_of_str "abc"
      (Ok (sample_page (Some "page2"%string)))
      ((Ok <$> [sample_page (Some "page3"%string)]) ++ Raise RuntimeError :: [])
    = Some {| outcome := Ok (m, cur);
              requested := api_url "abc" ::
                omap nextLink [sample_page (Some "page2"%string);
                               sample_page (Some "page3"%string)] |} /\
    m !! "/subscriptions/abc/disk1"%string = Some (25 # 2).
Proof.
  pose proof (failed_continuation_keeps_accumulated_rows
                sample_float_repr sample_float_of_str "abc"
                (sample_page (Some "page2"%string))
                [sample_page (Some "page3"%string)] RuntimeError []) as H.
  cbv zeta in H. destruct H as (out & Hrun & Hout & _ & Hpin).
  - repeat constructor.
    + exists "page2"%string. split; [reflexivity | discriminate].
    + exists "page3"%string. split; [reflexivity | discriminate].
  - assert (Hok : out = Ok (sample_index, VStr "GBP"))
      by (rewrite Hout; reflexivity).
    exists sample_index, (VStr "GBP"). split; [now rewrite Hrun, Hok|].
    destruct (Hpin sample_index (VStr "GBP") 1%nat 0%nat Hok eq_refl eq_refl)
      as [Hlast _].
    destruct (Hlast [[VFloat (25 # 2); VStr "/SUBSCRIPTIONS/abc/Disk1"; VStr "GBP"]]
                    [VFloat (25 # 2); VStr "/SUBSCRIPTIONS/abc/Disk1"; VStr "GBP"] []
                    (VStr "/SUBSCRIPTIONS/abc/Disk1") (VFloat (25 # 2)))
      as (c & Hc & Hm).
    + reflexivity.
    + reflexivity.
    + reflexivity.
    + reflexivity.
    + intros r' rid' Hin. inversion Hin.
    + injection Hc as <-. exact Hm.
Defined.

(** ** From the records to the findings *)

Section FindingFacts.

Variable a : args.
Variable s : subscription.
Variable costs : cost_data.

Lemma fold_left_snoc_fmap {A B : Type} (f : A -> B) (l : list A) :
  forall acc : list B,
    fold_left (fun fs x => fs ++ [f x]) l acc = acc ++ (f <$> l).
Proof.
  induction l as [|x l IH]; intros acc; simpl.
  - now rewrite app_nil_r.
  - rewrite IH. now rewrite <- app_assoc.
Qed.

Lemma entries_eq (st : items) :
  entries s st
  = (build_entry (subscription_name s) (s_id s) "immediate" <$> immediate_items st)
    ++ (build_entry (subscription_name s) (s_id s) "aks_review" <$> review_items st)
    ++ (build_entry (subscription_name s) (s_id s) "snapshot_review" <$> snapshot_items st).
Proof.
  unfold entries, build_findings. rewrite !fold_left_snoc_fmap. simpl.
  now rewrite <- app_assoc.
Qed.

(** Each turn of a loop adds the finding of the record it reads. *)
Lemma step_adds_finding (k : kind) (st : items) (r : resource) :
  let step := match k with
              | Disk => disk_step a costs.1 costs.2
              | PublicIp => public_ip_step a costs.1 costs.2
              | Nic => nic_step a costs.1 costs.2
              | Vm => vm_step a costs.1 costs.2
              | Snapshot => snapshot_step costs.2
              end in
  entries s (step st r) ≡ₚ entries s st ++ [finding_of a s costs (k, r)].
Proof.
  destruct k; simpl;
    unfold disk_step, public_ip_step, nic_step, vm_step, snapshot_step,
           finding_of, bucket_of; simpl;
    try destruct (is_aks_related _ _);
    rewrite !entries_eq; simpl; rewrite ?fmap_app; simpl;
    solve_Permutation.
Qed.

Lemma loop_adds_findings (k : kind) (rs : list resource) :
  forall st : items,
    let step := match k with
                | Disk => disk_step a costs.1 costs.2
                | PublicIp => public_ip_step a costs.1 costs.2
                | Nic => nic_step a costs.1 costs.2
                | Vm => vm_step a costs.1 costs.2
                | Snapshot => snapshot_step costs.2
                end in
    entries s (fold_left step rs st)
    ≡ₚ entries s st ++ (finding_of a s costs <$> (pair k <$> rs)).
Proof.
  induction rs as [|r rs IH]; intros st; simpl.
  - now rewrite app_nil_r.
  - simpl in IH. rewrite IH. rewrite (step_adds_finding k st r).
    now rewrite <- app_assoc.
Qed.

End FindingFacts.

Section ScanFacts.

Variable fromisoformat : string -> option datetime.
Variable clock : nat -> Z.

(** Whatever the run, [build_findings] makes of the items that the five
    loops file, up to the order, the findings of the collected records,
    one for each. *)
Lemma items_entries (a : args) (s : subscription) (costs : cost_data) (w : listings) :
  entries s (subscription_items a costs.1 costs.2
               (get_orphaned_disks (disks_by_managed w) (disks_by_state w))
               (public_ips w) (nics w)
               (get_stopped_not_deallocated_vms (vms w))
               (collect_snapshots fromisoformat clock a w))
  ≡ₚ finding_of a s costs <$> collected fromisoformat clock a w.
Proof.
  destruct costs as [cost_map currency]. unfold collected, subscription_items.
  cbn [fst snd].
  assert (Hsnap : forall st,
    (if include_snapshots a
     then fold_left (snapshot_step currency)
                    (collect_snapshots fromisoformat clock a w) st
     else st)
    = fold_left (snapshot_step currency)
                (collect_snapshots fromisoformat clock a w) st).
  { intros st. unfold collect_snapshots. now destruct (include_snapshots a). }
  rewrite Hsnap.
  rewrite (loop_adds_findings a s (cost_map, currency) Snapshot).
  rewrite (loop_adds_findings a s (cost_map, currency) Vm).
  rewrite (loop_adds_findings a s (cost_map, currency) Nic).
  rewrite (loop_adds_findings a s (cost_map, currency) PublicIp).
  rewrite (loop_adds_findings a s (cost_map, currency) Disk).
  rewrite !fmap_app, <- !app_assoc. reflexivity.
Qed.

(** In a structured run these are the findings of the subscription. *)
Lemma scan_entries (a : args) (s : subscription)
      (lookup : result cost_data) (w : listings) :
  is_structured (output_format a) = true ->
  findings (scan_subscription fromisoformat clock a s lookup w)
  = entries s (subscription_items a (subscription_costs a lookup).1
                 (subscription_costs a lookup).2
                 (get_orphaned_disks (disks_by_managed w) (disks_by_state w))
                 (public_ips w) (nics w)
                 (get_stopped_not_deallocated_vms (vms w))
                 (collect_snapshots fromisoformat clock a w)).
Proof.
  intros Hfmt. unfold scan_subscription.
  destruct (subscription_costs a lookup) as [cost_map currency].
  now rewrite Hfmt.
Qed.

(** In a structured run the findings of a subscription are, up to their
    order, the findings of the collected records, one for each. *)
Lemma scan_findings (a : args) (s : subscription)
      (lookup : result cost_data) (w : listings) :
  is_structured (output_format a) = true ->
  findings (scan_subscription fromisoformat clock a s lookup w)
  ≡ₚ finding_of a s (subscription_costs a lookup)
       <$> collected fromisoformat clock a w.
Proof.
  intros Hfmt. unfold scan_subscription, collected.
  destruct (subscription_costs a lookup) as [cost_map currency] eqn:Ecosts.
  rewrite Hfmt. simpl findings.
  match goal with |- build_findings _ _ (immediate_items ?st) _ _ ≡ₚ _ =>
    change (entries s st ≡ₚ
            finding_of a s (cost_map, currency) <$>
              ((pair Disk <$> get_orphaned_disks (disks_by_managed w) (disks_by_state w))
               ++ (pair PublicIp <$> public_ips w)
               ++ (pair Nic <$> nics w)
               ++ (pair Vm <$> get_stopped_not_deallocated_vms (vms w))
               ++ (pair Snapshot <$> collect_snapshots fromisoformat clock a w)))
  end.
  unfold subscription_items.
  assert (Hsnap : forall st,
    (if include_snapshots a
     then fold_left (snapshot_step currency)
                    (collect_snapshots fromisoformat clock a w) st
     else st)
    = fold_left (snapshot_step currency)
                (collect_snapshots fromisoformat clock a w) st).
  { intros st. unfold collect_snapshots. now destruct (include_snapshots a). }
  rewrite Hsnap.
  rewrite (loop_adds_findings a s (cost_map, currency) Snapshot).
  rewrite (loop_adds_findings a s (cost_map, currency) Vm).
  rewrite (loop_adds_findings a s (cost_map, currency) Nic).
  rewrite (loop_adds_findings a s (cost_map, currency) PublicIp).
  rewrite (loop_adds_findings a s (cost_map, currency) Disk).
  rewrite !fmap_app, <- !app_assoc. reflexivity.
Qed.

Lemma scan_findings_text (a : args) (s : subscription)
      (lookup : result cost_data) (w : listings) :
  is_structured (output_format a) = false ->
  findings (scan_subscription fromisoformat clock a s lookup w) = [].
Proof.
  intros Hfmt. unfold scan_subscription.
  destruct (subscription_costs a lookup). now rewrite Hfmt.
Qed.

End ScanFacts.

(** The fields of a finding that the claims speak of. *)
Lemma finding_fields (a : args) (s : subscription) (costs : cost_data)
      (k : kind) (r : resource) :
  let f := finding_of a s costs (k, r) in
  dict_get f "bucket" = Some (VStr (bucket_of k r)) /\
  dict_get f "resourceId" = Some (of_str (r_id r)) /\
  dict_get f "resourceType"
  = Some (VStr match k with
               | Disk => "disk" | PublicIp => "publicIp" | Nic => "nic"
               | Vm => "vm" | Snapshot => "snapshot"
               end) /\
  dict_get f "costLast30d"
  = Some match k with
         | Snapshot => VNone
         | _ => of_float (get_cost a costs.1 (r_id r))
         end.
Proof.
  destruct k; repeat split; reflexivity.
Qed.

Lemma get_cost_none_iff (a : args) (m : gmap string Q) (rid : option string) :
  get_cost a m rid = None <->
  no_cost a = true \/ Py.or_empty rid = EmptyString \/
  m !! Py.lower (Py.or_empty rid) = None.
Proof.
  unfold get_cost. destruct (no_cost a); simpl; [tauto|].
  destruct (Py.or_empty rid) as [|c x] eqn:E; simpl; [tauto|].
  split; [tauto|]. intros [H | [H | H]]; [discriminate.. | assumption].
Qed.

Lemma get_cost_some_iff (a : args) (m : gmap string Q) (rid : option string) (c : Q) :
  get_cost a m rid = Some c <->
  no_cost a = false /\ Py.or_empty rid <> EmptyString /\
  m !! Py.lower (Py.or_empty rid) = Some c.
Proof.
  unfold get_cost. destruct (no_cost a); simpl.
  - split; [discriminate | intros [H _]; discriminate].
  - destruct (Py.or_empty rid) as [|x y] eqn:E; simpl.
    + split; [discriminate | intros (_ & H & _); congruence].
    + split; [intros H; repeat split; [discriminate | exact H] | intros (_ & _ & H); exact H].
Qed.

(** ** Sorting by age *)

Section SortFacts.

Context {A : Type} (key : A -> Z).





End SortFacts.


(** ** The findings of a subscription *)

(** C1, as the code has it.  Of the items that the loops file for the
    collected records, [build_findings] makes exactly one finding for each
    record, and in a JSON or CSV run these are the findings of the
    subscription.  For a disk, a public IP, a NIC or a VM the cost of the
    finding is the entry of the cost index under the lower-cased
    identifier: it is a number exactly when the lookup is enabled, the
    identifier is not empty and the index has that entry, which is then
    the number; it is null exactly when the lookup is disabled, the
    identifier is empty or the index has no entry.  The finding of a
    snapshot has a null cost whatever the index holds. *)
Theorem every_record_yields_one_finding
        (fromisoformat : string -> option datetime) (clock : nat -> Z)
        (a : args) (s : subscription) (lookup : result cost_data) (w : listings) :
  let costs := subscription_costs a lookup in
  let its := subscription_items a costs.1 costs.2
               (get_orphaned_disks (disks_by_managed w) (disks_by_state w))
               (public_ips w) (nics w)
               (get_stopped_not_deallocated_vms (vms w))
               (collect_snapshots fromisoformat clock a w) in
  build_findings (subscription_name s) (s_id s)
                 (immediate_items its) (review_items its) (snapshot_items its)
  ≡ₚ finding_of a s costs <$> collected fromisoformat clock a w /\
  (is_structured (output_format a) = true ->
   findings (scan_subscription fromisoformat clock a s lookup w)
   = build_findings (subscription_name s) (s_id s)
                    (immediate_items its) (review_items its) (snapshot_items its)) /\
  (forall (k : kind) (r : resource),
      let f := finding_of a s costs (k, r) in
      dict_get f "resourceId" = Some (of_str (r_id r)) /\
      (k <> Snapshot ->
       (forall c : Q,
           dict_get f "costLast30d" = Some (VFloat c) <->
           no_cost a = false /\ Py.or_empty (r_id r) <> EmptyString /\
           costs.1 !! Py.lower (Py.or_empty (r_id r)) = Some c) /\
       (dict_get f "costLast30d" = Some VNone <->
        no_cost a = true \/ Py.or_empty (r_id r) = EmptyString \/
        costs.1 !! Py.lower (Py.or_empty (r_id r)) = None)) /\
      (k = Snapshot -> dict_get f "costLast30d" = Some VNone)).
Proof.
  intros costs its. split; [|split].
  - apply (items_entries fromisoformat clock a s costs w).
  - intros Hfmt. apply (scan_entries fromisoformat clock a s lookup w Hfmt).
  - intros k r f.
    destruct (finding_fields a s costs k r) as (_ & Hid & _ & Hcost).
    split; [exact Hid|]. split.
    + intros Hk. subst f. rewrite Hcost.
      assert (Hval : match k with
                     | Snapshot => VNone
                     | _ => of_float (get_cost a costs.1 (r_id r))
                     end = of_float (get_cost a costs.1 (r_id r)))
        by (destruct k; congruence).
      rewrite Hval. split.
      * intros c. rewrite <- get_cost_some_iff.
        destruct (get_cost a costs.1 (r_id r)); simpl; split; congruence.
      * rewrite <- get_cost_none_iff.
        destruct (get_cost a costs.1 (r_id r)); simpl; split; congruence.
    + intros ->. exact Hcost.
Qed.

Lemma every_record_yields_one_finding_witness :
  findings (sample_scan json)
  ≡ₚ finding_of (sample_args json) sample_subscription
       (subscription_costs (sample_args json) (Ok sample_costs))
       <$> collected sample_fromisoformat sample_clock (sample_args json) sample_listings.
Proof.
  pose proof (every_record_yields_one_finding sample_fromisoformat sample_clock
                (sample_args json) sample_subscription (Ok sample_costs)
                sample_listings) as H.
  cbv zeta in H. destruct H as (H1 & H2 & _).
  unfold sample_scan. rewrite (H2 eq_refl). exact H1.
Defined.

(** C1 as stated fails on snapshots: the sample snapshot has a cost row,
    the lookup is enabled, and its finding has no cost. *)
Lemma snapshot_finding_ignores_cost_index :
  ~ (forall (fromisoformat : string -> option datetime) (clock : nat -> Z)
            (a : args) (s : subscription) (lookup : result cost_data) (w : listings)
            (r : resource) (f : dict),
        is_structured (output_format a) = true ->
        r ∈ collect_snapshots fromisoformat clock a w ->
        f ∈ findings (scan_subscription fromisoformat clock a s lookup w) ->
        dict_get f "resourceId" = Some (of_str (r_id r)) ->
        dict_get f "costLast30d"
        = Some (of_float (get_cost a (subscription_costs a lookup).1 (r_id r)))).
Proof.
  intros H.
  specialize (H sample_fromisoformat sample_clock (sample_args json)
                sample_subscription (Ok sample_costs) sample_listings
                (set_ageDays sample_snapshot 180)
                (finding_of (sample_args json) sample_subscription sample_costs
                            (Snapshot, set_ageDays sample_snapshot 180))).
  assert (Hcost : Some VNone = Some (VFloat (5 # 1))).
  { apply H.
    - reflexivity.
    - vm_compute. apply list_elem_of_here.
    - vm_compute. do 2 apply list_elem_of_further. apply list_elem_of_here.
    - reflexivity. }
  discriminate.
Qed.

(** C2, as the code has it.  The bucket of a finding is one of
    [immediate], [aks_review] and [snapshot_review]; an orphaned disk
    that the classifier holds AKS-related has a finding in [aks_review];
    and the sample subscription has a finding in each of the three. *)
Theorem finding_bucket_is_one_of_three
        (fromisoformat : string -> option datetime) (clock : nat -> Z)
        (a : args) (s : subscription) (lookup : result cost_data) (w : listings) :
  (forall f : dict,
      f ∈ findings (scan_subscription fromisoformat clock a s lookup w) ->
      exists b : string,
        dict_get f "bucket" = Some (VStr b) /\
        b ∈ ["immediate"; "aks_review"; "snapshot_review"]%string) /\
  (forall d : resource,
      is_structured (output_format a) = true ->
      d ∈ get_orphaned_disks (disks_by_managed w) (disks_by_state w) ->
      is_aks_related (r_name d) (r_resourceGroup d) = true ->
      exists f : dict,
        f ∈ findings (scan_subscription fromisoformat clock a s lookup w) /\
        dict_get f "resourceId" = Some (of_str (r_id d)) /\
        dict_get f "resourceType" = Some (VStr "disk") /\
        dict_get f "bucket" = Some (VStr "aks_review")) /\
  (fun f => dict_get f "bucket") <$> findings (sample_scan json)
  = [Some (VStr "immediate"); Some (VStr "aks_review"); Some (VStr "snapshot_review")].
Proof.
  split; [|split; [|reflexivity]].
  - intros f Hf.
    destruct (is_structured (output_format a)) eqn:Hfmt.
    + rewrite (scan_findings fromisoformat clock a s lookup w Hfmt) in Hf.
      apply list_elem_of_fmap in Hf as ([k r] & -> & _).
      destruct (finding_fields a s (subscription_costs a lookup) k r) as (Hb & _).
      exists (bucket_of k r). split; [exact Hb|].
      destruct k; simpl; try destruct (is_aks_related _ _);
        repeat first [ apply list_elem_of_here | apply list_elem_of_further ].
    + rewrite (scan_findings_text fromisoformat clock a s lookup w Hfmt) in Hf.
      inversion Hf.
  - intros d Hfmt Hd Haks.
    exists (finding_of a s (subscription_costs a lookup) (Disk, d)).
    destruct (finding_fields a s (subscription_costs a lookup) Disk d)
      as (Hb & Hid & Hty & _).
    repeat split; try assumption.
    + rewrite (scan_findings fromisoformat clock a s lookup w Hfmt).
      apply list_elem_of_fmap. exists (Disk, d). split; [reflexivity|].
      unfold collected. apply elem_of_app. left.
      apply list_elem_of_fmap. now exists d.
    + cbv zeta in Hb. rewrite Hb. simpl. now rewrite Haks.
Qed.

(** C2 as stated fails: the finding of the sample disk is filed under
    [aks_review], which is none of [immediate], [aksReview] and
    [snapshotReview]. *)
Lemma bucket_is_spelled_aks_review :
  ~ (forall (fromisoformat : string -> option datetime) (clock : nat -> Z)
            (a : args) (s : subscription) (lookup : result cost_data) (w : listings)
            (f : dict),
        f ∈ findings (scan_subscription fromisoformat clock a s lookup w) ->
        exists b : string,
          dict_get f "bucket" = Some (VStr b) /\
          b ∈ ["immediate"; "aksReview"; "snapshotReview"]%string).
Proof.
  intros H.
  destruct (H sample_fromisoformat sample_clock (sample_args json)
              sample_subscription (Ok sample_costs) sample_listings
              (finding_of (sample_args json) sample_subscription sample_costs
                 (Disk, named "/subscriptions/abc/Disk1" "pvc-1234" "rg-data")))
    as (b & Hb & Hin).
  - vm_compute. apply list_elem_of_further, list_elem_of_here.
  - vm_compute in Hb. inversion Hb; subst b.
    repeat (apply elem_of_cons in Hin as [Hin | Hin]; [discriminate|]).
    inversion Hin.
Qed.

Example twenty_two_snapshots_in_text :
  snapshot_section (sample_args text) (aged <$> [3; 22; 1; 4; 5; 6; 7; 8; 9; 10; 11;
                                                 12; 13; 14; 15; 16; 17; 18; 19; 20; 21; 2])
  = SnapshotsHeader 180
    :: (snapshot_line <$> (aged <$> [22; 21; 20; 19; 18; 17; 16; 15; 14; 13;
                                     12; 11; 10; 9; 8; 7; 6; 5; 4; 3]))
    ++ [MoreLine 2].
Proof. reflexivity. Qed.


(** C10. A record of either disk listing whose identifier is missing or
    empty is not in the merged inventory, whose records all carry a
    non-empty identifier; so every disk finding does as well. *)
Theorem disk_without_identifier_is_dropped
        (fromisoformat : string -> option datetime) (clock : nat -> Z)
        (a : args) (s : subscription) (lookup : result cost_data) (w : listings) :
  (forall d : resource,
      Py.or_empty (r_id d) = EmptyString ->
      d ∉ get_orphaned_disks (disks_by_managed w) (disks_by_state w)) /\
  (forall d : resource,
      d ∈ get_orphaned_disks (disks_by_managed w) (disks_by_state w) ->
      (d ∈ disks_by_managed w \/ d ∈ disks_by_state w) /\
      exists x : string, r_id d = Some x /\ x <> EmptyString) /\
  (forall f : dict,
      f ∈ findings (scan_subscription fromisoformat clock a s lookup w) ->
      dict_get f "resourceType" = Some (VStr "disk") ->
      exists x : string, dict_get f "resourceId" = Some (VStr x) /\ x <> EmptyString).
Proof.
  destruct (get_orphaned_disks_spec (disks_by_managed w) (disks_by_state w))
    as (_ & Hall & _ & Hsub).
  assert (Hid : forall d : resource,
             d ∈ get_orphaned_disks (disks_by_managed w) (disks_by_state w) ->
             exists x : string, r_id d = Some x /\ x <> EmptyString).
  { intros d Hd. rewrite Forall_forall in Hall. specialize (Hall d Hd).
    unfold lower_id in Hall. rewrite truthy_lower in Hall.
    destruct (r_id d) as [x|]; [|discriminate].
    exists x. split; [reflexivity|]. now apply truthy_true. }
  split; [|split].
  - intros d Hempty Hd. destruct (Hid d Hd) as (x & Hx & Hne).
    rewrite Hx in Hempty. simpl in Hempty. congruence.
  - intros d Hd. split; [|now apply Hid].
    apply elem_of_app, Hsub, Hd.
  - intros f Hf Hty.
    destruct (is_structured (output_format a)) eqn:Hfmt.
    + rewrite (scan_findings fromisoformat clock a s lookup w Hfmt) in Hf.
      apply list_elem_of_fmap in Hf as ([k r] & -> & Hin).
      destruct (finding_fields a s (subscription_costs a lookup) k r)
        as (_ & Hrid & Hk & _).
      cbv zeta in Hrid, Hk. rewrite Hk in Hty.
      destruct k; try discriminate.
      unfold collected in Hin. apply elem_of_app in Hin as [Hin | Hin].
      * apply list_elem_of_fmap in Hin as (d & Heq & Hd). inversion Heq; subst d.
        destruct (Hid r Hd) as (x & Hx & Hne).
        exists x. rewrite Hrid, Hx. now split.
      * exfalso.
        repeat (apply elem_of_app in Hin as [Hin | Hin];
                [apply list_elem_of_fmap in Hin as (d & Heq & _); discriminate|]).
        apply list_elem_of_fmap in Hin as (d & Heq & _). discriminate.
    + rewrite (scan_findings_text fromisoformat clock a s lookup w Hfmt) in Hf.
      inversion Hf.
Qed.

(** * Further properties *)

(** ** The classifier and letter case *)

Section CaseFacts.

Import Py.

Lemma lower_char_newline (c : ascii) :
  Ascii.eqb (lower_char c) Re.newline = Ascii.eqb c Re.newline.
Proof. destruct c as [[] [] [] [] [] [] [] []]; reflexivity. Qed.

Lemma at_eol_lower (s : string) : Re.at_eol (lower s) = Re.at_eol s.
Proof.
  destruct s as [|c [|d s]]; simpl; try reflexivity.
  apply lower_char_newline.
Qed.

Lemma same_ci_lower (c x : ascii) : Re.same_ci c (lower_char x) = Re.same_ci c x.
Proof. unfold Re.same_ci. now rewrite lower_char_idem. Qed.

(** Matching looks at the text through [lower] only. *)
Lemma matches_lower (r : Re.re) :
  forall (bol : bool) (s : string) (k k' : bool -> string -> bool),
    (forall b s', k' b (lower s') = k b s') ->
    Re.matches r bol (lower s) k' = Re.matches r bol s k.
Proof.
  induction r as [| | |c|cs|a IHa b IHb|a IHa b IHb]; intros bol s k k' Hk; simpl.
  - apply Hk.
  - now rewrite Hk.
  - now rewrite at_eol_lower, Hk.
  - destruct s as [|x s]; simpl; [reflexivity|].
    now rewrite same_ci_lower, Hk.
  - destruct s as [|x s]; simpl; [reflexivity|].
    rewrite Hk. f_equal. induction cs as [|c cs IH]; simpl; [reflexivity|].
    now rewrite same_ci_lower, IH.
  - apply IHa. intros b0 s'. now apply IHb.
  - now rewrite (IHa bol s k k' Hk), (IHb bol s k k' Hk).
Qed.

Lemma search_from_lower (r : Re.re) (s : string) :
  forall bol : bool, Re.search_from r bol (lower s) = Re.search_from r bol s.
Proof.
  induction s as [|c s IH]; intros bol; simpl.
  - reflexivity.
  - rewrite IH. f_equal.
    change (String (lower_char c) (lower s)) with (lower (String c s)).
    now apply matches_lower.
Qed.

End CaseFacts.

(** X1. The classifier does not see letter case: lower-casing the name,
    the resource group or both leaves its answer unchanged. *)
Theorem is_aks_related_ignores_case (name resource_group : option string) :
  is_aks_related (Py.lower <$> name) (Py.lower <$> resource_group)
  = is_aks_related name resource_group.
Proof.
  unfold is_aks_related.
  assert (Hn : Py.lower (Py.or_empty (Py.lower <$> name)) = Py.lower (Py.or_empty name))
    by (destruct name; simpl; [apply lower_idem | reflexivity]).
  assert (Hg : Py.or_empty (Py.lower <$> resource_group)
               = Py.lower (Py.or_empty resource_group))
    by (destruct resource_group; reflexivity).
  rewrite Hn, Hg. unfold Re.search. now rewrite search_from_lower.
Qed.

(** X2. A resource group that begins with [MC_], in any letter case,
    makes the resource AKS-related whatever its name is. *)
Theorem managed_cluster_group_is_aks_related (name : option string) (rg : string) :
  Py.startswith (Py.lower rg) "mc_" = true ->
  is_aks_related name (Some rg) = true.
Proof.
  intros H. unfold is_aks_related. change (Py.or_empty (Some rg)) with rg.
  unfold Re.search. rewrite <- search_from_lower.
  apply startswith_spec in H as [post ->]. reflexivity.
Qed.

Lemma managed_cluster_group_is_aks_related_witness :
  is_aks_related (Some "disk-01") (Some "Mc_rg_cluster_westeurope") = true.
Proof.
  apply (managed_cluster_group_is_aks_related (Some "disk-01") "Mc_rg_cluster_westeurope").
  reflexivity.
Defined.

(** X3. A name that, lower-cased, begins with [pvc-] or contains [kube]
    or [-pe-] makes the resource AKS-related in every resource group,
    also when the group is missing. *)
Theorem aks_name_wins_in_any_group (name : string) (resource_group : option string) :
  Py.startswith (Py.lower name) "pvc-" = true \/
  Py.str_in "kube" (Py.lower name) = true \/
  Py.str_in "-pe-" (Py.lower name) = true ->
  is_aks_related (Some name) resource_group = true.
Proof.
  intros H. unfold is_aks_related. change (Py.or_empty (Some name)) with name. cbv zeta.
  destruct (Re.search _ _); [reflexivity|].
  destruct H as [-> | [-> | ->]]; [reflexivity | |].
  - now destruct (Py.startswith _ _).
  - destruct (Py.startswith _ _); [reflexivity|]. now rewrite !orb_true_r.
Qed.

Lemma aks_name_wins_in_any_group_witness :
  is_aks_related (Some "PVC-0a1b") None = true.
Proof.
  apply (aks_name_wins_in_any_group "PVC-0a1b" None). left. reflexivity.
Defined.

Section PatternFacts.

Import Py.

Lemma same_ci_eqb (c x : ascii) :
  Re.same_ci c (lower_char x) = Ascii.eqb (lower_char c) (lower_char x).
Proof. unfold Re.same_ci. now rewrite lower_char_idem. Qed.

(** A match of the pattern at one position, on lower-cased text. *)
Lemma pattern_matches_here (bol : bool) (t : string) :
  Re.matches _AKS_RG_PATTERN bol (lower t) Re.accept = rg_rules_here bol (lower t).
Proof.
  unfold rg_rules_here, _AKS_RG_PATTERN, delim.
  change ("_aks" +:+ String Re.newline "")
    with (String "_"%char (String "a"%char (String "k"%char (String "s"%char
            (String Re.newline ""))))).
  change ("-aks" +:+ String Re.newline "")
    with (String "-"%char (String "a"%char (String "k"%char (String "s"%char
            (String Re.newline ""))))).
  destruct t as [|x1 [|x2 [|x3 [|x4 [|x5 [|x6 t]]]]]];
    cbn -[lower_char Ascii.eqb Re.same_ci Re.newline]; rewrite ?same_ci_eqb;
    cbn -[Ascii.eqb lower_char Re.newline];
    change (lower_char "M") with "m"%char;
    change (lower_char "C") with "c"%char;
    change (lower_char "_") with "_"%char;
    change (lower_char "-") with "-"%char;
    change (lower_char "a") with "a"%char;
    change (lower_char "k") with "k"%char;
    change (lower_char "s") with "s"%char.
  all: repeat match goal with
              | |- context [lower_char ?x] =>
                  is_var x; generalize (lower_char x); clear x; intro x
              end.
  all: cbn -[Ascii.eqb Re.newline]; rewrite ?(Ascii.eqb_sym _ Re.newline).
  all: unfold Re.accept.
  all: repeat (match goal with
               | |- context [Ascii.eqb ?a ?b] => destruct (Ascii.eqb a b)
               end; cbn [andb orb]);
       try reflexivity; destruct bol; reflexivity.
Qed.

Lemma str_in_cons (sub : string) (c : ascii) (s : string) :
  str_in sub (String c s) = startswith (String c s) sub || str_in sub s.
Proof. reflexivity. Qed.

Lemma endswith_cons (suf : string) (c : ascii) (s : string) :
  endswith (String c s) suf = String.eqb suf (String c s) || endswith s suf.
Proof. reflexivity. Qed.

Lemma pattern_search_from (t : string) :
  forall bol : bool,
    Re.search_from _AKS_RG_PATTERN bol (lower t) = rg_rules_from bol (lower t).
Proof.
  induction t as [|c t IH]; intros bol.
  - destruct bol; reflexivity.
  - change (lower (String c t)) with (String (lower_char c) (lower t)).
    change (Re.search_from _AKS_RG_PATTERN bol (String (lower_char c) (lower t)))
      with (Re.matches _AKS_RG_PATTERN bol (String (lower_char c) (lower t)) Re.accept
            || Re.search_from _AKS_RG_PATTERN false (lower t)).
    rewrite IH.
    change (String (lower_char c) (lower t)) with (lower (String c t)).
    rewrite pattern_matches_here. unfold rg_rules_here, rg_rules_from.
    change (lower (String c t)) with (String (lower_char c) (lower t)).
    rewrite !str_in_cons, !endswith_cons.
    generalize (String (lower_char c) (lower t)). intros l.
    generalize (lower t). intros l'.
    btauto.
Qed.

End PatternFacts.

(** X4. What the resource-group pattern accepts of ASCII text: a group
    that, lower-cased, begins with [mc_], [aks_] or [aks-], or holds [aks]
    between two of [_] and [-], or ends with [_aks] or [-aks], a final
    newline apart; and no other ASCII text.  With the tests on the name
    this is the whole classifier on ASCII names and groups.  (Beyond
    ASCII, [re.IGNORECASE] and [str.lower] know more letters than the
    twenty-six.) *)
Theorem aks_pattern_read_as_text (name resource_group : option string) :
  Py.isascii (Py.or_empty name) = true ->
  Py.isascii (Py.or_empty resource_group) = true ->
  Re.search _AKS_RG_PATTERN (Py.or_empty resource_group)
  = rg_rules (Py.lower (Py.or_empty resource_group)) /\
  is_aks_related name resource_group
  = (rg_rules (Py.lower (Py.or_empty resource_group))
     || Py.startswith (Py.lower (Py.or_empty name)) "pvc-"
     || Py.str_in "kube" (Py.lower (Py.or_empty name))
     || Py.str_in "-pe-" (Py.lower (Py.or_empty name))).
Proof.
  intros _ _.
  assert (H : Re.search _AKS_RG_PATTERN (Py.or_empty resource_group)
              = rg_rules (Py.lower (Py.or_empty resource_group))).
  { unfold Re.search. rewrite <- search_from_lower, pattern_search_from.
    unfold rg_rules_from, rg_rules. now rewrite andb_true_l. }
  split; [exact H|].
  unfold is_aks_related. cbv zeta. rewrite H.
  destruct (rg_rules _); [reflexivity|].
  destruct (Py.startswith _ "pvc-"); [reflexivity|]. simpl.
  destruct (Py.str_in "kube" _) eqn:Ek; [reflexivity|]. simpl.
  destruct (Py.str_in "kube-apiserver.nic" _) eqn:E.
  - apply str_in_spec in E as (pre & post & E).
    assert (Py.str_in "kube" (Py.lower (Py.or_empty name)) = true) as Hk.
    { apply str_in_spec. exists pre, ("-apiserver.nic" +:+ post). rewrite E. reflexivity. }
    congruence.
  - simpl. now destruct (Py.str_in "-pe-" _).
Qed.

Lemma aks_pattern_read_as_text_witness :
  Re.search _AKS_RG_PATTERN "rg-AKS-prod" = true /\
  Re.search _AKS_RG_PATTERN "flasks-aksel" = false /\
  is_aks_related (Some "disk-01") (Some "flasks-aksel") = false.
Proof.
  split; [|split].
  - exact (eq_trans (proj1 (aks_pattern_read_as_text (Some "disk-01") (Some "rg-AKS-prod")
                              eq_refl eq_refl)) eq_refl).
  - exact (eq_trans (proj1 (aks_pattern_read_as_text (Some "disk-01") (Some "flasks-aksel")
                              eq_refl eq_refl)) eq_refl).
  - exact (eq_trans (proj2 (aks_pattern_read_as_text (Some "disk-01") (Some "flasks-aksel")
                              eq_refl eq_refl)) eq_refl).
Defined.

(** ** Remediation hints *)

Lemma append_cons (c : ascii) (s x : string) : String c s +:+ x = String c (s +:+ x).
Proof. reflexivity. Qed.

(** More fields of a finding. *)
Lemma finding_more_fields (a : args) (s : subscription) (costs : cost_data)
      (k : kind) (r : resource) :
  let f := finding_of a s costs (k, r) in
  dict_get f "subscription" = Some (VStr (subscription_name s)) /\
  dict_get f "subscriptionId" = Some (of_str (s_id s)) /\
  dict_get f "currency" = Some costs.2 /\
  dict_get f "remediation"
  = Some (VStr (remediation_hint
                  match k with
                  | Disk => "disk" | PublicIp => "publicIp" | Nic => "nic"
                  | Vm => "vm" | Snapshot => "snapshot"
                  end (r_id r))).
Proof.
  destruct k; repeat split; reflexivity.
Qed.

(** X5. The hint is empty exactly when the identifier is missing or
    empty or the resource type is none of the five the table knows; so
    the finding of a record has an empty hint exactly when the record has
    no identifier. *)
Theorem remediation_hint_empty_iff :
  (forall (resource_type : string) (resource_id : option string),
      remediation_hint resource_type resource_id = EmptyString <->
      Py.or_empty resource_id = EmptyString \/
      resource_type ∉ ["disk"; "publicIp"; "nic"; "vm"; "snapshot"]%string) /\
  (forall (a : args) (s : subscription) (costs : cost_data) (k : kind) (r : resource),
      dict_get (finding_of a s costs (k, r)) "remediation" = Some (VStr "") <->
      Py.or_empty (r_id r) = EmptyString).
Proof.
  assert (H : forall (resource_type : string) (resource_id : option string),
      remediation_hint resource_type resource_id = EmptyString <->
      Py.or_empty resource_id = EmptyString \/
      resource_type ∉ ["disk"; "publicIp"; "nic"; "vm"; "snapshot"]%string).
  { intros t rid. unfold remediation_hint.
    destruct (Py.or_empty rid) as [|c x]; simpl; [tauto|].
    destruct (String.eqb t "disk") eqn:E1;
      [apply String.eqb_eq in E1; subst t; split;
       [rewrite !append_cons; discriminate
       | intros [H | H]; [discriminate | exfalso; apply H; repeat first [apply list_elem_of_here | apply list_elem_of_further]]]|].
    destruct (String.eqb t "publicIp") eqn:E2;
      [apply String.eqb_eq in E2; subst t; split;
       [rewrite !append_cons; discriminate
       | intros [H | H]; [discriminate | exfalso; apply H; repeat first [apply list_elem_of_here | apply list_elem_of_further]]]|].
    destruct (String.eqb t "nic") eqn:E3;
      [apply String.eqb_eq in E3; subst t; split;
       [rewrite !append_cons; discriminate
       | intros [H | H]; [discriminate | exfalso; apply H; repeat first [apply list_elem_of_here | apply list_elem_of_further]]]|].
    destruct (String.eqb t "vm") eqn:E4;
      [apply String.eqb_eq in E4; subst t; split;
       [rewrite !append_cons; discriminate
       | intros [H | H]; [discriminate | exfalso; apply H; repeat first [apply list_elem_of_here | apply list_elem_of_further]]]|].
    destruct (String.eqb t "snapshot") eqn:E5;
      [apply String.eqb_eq in E5; subst t; split;
       [rewrite !append_cons; discriminate
       | intros [H | H]; [discriminate | exfalso; apply H; repeat first [apply list_elem_of_here | apply list_elem_of_further]]]|].
    apply String.eqb_neq in E1, E2, E3, E4, E5.
    split; [|reflexivity]. intros _. right.
    rewrite !not_elem_of_cons. repeat split; try assumption. apply not_elem_of_nil. }
  split; [exact H|].
  intros a s costs k r.
  destruct (finding_more_fields a s costs k r) as (_ & _ & _ & Hrem).
  cbv zeta in Hrem. rewrite Hrem. split.
  - intros Heq. injection Heq as Hhint. apply H in Hhint as [Hid | Hty]; [exact Hid|].
    exfalso. apply Hty.
    destruct k; repeat first [apply list_elem_of_here | apply list_elem_of_further].
  - intros Hid. f_equal. f_equal. apply H. now left.
Qed.

(** ** Orphaned disks, continued *)

Section MergeMore.

Lemma merge_disks_sublist (ds : list resource) :
  forall (seen : gset string) (result : list resource),
    exists kept : list resource,
      merge_disks ds seen result = result ++ kept /\ kept `sublist_of` ds.
Proof.
  induction ds as [|d ds IH]; intros seen result; simpl.
  - exists []. now rewrite app_nil_r.
  - destruct (Py.truthy (lower_id d) && bool_decide (lower_id d ∉ seen)).
    + destruct (IH ({[lower_id d]} ∪ seen) (result ++ [d])) as (kept & -> & Hsub).
      exists (d :: kept). split; [now rewrite <- app_assoc|].
      now apply sublist_skip.
    + destruct (IH seen result) as (kept & -> & Hsub).
      exists kept. split; [reflexivity|]. now apply sublist_cons.
Qed.

Lemma merge_disks_split (l1 : list resource) :
  forall (l2 : list resource) (seen : gset string) (result : list resource),
    merge_inv seen result ->
    exists seen' : gset string,
      merge_inv seen' (merge_disks l1 seen result) /\
      merge_disks (l1 ++ l2) seen result
      = merge_disks l2 seen' (merge_disks l1 seen result).
Proof.
  induction l1 as [|d l1 IH]; intros l2 seen result Hinv; simpl.
  - now exists seen.
  - destruct (Py.truthy (lower_id d)) eqn:Ht; simpl.
    + destruct (bool_decide (lower_id d ∉ seen)) eqn:Hd.
      * apply bool_decide_eq_true in Hd.
        apply IH. now apply merge_inv_step.
      * now apply IH.
    + now apply IH.
Qed.

(** Records with fresh, distinct, non-empty keys are all appended. *)
Lemma merge_disks_fresh (l : list resource) :
  forall (seen : gset string) (result : list resource),
    NoDup (lower_id <$> l) ->
    Forall (fun d => Py.truthy (lower_id d) = true) l ->
    (forall d, d ∈ l -> lower_id d ∉ seen) ->
    merge_disks l seen result = result ++ l.
Proof.
  induction l as [|d l IH]; intros seen result Hnd Hall Hfresh; simpl.
  - now rewrite app_nil_r.
  - rewrite fmap_cons in Hnd. apply NoDup_cons in Hnd as [Hd Hnd].
    apply Forall_cons in Hall as [Ht Hall]. rewrite Ht. simpl.
    rewrite bool_decide_eq_true_2 by (apply Hfresh; now left).
    rewrite IH; [now rewrite <- app_assoc | assumption | assumption |].
    intros d' Hd'. rewrite elem_of_union, elem_of_singleton.
    intros [Heq | Hin].
    + apply Hd. rewrite <- Heq. apply list_elem_of_fmap. now exists d'.
    + apply (Hfresh d'); [now right | assumption].
Qed.

End MergeMore.

(** X6. The merged inventory is a selection of [by_managed + by_state]
    in that order; no identifier is lost: every record with a non-empty
    identifier has a record of the same identifier, up to case, in it;
    and the record kept for an identifier is the first that carries it,
    so a disk that both filters return is kept as [by_managed] has it. *)
Theorem orphaned_disks_keep_first_of_each
        (by_managed by_state : list resource) :
  get_orphaned_disks by_managed by_state `sublist_of` (by_managed ++ by_state) /\
  (forall d : resource,
      d ∈ by_managed ++ by_state -> lower_id d <> EmptyString ->
      exists d' : resource,
        d' ∈ get_orphaned_disks by_managed by_state /\ lower_id d' = lower_id d) /\
  (forall (pre post : list resource) (d : resource),
      by_managed ++ by_state = pre ++ d :: post ->
      lower_id d <> EmptyString ->
      (forall d' : resource, d' ∈ pre -> lower_id d' <> lower_id d) ->
      d ∈ get_orphaned_disks by_managed by_state).
Proof.
  split; [|split].
  - unfold get_orphaned_disks.
    destruct (merge_disks_sublist (by_managed ++ by_state) ∅ []) as (kept & -> & Hsub).
    exact Hsub.
  - intros d Hd Hne.
    destruct (get_orphaned_disks_spec by_managed by_state) as (_ & _ & Hkeys & _).
    assert (Hk : lower_id d ∈ lower_id <$> get_orphaned_disks by_managed by_state).
    { apply Hkeys. split; [now apply truthy_true|].
      apply list_elem_of_fmap. now exists d. }
    apply list_elem_of_fmap in Hk as (d' & Heq & Hd'). now exists d'.
  - intros pre post d Heq Hne Hfirst. unfold get_orphaned_disks. rewrite Heq.
    destruct (merge_disks_split pre (d :: post) ∅ [] merge_inv_init)
      as (seen' & Hinv & ->).
    destruct (merge_disks_spec pre ∅ [] merge_inv_init) as (_ & _ & Hkeys & _).
    assert (Hnew : lower_id d ∉ seen').
    { intros Hin. apply Hinv in Hin. apply Hkeys in Hin as [Hin | [_ Hin]].
      - inversion Hin.
      - apply list_elem_of_fmap in Hin as (d' & Heq' & Hd').
        now apply (Hfirst d' Hd'). }
    simpl. apply truthy_true in Hne. rewrite Hne. simpl.
    rewrite bool_decide_eq_true_2 by assumption.
    destruct (merge_disks_sublist post ({[lower_id d]} ∪ seen')
                (merge_disks pre ∅ [] ++ [d])) as (kept & -> & _).
    rewrite !elem_of_app, list_elem_of_singleton. tauto.
Qed.

(** X7. Merging a merged inventory again, with any listing it already
    covers, changes nothing: when every record of [more] that has an
    identifier shares it, up to case, with a record of the two listings,
    the merge of the merged inventory with [more] is the merged inventory.
    So it is for no further listing, for [by_state], for [by_managed] and
    for the merged inventory itself. *)
Theorem orphaned_disks_merge_is_idempotent (by_managed by_state more : list resource) :
  (forall d : resource,
      d ∈ more -> lower_id d <> EmptyString ->
      exists d' : resource, d' ∈ by_managed ++ by_state /\ lower_id d' = lower_id d) ->
  get_orphaned_disks (get_orphaned_disks by_managed by_state) more
  = get_orphaned_disks by_managed by_state.
Proof.
  intros Hcovered.
  destruct (get_orphaned_disks_spec by_managed by_state) as (Hnd & Hall & Hkeys & _).
  assert (H1 : merge_disks (get_orphaned_disks by_managed by_state) ∅ []
               = get_orphaned_disks by_managed by_state).
  { rewrite merge_disks_fresh; try assumption; [reflexivity|].
    intros d _. apply not_elem_of_empty. }
  unfold get_orphaned_disks at 1.
  destruct (merge_disks_split (get_orphaned_disks by_managed by_state) more
              ∅ [] merge_inv_init) as (seen' & Hinv & ->).
  rewrite H1 in *.
  destruct (merge_disks_spec more seen' _ Hinv) as (Hnd' & Hall' & _ & _).
  destruct (merge_disks_sublist more seen'
              (get_orphaned_disks by_managed by_state)) as (kept & Hk & Hsub).
  rewrite Hk in *. destruct kept as [|d kept]; [now rewrite app_nil_r|].
  exfalso. rewrite fmap_app in Hnd'. apply NoDup_app in Hnd' as (_ & Hdisj & _).
  apply (Hdisj (lower_id d)); [|rewrite fmap_cons; now left].
  assert (Hd : d ∈ more).
  { apply (sublist_submseteq _ _) in Hsub.
    apply (elem_of_submseteq _ _ _ (list_elem_of_here d kept) Hsub). }
  assert (Ht : Py.truthy (lower_id d) = true).
  { rewrite Forall_forall in Hall'. apply Hall'.
    apply elem_of_app. right. now left. }
  destruct (Hcovered d Hd) as (d' & Hd' & Heq).
  { intros E. rewrite E in Ht. discriminate. }
  apply Hkeys. split; [exact Ht|]. rewrite <- Heq.
  apply list_elem_of_fmap. now exists d'.
Qed.

(** The disk that both sample filters return, spelled as the second
    filter has it, is covered. *)
Lemma orphaned_disks_merge_is_idempotent_witness :
  get_orphaned_disks
    (get_orphaned_disks [named "/subscriptions/abc/Disk1" "pvc-1234" "rg-data"] [])
    [named "/SUBSCRIPTIONS/abc/disk1" "pvc-1234" "rg-data"]
  = get_orphaned_disks [named "/subscriptions/abc/Disk1" "pvc-1234" "rg-data"] [].
Proof.
  apply (orphaned_disks_merge_is_idempotent
           [named "/subscriptions/abc/Disk1" "pvc-1234" "rg-data"] []
           [named "/SUBSCRIPTIONS/abc/disk1" "pvc-1234" "rg-data"]).
  intros d Hd _. apply list_elem_of_singleton in Hd. subst d.
  exists (named "/subscriptions/abc/Disk1" "pvc-1234" "rg-data").
  split; [apply list_elem_of_here | reflexivity].
Defined.

(** ** Snapshots, continued *)

Section SnapshotMore.

Variable fromisoformat : string -> option datetime.
Variable clock : nat -> Z.



End SnapshotMore.





(** ** The cost lookup, continued *)

Section ColumnFacts.

Lemma last_index_spec (x : string) (l : list string) :
  (forall j : nat,
      last_index x l = Some j <->
      l !! j = Some x /\ forall k : nat, (j < k)%nat -> l !! k <> Some x) /\
  (last_index x l = None <-> x ∉ l).
Proof.
  induction l as [|y l [IH1 IH2]]; simpl.
  - split.
    + intros j. split; [discriminate | intros [H _]; discriminate].
    + split; [intros _; apply not_elem_of_nil | reflexivity].
  - destruct (last_index x l) as [j0|] eqn:E.
    + split.
      * intros j. split.
        -- intros H. injection H as <-.
           destruct (proj1 (IH1 j0) eq_refl) as [E1 E2].
           split; [exact E1|]. intros [|k] Hk; [lia|]. apply E2. lia.
        -- intros [H1 H2]. destruct j as [|j].
           ++ exfalso. destruct (proj1 (IH1 j0) eq_refl) as [E1 _].
              apply (H2 (S j0)); [lia | exact E1].
           ++ assert (Hj : Some j0 = Some j).
              { apply IH1. split; [exact H1|].
                intros k Hk. apply (H2 (S k)). lia. }
              congruence.
      * split; [discriminate|]. intros H. exfalso. apply H. right.
        destruct (proj1 (IH1 j0) eq_refl) as [E1 _].
        apply list_elem_of_lookup. now exists j0.
    + assert (Hx : x ∉ l) by now apply IH2.
      destruct (String.eqb y x) eqn:Ey.
      * apply String.eqb_eq in Ey. subst y. split.
        -- intros j. split.
           ++ intros H. injection H as <-. split; [reflexivity|].
              intros [|k] Hk; [lia|]. simpl. intros Hl. apply Hx.
              apply list_elem_of_lookup. now exists k.
           ++ intros [H1 _]. destruct j as [|j]; [reflexivity|].
              exfalso. apply Hx. apply list_elem_of_lookup. now exists j.
        -- split; [discriminate|]. intros H. exfalso. apply H. now left.
      * apply String.eqb_neq in Ey. split.
        -- intros j. split; [discriminate|]. intros [H1 _].
           destruct j as [|j]; simpl in H1; [congruence|].
           exfalso. apply Hx. apply list_elem_of_lookup. now exists j.
        -- split; [|reflexivity]. intros _. apply not_elem_of_cons. split; congruence.
Qed.

(** The loop over the columns is three searches for a last position. *)
Lemma find_columns_last_index (cs : list (option string)) :
  forall (i0 : nat) (ix : indices),
    find_columns cs i0 ix
    = {| idx_cost := shift i0 (last_index "pretaxcost" (column_names cs)) (idx_cost ix);
         idx_rid := shift i0 (last_index "resourceid" (column_names cs)) (idx_rid ix);
         idx_currency := shift i0 (last_index "currency" (column_names cs))
                               (idx_currency ix) |}.
Proof.
  induction cs as [|c cs IH]; intros i0 ix.
  - now destruct ix.
  - simpl find_columns. rewrite IH. unfold column_names. rewrite fmap_cons.
    fold (column_names cs). simpl last_index.
    destruct (last_index "pretaxcost" (column_names cs)) as [j1|];
      destruct (last_index "resourceid" (column_names cs)) as [j2|];
      destruct (last_index "currency" (column_names cs)) as [j3|];
      unfold shift;
      destruct (String.eqb (Py.lower (Py.or_empty c)) "pretaxcost") eqn:E1;
      destruct (String.eqb (Py.lower (Py.or_empty c)) "resourceid") eqn:E2;
      destruct (String.eqb (Py.lower (Py.or_empty c)) "currency") eqn:E3;
      try (apply String.eqb_eq in E1; rewrite E1 in E2; discriminate);
      try (apply String.eqb_eq in E1; rewrite E1 in E3; discriminate);
      try (apply String.eqb_eq in E2; rewrite E2 in E3; discriminate);
      simpl; rewrite ?Nat.add_0_r, ?Nat.add_succ_r; reflexivity.
Qed.

Lemma resolve_columns_last_index (cs : list (option string)) :
  resolve_columns cs
  = {| idx_cost := last_index "pretaxcost" (column_names cs);
       idx_rid := last_index "resourceid" (column_names cs);
       idx_currency := last_index "currency" (column_names cs) |}.
Proof.
  unfold resolve_columns. rewrite find_columns_last_index. unfold shift. simpl.
  now destruct (last_index "pretaxcost" _), (last_index "resourceid" _),
               (last_index "currency" _).
Qed.

End ColumnFacts.

(** X10. The columns are found by name, whatever their order: each of
    the three indices is the position of the last column whose
    lower-cased name is the one looked for, and is missing exactly when
    no column has that name. *)
Theorem columns_are_resolved_by_name (cs : list (option string)) :
  let ix := resolve_columns cs in
  (forall i : nat,
      idx_cost ix = Some i <->
      column_names cs !! i = Some "pretaxcost"%string /\
      forall j : nat, (i < j)%nat -> column_names cs !! j <> Some "pretaxcost"%string) /\
  (forall i : nat,
      idx_rid ix = Some i <->
      column_names cs !! i = Some "resourceid"%string /\
      forall j : nat, (i < j)%nat -> column_names cs !! j <> Some "resourceid"%string) /\
  (forall i : nat,
      idx_currency ix = Some i <->
      column_names cs !! i = Some "currency"%string /\
      forall j : nat, (i < j)%nat -> column_names cs !! j <> Some "currency"%string) /\
  (idx_cost ix = None <-> "pretaxcost"%string ∉ column_names cs) /\
  (idx_rid ix = None <-> "resourceid"%string ∉ column_names cs) /\
  (idx_currency ix = None <-> "currency"%string ∉ column_names cs).
Proof.
  cbv zeta. rewrite resolve_columns_last_index. simpl.
  destruct (last_index_spec "pretaxcost" (column_names cs)) as [A1 A2].
  destruct (last_index_spec "resourceid" (column_names cs)) as [B1 B2].
  destruct (last_index_spec "currency" (column_names cs)) as [C1 C2].
  repeat split; first [apply A1 | apply B1 | apply C1 | apply A2 | apply B2 | apply C2];
    assumption.
Qed.

(** X11. Without a column named [PreTaxCost], or without one named
    [ResourceId], the lookup returns the empty index and no currency,
    whatever the rows hold. *)
Theorem missing_column_gives_empty_index
        (float_repr : Q -> string) (float_of_str : string -> option Q)
        (st : lookup_state) :
  "pretaxcost"%string ∉ column_names (cols st) \/
  "resourceid"%string ∉ column_names (cols st) ->
  build_cost_map float_repr float_of_str st = Ok (∅, VNone).
Proof.
  intros H. unfold build_cost_map. rewrite resolve_columns_last_index. simpl.
  destruct (last_index_spec "pretaxcost" (column_names (cols st))) as [_ A2].
  destruct (last_index_spec "resourceid" (column_names (cols st))) as [_ B2].
  destruct H as [H | H].
  - apply A2 in H. now rewrite H.
  - apply B2 in H. rewrite H. now destruct (last_index "pretaxcost" _).
Qed.

Lemma missing_column_gives_empty_index_witness :
  build_cost_map sample_float_repr sample_float_of_str
    {| all_rows := [[VStr "/subscriptions/abc/disk1"; VStr "GBP"]];
       cols := [Some "ResourceId"; Some "Currency"] |}
  = Ok (∅, VNone).
Proof.
  apply (missing_column_gives_empty_index sample_float_repr sample_float_of_str).
  left. vm_compute. intros H.
  repeat (apply elem_of_cons in H as [H | H]; [discriminate|]).
  inversion H.
Defined.

Section LookupMore.

Variable float_repr : Q -> string.
Variable float_of_str : string -> option Q.

Lemma paginate_stop (next_link : option string) (pages : list (result response))
      (st : lookup_state) (reqs : list string) :
  Py.truthy (Py.or_empty next_link) = false ->
  paginate next_link pages st reqs = Some (st, reqs).
Proof.
  intros H. destruct next_link as [l|]; simpl in H.
  - destruct pages; simpl; now rewrite H.
  - now destruct pages.
Qed.

(** Pages that carry a link are followed up to the page that carries
    none; what the outside could answer after it is never asked for. *)
Lemma paginate_to_the_end (mids : list response) :
  forall (link : string) (last_page : response) (st : lookup_state)
         (reqs : list string) (rest : list (result response)),
    link <> EmptyString ->
    Forall (fun r => exists l, nextLink r = Some l /\ l <> EmptyString) mids ->
    Py.truthy (Py.or_empty (nextLink last_page)) = false ->
    paginate (Some link) ((Ok <$> mids ++ [last_page]) ++ rest) st reqs
    = Some (fold_left (fun st r => (extract_from_response st r).1)
                      (mids ++ [last_page]) st,
            reqs ++ link :: omap nextLink mids).
Proof.
  induction mids as [|r mids IH]; intros link last_page st reqs rest Hlink Hall Hlast;
    apply truthy_true in Hlink; simpl; rewrite Hlink; simpl.
  - now rewrite paginate_stop.
  - apply Forall_cons in Hall as [(l & Hl & Hne) Hall].
    rewrite Hl. rewrite (IH l last_page _ _ rest Hne Hall Hlast). simpl.
    now rewrite <- app_assoc.
Qed.

(** An entry, once made, stays; and every row with an identifier makes
    one. *)
Lemma index_rows_grows (i_rid i_cost : nat) (i_currency : option nat)
      (rs : list (list value)) :
  forall (m : gmap string Q) (cur : value) (m' : gmap string Q) (cur' : value),
    index_rows float_repr float_of_str i_rid i_cost i_currency rs m cur = Ok (m', cur') ->
    (forall k, is_Some (m !! k) -> is_Some (m' !! k)) /\
    (forall r rid, r ∈ rs -> r !! i_rid = Some rid -> value_truthy rid = true ->
                   is_Some (m' !! Py.lower (py_str float_repr rid))).
Proof.
  induction rs as [|r rs IH]; intros m cur m' cur' Hrun.
  - simpl in Hrun. injection Hrun as <- <-. split; [auto|].
    intros r rid Hin. inversion Hin.
  - apply index_rows_cons in Hrun
      as (rid & cost & cur1 & Hrid & Hcost & [[Ht Hrun] | [Ht (c1 & Hc1 & Hrun)]]);
      destruct (IH _ _ _ _ Hrun) as [Hkeep Hrows]; split.
    + exact Hkeep.
    + intros r0 rid0 Hin Hrid0 Ht0. apply elem_of_cons in Hin as [-> | Hin].
      * congruence.
      * now apply (Hrows r0).
    + intros k Hk. apply Hkeep.
      destruct (decide (Py.lower (py_str float_repr rid) = k)) as [<- | Hne].
      * rewrite lookup_insert_eq. now eexists.
      * now rewrite lookup_insert_ne.
    + intros r0 rid0 Hin Hrid0 Ht0. apply elem_of_cons in Hin as [-> | Hin].
      * assert (rid0 = rid) by congruence. subst rid0.
        apply Hkeep. rewrite lookup_insert_eq. now eexists.
      * now apply (Hrows r0).
Qed.

(** The currency that the loop returns. *)
Lemma index_rows_currency (i_rid i_cost : nat) (i_currency : option nat)
      (rs : list (list value)) :
  forall (m : gmap string Q) (cur : value) (m' : gmap string Q) (cur' : value),
    index_rows float_repr float_of_str i_rid i_cost i_currency rs m cur = Ok (m', cur') ->
    match i_currency, last rs with
    | Some i, Some r => r !! i = Some cur'
    | _, _ => cur' = cur
    end.
Proof.
  induction rs as [|r rs IH]; intros m cur m' cur' Hrun.
  - simpl in Hrun. injection Hrun as <- <-. now destruct i_currency.
  - assert (Hstep : exists m1 cur1,
              index_rows float_repr float_of_str i_rid i_cost i_currency rs m1 cur1
              = Ok (m', cur') /\
              match i_currency with
              | Some i => r !! i = Some cur1
              | None => cur1 = cur
              end).
    { revert Hrun. simpl. unfold item.
      destruct (r !! i_rid) as [rid|]; unbind; [|discriminate].
      destruct (r !! i_cost) as [cost|]; unbind; [|discriminate].
      destruct i_currency as [i|].
      - destruct (r !! i) as [c|]; unbind; [|discriminate].
        destruct (value_truthy rid); simpl.
        + destruct (py_float float_of_str (or_zero cost)) as [q|]; [|discriminate].
          intros H. now exists (<[Py.lower (py_str float_repr rid) := q]> m), c.
        + intros H. now exists m, c.
      - unbind. destruct (value_truthy rid); simpl.
        + destruct (py_float float_of_str (or_zero cost)) as [q|]; [|discriminate].
          intros H. now exists (<[Py.lower (py_str float_repr rid) := q]> m), cur.
        + intros H. now exists m, cur. }
    destruct Hstep as (m1 & cur1 & Hrun1 & Hcur1).
    specialize (IH _ _ _ _ Hrun1).
    destruct i_currency as [i|].
    + destruct rs as [|r' rs]; [simpl in *; congruence|].
      change (last (r :: r' :: rs)) with (last (r' :: rs)).
      destruct (last (r' :: rs)) eqn:El; [exact IH|].
      apply last_None in El. discriminate.
    + destruct (last (r :: rs)); congruence.
Qed.

End LookupMore.

(** X12. The lookup follows the links to the end.  A first answer
    without a link is indexed with no further request; otherwise every
    page that carries a link is followed by one request for that link,
    the page without a link ends the loop, and the index is built from
    the rows of all these pages, with the columns of the first page that
    names any.  A first request that fails is the failure of the lookup. *)
Theorem pagination_reads_every_page
        (float_repr : Q -> string) (float_of_str : string -> option Q)
        (subscription_id : string) (rest : list (result response)) :
  (forall first : response,
      Py.truthy (Py.or_empty (nextLink first)) = false ->
      get_cost_map_last30d_by_resource_id float_repr float_of_str subscription_id
        (Ok first) rest
      = Some {| outcome := build_cost_map float_repr float_of_str
                             {| all_rows := rows first; cols := columns first |};
                requested := [api_url subscription_id] |}) /\
  (forall (first : response) (mids : list response) (last_page : response),
      Forall (fun r => exists l, nextLink r = Some l /\ l <> EmptyString) (first :: mids) ->
      Py.truthy (Py.or_empty (nextLink last_page)) = false ->
      exists st : lookup_state,
        get_cost_map_last30d_by_resource_id float_repr float_of_str subscription_id
          (Ok first) ((Ok <$> mids ++ [last_page]) ++ rest)
        = Some {| outcome := build_cost_map float_repr float_of_str st;
                  requested := api_url subscription_id :: omap nextLink (first :: mids) |} /\
        all_rows st = concat (rows <$> first :: mids ++ [last_page]) /\
        cols st = default [] (head (filter (fun cs => cs <> [])
                                           (columns <$> first :: mids ++ [last_page])))) /\
  (forall e : exn,
      get_cost_map_last30d_by_resource_id float_repr float_of_str subscription_id
        (Raise e) rest
      = Some {| outcome := Raise e; requested := [api_url subscription_id] |}).
Proof.
  split; [|split].
  - intros first Hlast. unfold get_cost_map_last30d_by_resource_id. simpl.
    now rewrite paginate_stop.
  - intros first mids last_page Hall Hlast.
    apply Forall_cons in Hall as [(l & Hl & Hne) Hall].
    exists (fold_left (fun st r => (extract_from_response st r).1)
              (first :: mids ++ [last_page]) {| all_rows := []; cols := [] |}).
    split; [|split].
    + unfold get_cost_map_last30d_by_resource_id. simpl. rewrite Hl.
      now rewrite (paginate_to_the_end mids l last_page _ _ rest Hne Hall Hlast).
    + now rewrite extract_all_rows.
    + now rewrite extract_cols.
  - reflexivity.
Qed.

(** X13. The currency that comes with the index is the currency cell of
    the last row, also when that row has no identifier and adds no
    entry; without a currency column, or without rows, there is none. *)
Theorem index_currency_is_that_of_the_last_row
        (float_repr : Q -> string) (float_of_str : string -> option Q)
        (st : lookup_state) (m : gmap string Q) (cur : value) :
  build_cost_map float_repr float_of_str st = Ok (m, cur) ->
  (forall (i : nat) (r : list value),
      is_Some (idx_cost (resolve_columns (cols st))) ->
      is_Some (idx_rid (resolve_columns (cols st))) ->
      idx_currency (resolve_columns (cols st)) = Some i ->
      last (all_rows st) = Some r ->
      r !! i = Some cur) /\
  (idx_currency (resolve_columns (cols st)) = None \/ all_rows st = [] -> cur = VNone).
Proof.
  unfold build_cost_map. intros Hbuild.
  destruct (idx_cost (resolve_columns (cols st))) as [i_cost|];
    [|injection Hbuild as <- <-; split;
      [intros i r [x Hx]; discriminate | reflexivity]].
  destruct (idx_rid (resolve_columns (cols st))) as [i_rid|];
    [|injection Hbuild as <- <-; split;
      [intros i r _ [x Hx]; discriminate | reflexivity]].
  pose proof (index_rows_currency _ _ _ _ _ _ _ _ _ _ Hbuild) as Hcur.
  split.
  - intros i r _ _ Hi Hlast. now rewrite Hi, Hlast in Hcur.
  - intros [Hnone | Hempty].
    + now rewrite Hnone in Hcur.
    + rewrite Hempty in Hcur. simpl in Hcur.
      now destruct (idx_currency (resolve_columns (cols st))).
Qed.

Lemma index_currency_is_that_of_the_last_row_witness :
  [VFloat (25 # 2); VStr "/SUBSCRIPTIONS/abc/Disk1"; VStr "GBP"] !! 2%nat
  = Some (VStr "GBP").
Proof.
  destruct (index_currency_is_that_of_the_last_row
              sample_float_repr sample_float_of_str
              {| all_rows := rows (sample_page None);
                 cols := columns (sample_page None) |}
              sample_index (VStr "GBP")) as [H _].
  - reflexivity.
  - apply (H 2%nat).
    + now exists 0%nat.
    + now exists 1%nat.
    + reflexivity.
    + reflexivity.
Defined.

(** X14. No row with an identifier is lost: when the lookup returns an
    index, every row whose identifier cell is neither null nor empty has
    an entry under its lower-cased identifier. *)
Theorem every_identified_row_is_indexed
        (float_repr : Q -> string) (float_of_str : string -> option Q)
        (st : lookup_state) (m : gmap string Q) (cur : value)
        (i_rid i_cost : nat) (r : list value) (rid : value) :
  build_cost_map float_repr float_of_str st = Ok (m, cur) ->
  idx_rid (resolve_columns (cols st)) = Some i_rid ->
  idx_cost (resolve_columns (cols st)) = Some i_cost ->
  r ∈ all_rows st -> r !! i_rid = Some rid -> value_truthy rid = true ->
  is_Some (m !! Py.lower (py_str float_repr rid)).
Proof.
  intros Hbuild Er Ec Hr Hrid Ht.
  unfold build_cost_map in Hbuild. cbv zeta in Hbuild. rewrite Ec, Er in Hbuild.
  destruct (index_rows_grows _ _ _ _ _ _ _ _ _ _ Hbuild) as [_ Hrows].
  now apply (Hrows r).
Qed.

Lemma every_identified_row_is_indexed_witness :
  is_Some (sample_index !! Py.lower (py_str sample_float_repr
                                            (VStr "/SUBSCRIPTIONS/abc/Disk1"))).
Proof.
  apply (every_identified_row_is_indexed sample_float_repr sample_float_of_str
           {| all_rows := rows (sample_page None); cols := columns (sample_page None) |}
           sample_index (VStr "GBP") 1 0
           [VFloat (25 # 2); VStr "/SUBSCRIPTIONS/abc/Disk1"; VStr "GBP"]
           (VStr "/SUBSCRIPTIONS/abc/Disk1")).
  - reflexivity.
  - reflexivity.
  - reflexivity.
  - apply list_elem_of_here.
  - reflexivity.
  - reflexivity.
Defined.

(** ** Findings, continued *)

Section DictFacts.

Lemma dict_get_set (d : dict) (k k' : string) (v : value) :
  dict_get (dict_set d k v) k' = if String.eqb k k' then Some v else dict_get d k'.
Proof.
  induction d as [|[k0 v0] d IH]; simpl.
  - reflexivity.
  - destruct (String.eqb k0 k) eqn:E0; simpl.
    + apply String.eqb_eq in E0. subst k0.
      now destruct (String.eqb k k').
    + destruct (String.eqb k0 k') eqn:E1.
      * apply String.eqb_eq in E1. subst k0. now rewrite String.eqb_sym, E0.
      * exact IH.
Qed.

Lemma dict_get_None (d : dict) (k : string) :
  dict_get d k = None <-> k ∉ d.*1.
Proof.
  induction d as [|[k0 v0] d IH]; simpl.
  - split; [intros _; apply not_elem_of_nil | reflexivity].
  - destruct (String.eqb k0 k) eqn:E.
    + apply String.eqb_eq in E. subst. split; [discriminate|].
      intros H. exfalso. apply H. now left.
    + apply String.eqb_neq in E. rewrite IH, not_elem_of_cons. split; [|tauto].
      intros H. split; [congruence | exact H].
Qed.

(** Setting the pairs of a dict one after the other: a key of the dict
    gets the dict's value, any other key keeps the value it had. *)
Lemma dict_get_update (it : dict) :
  forall (d : dict) (k : string),
    NoDup it.*1 ->
    dict_get (fold_left (fun d kv => dict_set d kv.1 kv.2) it d) k
    = match dict_get it k with
      | Some v => Some v
      | None => dict_get d k
      end.
Proof.
  induction it as [|[k0 v0] it IH]; intros d k Hnd; simpl.
  - reflexivity.
  - rewrite fmap_cons in Hnd. apply NoDup_cons in Hnd as [Hk0 Hnd]. simpl in Hk0.
    rewrite (IH _ _ Hnd). rewrite dict_get_set. simpl.
    destruct (String.eqb k0 k) eqn:E.
    + apply String.eqb_eq in E. subst k0.
      apply dict_get_None in Hk0. now rewrite Hk0.
    + reflexivity.
Qed.

End DictFacts.

(** X15. In a finding the keys of the item win: every key of the item
    keeps the item's value in the finding, also [subscription],
    [subscriptionId] or [bucket] if the item has one; a key that the item
    lacks has the value that [build_findings] gives to these three, and
    no other key exists. *)
Theorem item_keys_override_entry
        (subscription_name : string) (subscription_id : option string)
        (bucket : string) (it : dict) (k : string) :
  NoDup it.*1 ->
  dict_get (build_entry subscription_name subscription_id bucket it) k
  = match dict_get it k with
    | Some v => Some v
    | None =>
        if String.eqb k "subscription" then Some (VStr subscription_name)
        else if String.eqb k "subscriptionId" then Some (of_str subscription_id)
        else if String.eqb k "bucket" then Some (VStr bucket)
        else None
    end.
Proof.
  intros Hnd. unfold build_entry, display. rewrite fold_left_app.
  rewrite (dict_get_update it _ k Hnd).
  destruct (dict_get it k); [reflexivity|].
  change (fold_left (fun d kv => dict_set d kv.1 kv.2)
            [("subscription"%string, VStr subscription_name);
             ("subscriptionId"%string, of_str subscription_id);
             ("bucket"%string, VStr bucket)] [])
    with [("subscription"%string, VStr subscription_name);
          ("subscriptionId"%string, of_str subscription_id);
          ("bucket"%string, VStr bucket)].
  cbn -[String.eqb].
  rewrite (String.eqb_sym "subscription" k), (String.eqb_sym "subscriptionId" k),
          (String.eqb_sym "bucket" k).
  destruct (String.eqb k "subscription") eqn:E1; [reflexivity|].
  destruct (String.eqb k "subscriptionId") eqn:E2; [reflexivity|].
  now destruct (String.eqb k "bucket").
Qed.

Lemma item_keys_override_entry_witness :
  dict_get (build_entry "Production" (Some "abc"%string) "immediate"
                        [("bucket"%string, VStr "custom")]) "bucket"
  = Some (VStr "custom").
Proof.
  apply (item_keys_override_entry "Production" (Some "abc"%string) "immediate"
           [("bucket"%string, VStr "custom")] "bucket").
  apply NoDup_singleton.
Defined.

(** X16. Without cost data — the lookup disabled, or failed — every
    finding of the subscription has a null cost and a null currency. *)
Theorem no_cost_data_means_null_costs
        (fromisoformat : string -> option datetime) (clock : nat -> Z)
        (a : args) (s : subscription) (lookup : result cost_data) (w : listings)
        (f : dict) :
  no_cost a = true \/ (exists e : exn, lookup = Raise e) ->
  f ∈ findings (scan_subscription fromisoformat clock a s lookup w) ->
  dict_get f "costLast30d" = Some VNone /\ dict_get f "currency" = Some VNone.
Proof.
  intros Hno Hf.
  assert (Hcosts : subscription_costs a lookup = (∅, VNone)).
  { unfold subscription_costs. destruct Hno as [-> | [e ->]]; [reflexivity|].
    now destruct (no_cost a). }
  destruct (is_structured (output_format a)) eqn:Hfmt.
  - rewrite (scan_findings fromisoformat clock a s lookup w Hfmt) in Hf.
    apply list_elem_of_fmap in Hf as ([k r] & -> & _).
    destruct (finding_fields a s (subscription_costs a lookup) k r) as (_ & _ & _ & Hc).
    destruct (finding_more_fields a s (subscription_costs a lookup) k r)
      as (_ & _ & Hcur & _).
    cbv zeta in Hc, Hcur. rewrite Hc, Hcur, Hcosts. split; [|reflexivity].
    assert (Hget : get_cost a ∅ (r_id r) = None)
      by (apply get_cost_none_iff; right; right; apply lookup_empty).
    simpl. rewrite Hget. now destruct k.
  - rewrite (scan_findings_text fromisoformat clock a s lookup w Hfmt) in Hf.
    inversion Hf.
Qed.

Lemma no_cost_data_means_null_costs_witness :
  dict_get (finding_of (sample_args json) sample_subscription (∅, VNone)
              (PublicIp, named "/subscriptions/abc/pip1" "pip1" "flasks"))
           "costLast30d" = Some VNone /\
  dict_get (finding_of (sample_args json) sample_subscription (∅, VNone)
              (PublicIp, named "/subscriptions/abc/pip1" "pip1" "flasks"))
           "currency" = Some VNone.
Proof.
  apply (no_cost_data_means_null_costs sample_fromisoformat sample_clock
           (sample_args json) sample_subscription (Raise RuntimeError) sample_listings).
  - right. now exists RuntimeError.
  - vm_compute. apply list_elem_of_here.
Defined.

Section OrderFacts.

Variable a : args.
Variable s : subscription.
Variable costs : cost_data.

Lemma filed_step (k : kind) (st : items) (done : list (kind * resource)) (r : resource) :
  let step := match k with
              | Disk => disk_step a costs.1 costs.2
              | PublicIp => public_ip_step a costs.1 costs.2
              | Nic => nic_step a costs.1 costs.2
              | Vm => vm_step a costs.1 costs.2
              | Snapshot => snapshot_step costs.2
              end in
  filed a costs st done -> filed a costs (step st r) (done ++ [(k, r)]).
Proof.
  intros step (H1 & H2 & H3). subst step. unfold filed in *.
  rewrite !filter_app, !filter_cons, !filter_nil, !fmap_app. simpl.
  destruct k; simpl;
    unfold disk_step, public_ip_step, nic_step, vm_step, snapshot_step;
    try destruct (is_aks_related _ _); simpl;
    rewrite H1, H2, H3;
    repeat first [ rewrite decide_True by reflexivity
                 | rewrite decide_False by discriminate ];
    simpl; rewrite ?app_nil_r; repeat split; reflexivity.
Qed.

Lemma filed_loop (k : kind) (rs : list resource) :
  forall (st : items) (done : list (kind * resource)),
    let step := match k with
                | Disk => disk_step a costs.1 costs.2
                | PublicIp => public_ip_step a costs.1 costs.2
                | Nic => nic_step a costs.1 costs.2
                | Vm => vm_step a costs.1 costs.2
                | Snapshot => snapshot_step costs.2
                end in
    filed a costs st done -> filed a costs (fold_left step rs st) (done ++ (pair k <$> rs)).
Proof.
  induction rs as [|r rs IH]; intros st done step H; simpl.
  - now rewrite app_nil_r.
  - rewrite cons_middle, app_assoc. apply IH. now apply (filed_step k).
Qed.

Lemma entries_of_bucket (b : string) (l : list (kind * resource)) :
  build_entry (subscription_name s) (s_id s) b
    <$> ((fun kr => item_of a costs.1 costs.2 kr.1 kr.2)
           <$> filter (fun kr => bucket_of kr.1 kr.2 = b) l)
  = finding_of a s costs <$> filter (fun kr => bucket_of kr.1 kr.2 = b) l.
Proof.
  induction l as [|kr l IH]; [reflexivity|].
  rewrite filter_cons. destruct (decide (bucket_of kr.1 kr.2 = b)) as [E | E].
  - rewrite !fmap_cons, IH. f_equal. unfold finding_of. now rewrite E.
  - exact IH.
Qed.

End OrderFacts.

(** X17. The findings of a subscription are grouped by bucket: first
    those of [immediate], then those of [aks_review], then the snapshots,
    each group in the order in which the records were collected (disks,
    public IPs, NICs, VMs, snapshots). *)
Theorem findings_are_grouped_by_bucket
        (fromisoformat : string -> option datetime) (clock : nat -> Z)
        (a : args) (s : subscription) (lookup : result cost_data) (w : listings) :
  is_structured (output_format a) = true ->
  let records := collected fromisoformat clock a w in
  findings (scan_subscription fromisoformat clock a s lookup w)
  = finding_of a s (subscription_costs a lookup)
      <$> (filter (fun kr => bucket_of kr.1 kr.2 = "immediate"%string) records
           ++ filter (fun kr => bucket_of kr.1 kr.2 = "aks_review"%string) records
           ++ filter (fun kr => bucket_of kr.1 kr.2 = "snapshot_review"%string) records).
Proof.
  intros Hfmt records. subst records. unfold scan_subscription, collected.
  destruct (subscription_costs a lookup) as [cost_map currency] eqn:Ecosts.
  rewrite Hfmt. simpl findings.
  match goal with |- build_findings _ _ (immediate_items ?st) _ _ = _ =>
    change (build_findings (subscription_name s) (s_id s)
              (immediate_items st) (review_items st) (snapshot_items st))
      with (entries s st);
    assert (Hfiled : filed a (cost_map, currency) st
              ((pair Disk <$> get_orphaned_disks (disks_by_managed w) (disks_by_state w))
               ++ (pair PublicIp <$> public_ips w)
               ++ (pair Nic <$> nics w)
               ++ (pair Vm <$> get_stopped_not_deallocated_vms (vms w))
               ++ (pair Snapshot <$> collect_snapshots fromisoformat clock a w)))
  end.
  { unfold subscription_items.
    assert (Hsnap : forall st,
      (if include_snapshots a
       then fold_left (snapshot_step currency)
                      (collect_snapshots fromisoformat clock a w) st
       else st)
      = fold_left (snapshot_step currency)
                  (collect_snapshots fromisoformat clock a w) st).
    { intros st. unfold collect_snapshots. now destruct (include_snapshots a). }
    rewrite Hsnap. rewrite !app_assoc.
    apply (filed_loop a (cost_map, currency) Snapshot).
    apply (filed_loop a (cost_map, currency) Vm).
    apply (filed_loop a (cost_map, currency) Nic).
    apply (filed_loop a (cost_map, currency) PublicIp).
    apply (filed_loop a (cost_map, currency) Disk _ _ []).
    repeat split. }
  destruct Hfiled as (H1 & H2 & H3).
  rewrite entries_eq, H1, H2, H3, !fmap_app.
  now rewrite !(entries_of_bucket a s (cost_map, currency)).
Qed.

Lemma findings_are_grouped_by_bucket_witness :
  (fun f => dict_get f "resourceType") <$> findings (sample_scan json)
  = [Some (VStr "publicIp"); Some (VStr "disk"); Some (VStr "snapshot")].
Proof.
  unfold sample_scan.
  rewrite (findings_are_grouped_by_bucket sample_fromisoformat sample_clock
             (sample_args json) sample_subscription (Ok sample_costs) sample_listings
             eq_refl).
  reflexivity.
Defined.

(** ** The CSV report *)

Lemma dict_get_key (d : dict) (k : string) :
  is_Some (dict_get d k) -> k ∈ d.*1.
Proof.
  intros [v Hv]. destruct (decide (k ∈ d.*1)) as [H | H]; [exact H|].
  apply dict_get_None in H. congruence.
Qed.

Lemma finding_keys (a : args) (s : subscription) (costs : cost_data)
      (k : kind) (r : resource) (key : string) :
  key ∈ (finding_of a s costs (k, r)).*1 -> key ∈ fieldnames.
Proof.
  destruct k; cbn; intros H;
    repeat (apply elem_of_cons in H as [-> | H];
            [repeat first [apply list_elem_of_here | apply list_elem_of_further]|]);
    inversion H.
Qed.

(** X18. The CSV loses nothing of a finding: every key of a finding is
    one of the sixteen field names, the field names are distinct, and in
    the row of a finding the cell under a field name is the finding's
    value for it, or the empty string when the finding has no such key. *)
Theorem csv_row_holds_every_field
        (fromisoformat : string -> option datetime) (clock : nat -> Z)
        (a : args) (s : subscription) (lookup : result cost_data) (w : listings) :
  NoDup fieldnames /\
  (forall (f : dict) (key : string),
      f ∈ findings (scan_subscription fromisoformat clock a s lookup w) ->
      is_Some (dict_get f key) -> key ∈ fieldnames) /\
  (forall (f : dict) (i : nat) (key : string),
      fieldnames !! i = Some key ->
      csv_row f !! i = Some (default (VStr "") (dict_get f key))) /\
  (forall fs : list dict, length (csv_rows fs) = S (length fs)).
Proof.
  split; [|split; [|split]].
  - unfold fieldnames. repeat (apply NoDup_cons; split;
      [intros H; repeat (apply elem_of_cons in H as [H | H]; [discriminate|]);
       inversion H|]).
    apply NoDup_nil_2.
  - intros f key Hf Hkey.
    destruct (is_structured (output_format a)) eqn:Hfmt.
    + rewrite (scan_findings fromisoformat clock a s lookup w Hfmt) in Hf.
      apply list_elem_of_fmap in Hf as ([k r] & -> & _).
      apply (finding_keys a s (subscription_costs a lookup) k r).
      now apply dict_get_key.
    + rewrite (scan_findings_text fromisoformat clock a s lookup w Hfmt) in Hf.
      inversion Hf.
  - intros f i key Hi. unfold csv_row. now rewrite list_lookup_fmap, Hi.
  - intros fs. unfold csv_rows. simpl. now rewrite length_fmap.
Qed.

(** ** Counters *)

Section CounterFacts.

Lemma counters_ready_init : counters_ready grand_counts_init.
Proof.
  intros k Hk. unfold counter_names in Hk.
  repeat (apply elem_of_cons in Hk as [-> | Hk]; [now exists 0|]).
  inversion Hk.
Qed.

Lemma counter_init (key : string) : counter grand_counts_init key = 0.
Proof.
  assert (H : grand_counts_init
              = [("immediate_disks"%string, VInt 0); ("immediate_pips"%string, VInt 0);
                 ("immediate_vms"%string, VInt 0); ("aks_review_disks"%string, VInt 0);
                 ("aks_review_nics"%string, VInt 0); ("immediate_nics"%string, VInt 0);
                 ("snapshots_old"%string, VInt 0)]) by reflexivity.
  rewrite H. unfold counter. cbn -[String.eqb].
  repeat (destruct (String.eqb _ key); [reflexivity|]). reflexivity.
Qed.

Lemma incr_ready (d : dict) (k : string) :
  counters_ready d -> counters_ready (incr d k).
Proof.
  intros Hd k' Hk'. unfold incr.
  destruct (dict_get d k) as [[| |n|]|] eqn:E; try now apply Hd.
  rewrite dict_get_set. destruct (String.eqb k k'); [now eexists | now apply Hd].
Qed.

Lemma incr_counter (d : dict) (k k' : string) :
  counters_ready d -> k ∈ counter_names ->
  counter (incr d k) k' = counter d k' + (if String.eqb k k' then 1 else 0).
Proof.
  intros Hd Hk. destruct (Hd k Hk) as [n Hn]. unfold incr, counter. rewrite Hn.
  rewrite dict_get_set. destruct (String.eqb k k') eqn:E.
  - apply String.eqb_eq in E. subst k'. now rewrite Hn.
  - lia.
Qed.

Lemma counter_of_name (k : kind) (r : resource) : counter_of k r ∈ counter_names.
Proof.
  unfold counter_names.
  destruct k; simpl; try destruct (is_aks_related _ _);
    repeat first [apply list_elem_of_here | apply list_elem_of_further].
Qed.

Variable fadd : Q -> Q -> Q.
Variable a : args.
Variable cost_map : gmap string Q.

Lemma accumulate_cost_counts (t : tally) (c : option Q) (b : string) :
  grand_counts (accumulate_cost fadd t c b) = grand_counts t.
Proof.
  unfold accumulate_cost. destruct c; [|reflexivity]. now destruct (String.eqb b _).
Qed.

(** One turn of a loop counts the record under its counter. *)
Lemma tally_step_counts (k : kind) (t : tally) (r : resource) :
  let step := match k with
              | Disk => disk_tally fadd a cost_map
              | PublicIp => public_ip_tally fadd a cost_map
              | Nic => nic_tally fadd a cost_map
              | Vm => vm_tally fadd a cost_map
              | Snapshot => snapshot_tally
              end in
  grand_counts (step t r) = incr (grand_counts t) (counter_of k r).
Proof.
  destruct k; simpl;
    unfold disk_tally, public_ip_tally, nic_tally, vm_tally, snapshot_tally;
    try destruct (is_aks_related _ _); simpl;
    now rewrite ?accumulate_cost_counts.
Qed.

Lemma tally_loop_counts (k : kind) (rs : list resource) :
  forall t : tally,
    let step := match k with
                | Disk => disk_tally fadd a cost_map
                | PublicIp => public_ip_tally fadd a cost_map
                | Nic => nic_tally fadd a cost_map
                | Vm => vm_tally fadd a cost_map
                | Snapshot => snapshot_tally
                end in
    counters_ready (grand_counts t) ->
    counters_ready (grand_counts (fold_left step rs t)) /\
    forall key : string,
      counter (grand_counts (fold_left step rs t)) key
      = counter (grand_counts t) key
        + Z.of_nat (length (filter (fun kr => counter_of kr.1 kr.2 = key)
                                   (pair k <$> rs))).
Proof.
  induction rs as [|r rs IH]; intros t step Hready.
  - simpl. split; [exact Hready|]. intros key. lia.
  - cbn [fold_left].
    assert (Hstep : grand_counts (step t r) = incr (grand_counts t) (counter_of k r))
      by apply tally_step_counts.
    assert (Hready' : counters_ready (grand_counts (step t r)))
      by (rewrite Hstep; now apply incr_ready).
    destruct (IH (step t r) Hready') as [Hr Hc]. split; [exact Hr|].
    intros key. rewrite Hc, Hstep, incr_counter by (auto using counter_of_name).
    rewrite fmap_cons, filter_cons. cbn [fst snd].
    destruct (decide (counter_of k r = key)) as [E | E].
    + apply String.eqb_eq in E. rewrite E. cbn [length]. lia.
    + apply String.eqb_neq in E. rewrite E. lia.
Qed.

(** The counters after the five loops of a subscription. *)
Lemma subscription_tally_counts
      (counts : dict) (disks pips ns vs snapshots : list resource) :
  counters_ready counts ->
  (include_snapshots a = false -> snapshots = []) ->
  let t := subscription_tally fadd a cost_map counts disks pips ns vs snapshots in
  counters_ready (grand_counts t) /\
  forall key : string,
    counter (grand_counts t) key
    = counter counts key
      + Z.of_nat (length (filter (fun kr => counter_of kr.1 kr.2 = key)
                                 ((pair Disk <$> disks) ++ (pair PublicIp <$> pips)
                                  ++ (pair Nic <$> ns) ++ (pair Vm <$> vs)
                                  ++ (pair Snapshot <$> snapshots)))).
Proof.
  intros Hready Hsnap t. subst t. unfold subscription_tally.
  set (t0 := {| grand_counts := counts; cost_immediate := 0; cost_review := 0 |}).
  destruct (tally_loop_counts Disk disks t0 Hready) as [R1 C1].
  destruct (tally_loop_counts PublicIp pips _ R1) as [R2 C2].
  destruct (tally_loop_counts Nic ns _ R2) as [R3 C3].
  destruct (tally_loop_counts Vm vs _ R3) as [R4 C4].
  destruct (tally_loop_counts Snapshot snapshots _ R4) as [R5 C5].
  simpl in *.
  assert (Hflag : (if include_snapshots a
                   then fold_left snapshot_tally snapshots
                          (fold_left (vm_tally fadd a cost_map) vs
                             (fold_left (nic_tally fadd a cost_map) ns
                                (fold_left (public_ip_tally fadd a cost_map) pips
                                   (fold_left (disk_tally fadd a cost_map) disks t0))))
                   else fold_left (vm_tally fadd a cost_map) vs
                          (fold_left (nic_tally fadd a cost_map) ns
                             (fold_left (public_ip_tally fadd a cost_map) pips
                                (fold_left (disk_tally fadd a cost_map) disks t0))))
                  = fold_left snapshot_tally snapshots
                      (fold_left (vm_tally fadd a cost_map) vs
                         (fold_left (nic_tally fadd a cost_map) ns
                            (fold_left (public_ip_tally fadd a cost_map) pips
                               (fold_left (disk_tally fadd a cost_map) disks t0))))).
  { destruct (include_snapshots a); [reflexivity|]. now rewrite (Hsnap eq_refl). }
  rewrite Hflag. split; [exact R5|].
  intros key. rewrite C5, C4, C3, C2, C1.
  rewrite !filter_app, !length_app. simpl. lia.
Qed.

End CounterFacts.

(** ** The loop over the subscriptions *)

Section RunFacts.

Variable fadd : Q -> Q -> Q.
Variable fromisoformat : string -> option datetime.
Variable a : args.
Variable skip only : gset string.

(** The findings that the scanned subscriptions add, in the order of the
    run. *)
Lemma run_fold (subs : list (subscription * answers)) :
  forall st : run_state,
    counters_ready (counts_so_far st) ->
    let st' := fold_left (run_step fadd fromisoformat a skip only) subs st in
    counters_ready (counts_so_far st') /\
    (forall key : string,
        counter (counts_so_far st') key
        = counter (counts_so_far st) key
          + Z.of_nat (length (filter (fun kr => counter_of kr.1 kr.2 = key)
                                     (scanned_records fromisoformat a skip only subs)))) /\
    all_findings st'
    = all_findings st
      ++ concat ((fun sw : subscription * answers =>
                    if is_scanned skip only sw.1
                    then findings (scan_subscription fromisoformat (readings sw.2) a
                                     sw.1 (cost_lookup sw.2) (inventory sw.2))
                    else [])
                 <$> subs).
Proof.
  induction subs as [|[s w] subs IH]; intros st Hready.
  - simpl. repeat split; [exact Hready | intros; lia | now rewrite app_nil_r].
  - cbn [fold_left]. unfold scanned_records. rewrite !fmap_cons. cbn [concat fst snd].
    fold (scanned_records fromisoformat a skip only subs).
    destruct (is_scanned skip only s) eqn:Hscan.
    + set (st1 := run_step fadd fromisoformat a skip only st (s, w)).
      assert (Hcounts : counts_so_far st1
                = grand_counts
                    (subscription_tally fadd a (subscription_costs a (cost_lookup w)).1
                       (counts_so_far st)
                       (get_orphaned_disks (disks_by_managed (inventory w))
                                           (disks_by_state (inventory w)))
                       (public_ips (inventory w)) (nics (inventory w))
                       (get_stopped_not_deallocated_vms (vms (inventory w)))
                       (collect_snapshots fromisoformat (readings w) a (inventory w))))
        by (subst st1; unfold run_step; now rewrite Hscan).
      assert (Hfind : all_findings st1
                = all_findings st
                  ++ findings (scan_subscription fromisoformat (readings w) a s
                                 (cost_lookup w) (inventory w)))
        by (subst st1; unfold run_step; now rewrite Hscan).
      destruct (subscription_tally_counts fadd a (subscription_costs a (cost_lookup w)).1
                  (counts_so_far st)
                  (get_orphaned_disks (disks_by_managed (inventory w))
                                      (disks_by_state (inventory w)))
                  (public_ips (inventory w)) (nics (inventory w))
                  (get_stopped_not_deallocated_vms (vms (inventory w)))
                  (collect_snapshots fromisoformat (readings w) a (inventory w))
                  Hready) as [R C].
      { unfold collect_snapshots. intros ->. reflexivity. }
      rewrite <- Hcounts in R, C.
      destruct (IH st1 R) as (R' & C' & F').
      split; [exact R'|]. split.
      * intros key. rewrite C', C.
        rewrite (filter_app _ (collected fromisoformat (readings w) a (inventory w))),
                length_app.
        unfold collected. lia.
      * rewrite F', Hfind. now rewrite <- app_assoc.
    + assert (Hskip : run_step fadd fromisoformat a skip only st (s, w) = st)
        by (unfold run_step; now rewrite Hscan).
      rewrite Hskip.
      destruct (IH st Hready) as (R' & C' & F').
      split; [exact R'|]. split; [exact C' | exact F'].
Qed.

(** Every record is counted under exactly one of the seven counters. *)
Lemma counted_once (l : list (kind * resource)) :
  foldr Z.add 0
        ((fun key => Z.of_nat (length (filter (fun kr => counter_of kr.1 kr.2 = key) l)))
           <$> counter_names)
  = Z.of_nat (length l).
Proof.
  induction l as [|[k r] l IH]; [reflexivity|].
  unfold counter_names in *. cbn [fmap list_fmap foldr] in *.
  rewrite !filter_cons. cbn [fst snd length]. rewrite Nat2Z.inj_succ, <- IH.
  destruct k; cbn [counter_of]; try destruct (is_aks_related _ _);
    repeat first [ rewrite decide_True by reflexivity
                 | rewrite decide_False by discriminate ];
    cbn [length]; lia.
Qed.

Lemma scan_findings_length (clock : nat -> Z) (s : subscription)
      (lookup : result cost_data) (w : listings) :
  is_structured (output_format a) = true ->
  length (findings (scan_subscription fromisoformat clock a s lookup w))
  = length (collected fromisoformat clock a w).
Proof.
  intros Hfmt. rewrite (scan_findings fromisoformat clock a s lookup w Hfmt).
  apply length_fmap.
Qed.

End RunFacts.

(** X19. After the run each of the seven counters holds the number of
    records counted under it in the scanned subscriptions; together they
    hold the number of all those records, which in a JSON or CSV run is
    the number of findings. *)
Theorem counters_count_the_scanned_records
        (fadd : Q -> Q -> Q) (fromisoformat : string -> option datetime)
        (a : args) (skip only : gset string) (subs : list (subscription * answers)) :
  let st := run_subscriptions fadd fromisoformat a skip only subs in
  let records := scanned_records fromisoformat a skip only subs in
  (forall key : string,
      counter (counts_so_far st) key
      = Z.of_nat (length (filter (fun kr => counter_of kr.1 kr.2 = key) records))) /\
  counted (counts_so_far st) = Z.of_nat (length records) /\
  (is_structured (output_format a) = true ->
   Z.of_nat (length (all_findings st)) = counted (counts_so_far st)).
Proof.
  intros st records. subst st records. unfold run_subscriptions.
  destruct (run_fold fadd fromisoformat a skip only subs (run_init) counters_ready_init)
    as (_ & C & F).
  assert (Hkey : forall key : string,
    counter (counts_so_far (fold_left (run_step fadd fromisoformat a skip only) subs run_init)) key
    = Z.of_nat (length (filter (fun kr => counter_of kr.1 kr.2 = key)
                               (scanned_records fromisoformat a skip only subs)))).
  { intros key. rewrite C.
    change (counts_so_far run_init) with grand_counts_init.
    rewrite counter_init. lia. }
  assert (Htotal : counted (counts_so_far (fold_left (run_step fadd fromisoformat a skip only)
                                                      subs run_init))
                   = Z.of_nat (length (scanned_records fromisoformat a skip only subs))).
  { rewrite <- counted_once. unfold counted, counter_names. cbn [fmap list_fmap foldr].
    now rewrite !Hkey. }
  split; [exact Hkey|]. split; [exact Htotal|].
  intros Hfmt. rewrite Htotal, F. cbn [all_findings run_init app]. f_equal.
  unfold scanned_records. clear C F Hkey Htotal.
  induction subs as [|[s w] subs IH]; [reflexivity|].
  rewrite !fmap_cons. cbn [concat fst snd]. rewrite !length_app, IH. f_equal.
  destruct (is_scanned skip only s); [|reflexivity].
  now apply scan_findings_length.
Qed.

(** ** Running totals *)

Section TotalFacts.

Variable fadd : Q -> Q -> Q.
Variable a : args.
Variable cost_map : gmap string Q.

(** One turn of a loop on the two totals: a cost that is known is added
    to the total of the bucket, except for a NIC outside AKS. *)
Lemma tally_step_costs (k : kind) (t : tally) (r : resource) :
  let step := match k with
              | Disk => disk_tally fadd a cost_map
              | PublicIp => public_ip_tally fadd a cost_map
              | Nic => nic_tally fadd a cost_map
              | Vm => vm_tally fadd a cost_map
              | Snapshot => snapshot_tally
              end in
  let aks := is_aks_related (r_name r) (r_resourceGroup r) in
  let add (total : Q) := match get_cost a cost_map (r_id r) with
                         | Some c => fadd total c
                         | None => total
                         end in
  cost_immediate (step t r)
  = (if match k with
        | Disk => negb aks | PublicIp | Vm => true | Nic | Snapshot => false
        end
     then add (cost_immediate t) else cost_immediate t) /\
  cost_review (step t r)
  = (if match k with
        | Disk | Nic => aks | PublicIp | Vm | Snapshot => false
        end
     then add (cost_review t) else cost_review t).
Proof.
  destruct k; simpl;
    unfold disk_tally, public_ip_tally, nic_tally, vm_tally, snapshot_tally,
           accumulate_cost;
    try destruct (is_aks_related _ _); simpl;
    destruct (get_cost a cost_map (r_id r)); simpl; split; reflexivity.
Qed.

Lemma filter_all {A : Type} (P : A -> Prop) `{forall x, Decision (P x)} (l : list A) :
  (forall x, P x) -> filter P l = l.
Proof.
  intros HP. induction l as [|x l IH]; [reflexivity|].
  now rewrite filter_cons, decide_True, IH by apply HP.
Qed.

Lemma filter_none {A : Type} (P : A -> Prop) `{forall x, Decision (P x)} (l : list A) :
  (forall x, ~ P x) -> filter P l = [].
Proof.
  intros HP. induction l as [|x l IH]; [reflexivity|].
  now rewrite filter_cons, decide_False, IH by apply HP.
Qed.

Lemma tally_loop_costs (k : kind) (rs : list resource) :
  forall t : tally,
    let step := match k with
                | Disk => disk_tally fadd a cost_map
                | PublicIp => public_ip_tally fadd a cost_map
                | Nic => nic_tally fadd a cost_map
                | Vm => vm_tally fadd a cost_map
                | Snapshot => snapshot_tally
                end in
    cost_immediate (fold_left step rs t)
    = fold_left fadd
        (omap (fun r => get_cost a cost_map (r_id r))
              (filter (fun r => match k with
                                | Disk => negb (is_aks_related (r_name r) (r_resourceGroup r))
                                | PublicIp | Vm => true
                                | Nic | Snapshot => false
                                end = true) rs))
        (cost_immediate t) /\
    cost_review (fold_left step rs t)
    = fold_left fadd
        (omap (fun r => get_cost a cost_map (r_id r))
              (filter (fun r => match k with
                                | Disk | Nic =>
                                    is_aks_related (r_name r) (r_resourceGroup r)
                                | PublicIp | Vm | Snapshot => false
                                end = true) rs))
        (cost_review t).
Proof.
  induction rs as [|r rs IH]; intros t step; [split; reflexivity|].
  cbn [fold_left]. destruct (IH (step t r)) as [I1 I2]. fold step in I1, I2.
  rewrite I1, I2. destruct (tally_step_costs k t r) as [S1 S2]. fold step in S1, S2.
  cbv zeta in S1, S2. rewrite S1, S2. rewrite !filter_cons.
  destruct k; cbn beta iota;
    try destruct (is_aks_related (r_name r) (r_resourceGroup r)); cbn [negb];
    repeat first [ rewrite decide_True by reflexivity
                 | rewrite decide_False by discriminate ];
    cbn [omap list_omap]; destruct (get_cost a cost_map (r_id r));
    split; reflexivity.
Qed.

End TotalFacts.

(** X20. The two totals of a subscription: the immediate total adds, in
    this order, the known costs of the disks outside AKS, of the public
    IPs and of the stopped VMs; the review total those of the AKS-related
    disks and NICs.  The cost of a NIC outside AKS and of a snapshot
    enters neither, and without any known cost both stay [0.0]. *)
Theorem totals_add_the_known_costs
        (fadd : Q -> Q -> Q) (a : args) (cost_map : gmap string Q) (counts : dict)
        (orphan_disks pips ns vms_waste snapshots : list resource) :
  let t := subscription_tally fadd a cost_map counts
             orphan_disks pips ns vms_waste snapshots in
  let cost (r : resource) := get_cost a cost_map (r_id r) in
  let aks (r : resource) := is_aks_related (r_name r) (r_resourceGroup r) in
  cost_immediate t
  = fold_left fadd
      (omap cost (filter (fun d => aks d = false) orphan_disks ++ pips ++ vms_waste)) 0%Q /\
  cost_review t
  = fold_left fadd
      (omap cost (filter (fun d => aks d = true) orphan_disks
                  ++ filter (fun n => aks n = true) ns)) 0%Q /\
  ((forall r : resource, cost r = None) ->
   cost_immediate t = 0%Q /\ cost_review t = 0%Q).
Proof.
  intros t cost aks.
  assert (H : cost_immediate t
              = fold_left fadd
                  (omap cost (filter (fun d => aks d = false) orphan_disks
                              ++ pips ++ vms_waste)) 0%Q /\
              cost_review t
              = fold_left fadd
                  (omap cost (filter (fun d => aks d = true) orphan_disks
                              ++ filter (fun n => aks n = true) ns)) 0%Q).
  { subst t. unfold subscription_tally.
    set (t0 := {| grand_counts := counts; cost_immediate := 0; cost_review := 0 |}).
    destruct (tally_loop_costs fadd a cost_map Disk orphan_disks t0) as [I1 R1].
    destruct (tally_loop_costs fadd a cost_map PublicIp pips
                (fold_left (disk_tally fadd a cost_map) orphan_disks t0)) as [I2 R2].
    destruct (tally_loop_costs fadd a cost_map Nic ns
                (fold_left (public_ip_tally fadd a cost_map) pips
                   (fold_left (disk_tally fadd a cost_map) orphan_disks t0))) as [I3 R3].
    destruct (tally_loop_costs fadd a cost_map Vm vms_waste
                (fold_left (nic_tally fadd a cost_map) ns
                   (fold_left (public_ip_tally fadd a cost_map) pips
                      (fold_left (disk_tally fadd a cost_map) orphan_disks t0))))
      as [I4 R4].
    destruct (tally_loop_costs fadd a cost_map Snapshot snapshots
                (fold_left (vm_tally fadd a cost_map) vms_waste
                   (fold_left (nic_tally fadd a cost_map) ns
                      (fold_left (public_ip_tally fadd a cost_map) pips
                         (fold_left (disk_tally fadd a cost_map) orphan_disks t0)))))
      as [I5 R5].
    cbv beta iota zeta in *.
    rewrite (filter_none (fun _ : resource => false = true)) in I3, I5, R2, R4, R5
      by discriminate.
    rewrite (filter_all (fun _ : resource => true = true)) in I2, I4 by reflexivity.
    rewrite (list_filter_iff _ (fun d => aks d = false)) in I1
      by (intros x; subst aks; cbv beta; destruct (is_aks_related _ _); simpl; split; congruence).
    cbn [omap list_omap fold_left] in I3, I5, R2, R4, R5.
    assert (Himm : forall t1, cost_immediate (if include_snapshots a
                     then fold_left snapshot_tally snapshots t1 else t1)
                   = cost_immediate (fold_left snapshot_tally snapshots t1)).
    { intros t1. destruct (include_snapshots a); [reflexivity|].
      symmetry. clear. induction snapshots as [|x l IH] in t1 |- *; [reflexivity|].
      cbn [fold_left]. now rewrite IH. }
    assert (Hrev : forall t1, cost_review (if include_snapshots a
                     then fold_left snapshot_tally snapshots t1 else t1)
                   = cost_review (fold_left snapshot_tally snapshots t1)).
    { intros t1. destruct (include_snapshots a); [reflexivity|].
      symmetry. clear. induction snapshots as [|x l IH] in t1 |- *; [reflexivity|].
      cbn [fold_left]. now rewrite IH. }
    rewrite Himm, Hrev, I5, R5, I4, R4, I3, R3, I2, R2, I1, R1.
    rewrite !omap_app, !fold_left_app. split; reflexivity. }
  destruct H as [H1 H2]. split; [exact H1|]. split; [exact H2|].
  intros Hnone. rewrite H1, H2.
  assert (Hom : forall l : list resource, omap cost l = []).
  { induction l as [|x l IH]; [reflexivity|]. cbn [omap list_omap].
    now rewrite Hnone. }
  now rewrite !Hom.
Qed.

(** ** Stripping and the lists of names *)

Section StripFacts.

Import Py.

Lemma append_nil (s : string) : EmptyString +:+ s = s.
Proof. reflexivity. Qed.

Lemma app_empty_r (s : string) : s +:+ EmptyString = s.
Proof. induction s as [|c s IH]; [reflexivity|]. now rewrite append_cons, IH. Qed.

Lemma app_assoc_s (x y z : string) : (x +:+ y) +:+ z = x +:+ (y +:+ z).
Proof. induction x as [|c x IH]; [reflexivity|]. now rewrite !append_cons, IH. Qed.

Lemma lstrip_spec (s : string) :
  exists pre : string,
    s = pre +:+ lstrip s /\ blank pre = true /\
    forall c rest, lstrip s = String c rest -> is_space c = false.
Proof.
  induction s as [|c s (pre & Hs & Hpre & Hfirst)]; simpl.
  - exists EmptyString. repeat split. discriminate.
  - destruct (is_space c) eqn:E.
    + exists (String c pre). rewrite append_cons, <- Hs. simpl. rewrite E.
      repeat split; assumption.
    + exists EmptyString. repeat split. intros c0 rest H. congruence.
Qed.

Lemma rstrip_spec (s : string) :
  exists post : string,
    s = rstrip s +:+ post /\ blank post = true /\
    forall r c, rstrip s = r +:+ String c EmptyString -> is_space c = false.
Proof.
  induction s as [|c s (post & Hs & Hpost & Hlast)]; simpl.
  - exists EmptyString. repeat split. intros [|x r] c H; discriminate.
  - destruct (rstrip s) as [|d r'] eqn:Er.
    + rewrite append_nil in Hs. subst post. destruct (is_space c) eqn:E.
      * exists (String c s). rewrite append_nil. simpl. rewrite E.
        repeat split; assumption.
      * exists s. rewrite append_cons, append_nil.
        repeat split; try assumption.
        intros [|x r] c0 H; [|destruct r; discriminate].
        rewrite append_nil in H. congruence.
    + exists post. rewrite append_cons, <- Hs. repeat split; try assumption.
      intros [|x r] c0 H.
      * rewrite append_nil in H. discriminate.
      * rewrite append_cons in H. injection H as -> H. now apply (Hlast r).
Qed.

Lemma lstrip_blank (pre s : string) : blank pre = true -> lstrip (pre +:+ s) = lstrip s.
Proof.
  induction pre as [|c pre IH]; intros H; [reflexivity|].
  simpl in H. apply andb_true_iff in H as [Hc H].
  rewrite append_cons. simpl. rewrite Hc. now apply IH.
Qed.

Lemma rstrip_blank (post : string) : blank post = true -> rstrip post = EmptyString.
Proof.
  induction post as [|c post IH]; intros H; [reflexivity|].
  simpl in H. apply andb_true_iff in H as [Hc H]. simpl. now rewrite IH, Hc.
Qed.

Lemma rstrip_keeps (mid post : string) :
  blank post = true ->
  (forall r c, mid = r +:+ String c EmptyString -> is_space c = false) ->
  rstrip (mid +:+ post) = mid.
Proof.
  revert post. induction mid as [|c mid IH]; intros post Hpost Hlast.
  - now apply rstrip_blank.
  - rewrite append_cons. simpl. destruct mid as [|d mid].
    + rewrite append_nil, rstrip_blank by assumption.
      now rewrite (Hlast EmptyString c eq_refl).
    + rewrite IH; [reflexivity | assumption |].
      intros r c0 H. apply (Hlast (String c r)). now rewrite append_cons, H.
Qed.

(** What [strip] returns: the text between the leading and the trailing
    whitespace, and nothing else fits that description. *)
Lemma strip_spec (s : string) :
  exists pre post : string,
    s = pre +:+ strip s +:+ post /\ blank pre = true /\ blank post = true /\
    (forall c rest, strip s = String c rest -> is_space c = false) /\
    (forall r c, strip s = r +:+ String c EmptyString -> is_space c = false).
Proof.
  destruct (lstrip_spec s) as (pre & Hs & Hpre & Hfirst).
  destruct (rstrip_spec (lstrip s)) as (post & Hl & Hpost & Hlast).
  exists pre, post. unfold strip. repeat split; try assumption.
  - now rewrite <- Hl.
  - intros c rest H. apply (Hfirst c (rest +:+ post)).
    now rewrite Hl, H, append_cons.
Qed.

Lemma strip_unique (pre mid post : string) :
  blank pre = true -> blank post = true ->
  (forall c rest, mid = String c rest -> is_space c = false) ->
  (forall r c, mid = r +:+ String c EmptyString -> is_space c = false) ->
  strip (pre +:+ mid +:+ post) = mid.
Proof.
  intros Hpre Hpost Hfirst Hlast. unfold strip. rewrite lstrip_blank by assumption.
  destruct mid as [|c mid].
  - rewrite append_nil.
    assert (Hb : blank (lstrip post) = true).
    { clear -Hpost. induction post as [|c post IH]; [reflexivity|].
      simpl in *. apply andb_true_iff in Hpost as [Hc H]. rewrite Hc. now apply IH. }
    now apply rstrip_blank.
  - rewrite append_cons. simpl. rewrite (Hfirst c mid eq_refl).
    rewrite <- append_cons. now apply rstrip_keeps.
Qed.

Lemma blank_strip (s : string) : blank s = true <-> strip s = EmptyString.
Proof.
  split.
  - intros H. rewrite <- (app_empty_r s), <- (append_nil EmptyString).
    apply strip_unique; try assumption; try reflexivity.
    + discriminate.
    + intros [|x r] c H0; discriminate.
  - intros H. destruct (strip_spec s) as (pre & post & Hs & Hpre & Hpost & _).
    rewrite H, append_nil in Hs. rewrite Hs.
    clear -Hpre Hpost. induction pre as [|c pre IH]; [exact Hpost|].
    simpl in Hpre. apply andb_true_iff in Hpre as [Hc Hpre].
    rewrite append_cons. simpl. rewrite Hc. now apply IH.
Qed.

End StripFacts.

(** X21. The tenant id that the prompt returns is what the user typed
    without the whitespace around it: it is not empty, neither begins nor
    ends with whitespace, and whitespace alone surrounds it in the typed
    line; a line of whitespace only ends the program instead. *)
Theorem prompted_tenant_id_is_stripped (typed : string) :
  (prompt_tenant_id typed = None <-> Py.blank typed = true) /\
  (forall tid : string,
      prompt_tenant_id typed = Some tid ->
      tid <> EmptyString /\
      (exists pre post : string,
          typed = pre +:+ tid +:+ post /\ Py.blank pre = true /\ Py.blank post = true) /\
      (forall c rest, tid = String c rest -> Py.is_space c = false) /\
      (forall r c, tid = r +:+ String c EmptyString -> Py.is_space c = false)) /\
  (forall pre tid post : string,
      Py.blank pre = true -> Py.blank post = true -> tid <> EmptyString ->
      (forall c rest, tid = String c rest -> Py.is_space c = false) ->
      (forall r c, tid = r +:+ String c EmptyString -> Py.is_space c = false) ->
      typed = pre +:+ tid +:+ post ->
      prompt_tenant_id typed = Some tid).
Proof.
  unfold prompt_tenant_id. cbv zeta. split; [|split].
  - rewrite blank_strip. destruct (Py.strip typed); simpl; split; congruence.
  - intros tid H. destruct (Py.strip typed) as [|c x] eqn:E; simpl in H; [discriminate|].
    injection H as <-.
    destruct (strip_spec typed) as (pre & post & Hs & Hpre & Hpost & Hfirst & Hlast).
    rewrite E in *. split; [discriminate|]. split; [now exists pre, post|].
    split; assumption.
  - intros pre tid post Hpre Hpost Hne Hfirst Hlast ->.
    rewrite strip_unique by assumption.
    destruct tid; [congruence | reflexivity].
Qed.

(** ** The selection of subscriptions *)

Section SelectionFacts.

Import Py.

Lemma strip_idem (s : string) : strip (strip s) = strip s.
Proof.
  destruct (strip_spec s) as (_ & _ & _ & _ & _ & Hfirst & Hlast).
  rewrite <- (app_empty_r (strip s)) at 1.
  rewrite <- (append_nil (strip s +:+ EmptyString)).
  now apply strip_unique.
Qed.

Lemma split_not_nil (sep : ascii) (s : string) : split sep s <> [].
Proof.
  destruct s as [|c s]; simpl; [discriminate|].
  destruct (Ascii.eqb c sep); [discriminate|]. destruct (split sep s); discriminate.
Qed.

Lemma split_no_sep (sep : ascii) (s : string) :
  forall piece : string,
    piece ∈ split sep s -> forall u v : string, piece <> u +:+ String sep v.
Proof.
  induction s as [|c s IH]; intros piece Hin u v Hpiece; simpl in Hin.
  - apply list_elem_of_singleton in Hin. subst piece. destruct u; discriminate.
  - destruct (Ascii.eqb c sep) eqn:Ec.
    + apply elem_of_cons in Hin as [-> | Hin]; [destruct u; discriminate|].
      exact (IH piece Hin u v Hpiece).
    + destruct (split sep s) as [|h t] eqn:Es; [now apply (split_not_nil sep s)|].
      apply elem_of_cons in Hin as [-> | Hin].
      * destruct u as [|x u].
        -- rewrite append_nil in Hpiece. injection Hpiece as -> _.
           now rewrite Ascii.eqb_refl in Ec.
        -- rewrite append_cons in Hpiece. injection Hpiece as _ Hh.
           apply (IH h (list_elem_of_here h t) u v Hh).
      * apply (IH piece (list_elem_of_further _ h _ Hin) u v Hpiece).
Qed.

Lemma split_blank (s : string) : blank s = true -> split ","%char s = [s].
Proof.
  induction s as [|c s IH]; intros H; [reflexivity|].
  simpl in H. apply andb_true_iff in H as [Hc H]. simpl.
  destruct (Ascii.eqb c ","%char) eqn:Ec.
  - apply Ascii.eqb_eq in Ec. subst c. discriminate.
  - now rewrite (IH H).
Qed.

Lemma names_of_elem (arg x : string) :
  x ∈ names_of arg <->
  x <> EmptyString /\ exists piece : string, piece ∈ split ","%char arg /\ strip piece = x.
Proof.
  unfold names_of. rewrite elem_of_list_to_set, list_elem_of_filter, list_elem_of_fmap.
  split.
  - intros [Ht (piece & -> & Hin)]. split; [|now exists piece].
    intros E. rewrite E in Ht. discriminate.
  - intros [Hne (piece & Hin & <-)]. split; [|now exists piece].
    destruct (strip piece); [congruence | reflexivity].
Qed.

Lemma names_of_empty (arg : string) :
  names_of arg = ∅ <-> forall piece : string, piece ∈ split ","%char arg -> blank piece = true.
Proof.
  split.
  - intros H piece Hin. apply blank_strip.
    destruct (String.string_dec (strip piece) EmptyString) as [E|E]; [exact E|].
    assert (Hx : strip piece ∈ names_of arg) by (apply names_of_elem; eauto).
    rewrite H in Hx. now apply not_elem_of_empty in Hx.
  - intros H. apply elem_of_equiv_empty_L. intros x Hx.
    apply names_of_elem in Hx as [Hne (piece & Hin & <-)].
    apply Hne, blank_strip, H, Hin.
Qed.

Lemma sub_matches_listed (s : subscription) (arg : string) :
  sub_matches s (names_of arg) = true <-> listed s arg.
Proof.
  unfold sub_matches, listed. cbv zeta.
  rewrite orb_true_iff, !bool_decide_eq_true, !names_of_elem. split.
  - intros [[Hne (piece & Hin & E)] | [Hne (piece & Hin & E)]];
      exists piece; (split; [exact Hin|]); rewrite E; auto.
  - intros (piece & Hin & Hne & [E | E]); [left | right];
      (split; [now rewrite <- E | now exists piece]).
Qed.

End SelectionFacts.

(** X22. The names given to [--skip-subs] and [--only-subs] are the
    pieces between the commas with the whitespace around them removed,
    empty ones dropped.  So no name of the set is empty, begins or ends with
    whitespace or holds a comma, and an argument of whitespace only (the
    default is the empty text) names nothing. *)
Theorem names_are_stripped_pieces (arg : string) :
  (forall x : string,
      x ∈ names_of arg <->
      x <> EmptyString /\
      exists piece : string, piece ∈ Py.split ","%char arg /\ Py.strip piece = x) /\
  (forall x : string,
      x ∈ names_of arg ->
      Py.strip x = x /\ forall u v : string, x <> u +:+ String ","%char v) /\
  (Py.blank arg = true -> names_of arg = ∅).
Proof.
  split; [intros x; apply names_of_elem|]. split.
  - intros x Hx. apply names_of_elem in Hx as [_ (piece & Hin & <-)].
    split; [apply strip_idem|]. intros u v E.
    destruct (strip_spec piece) as (pre & post & Hp & _).
    apply (split_no_sep ","%char arg piece Hin (pre +:+ u) (v +:+ post)).
    rewrite Hp at 1. rewrite E.
    now rewrite !app_assoc_s, append_cons.
  - intros Hb. apply names_of_empty. intros piece Hin.
    rewrite (split_blank arg Hb) in Hin.
    apply list_elem_of_singleton in Hin. now subst piece.
Qed.

(** X23. A subscription is scanned exactly when it is not listed in
    [--skip-subs] and either [--only-subs] names nothing or lists it; a
    subscription listed in both is skipped.  Listing goes by the name or the
    id, whitespace around either apart, so a subscription that has neither
    can be listed nowhere. *)
Theorem scanned_iff_selected_and_not_skipped (skip_subs only_subs : string)
        (s : subscription) :
  (is_scanned (names_of skip_subs) (names_of only_subs) s = true <->
   ((forall piece : string,
        piece ∈ Py.split ","%char only_subs -> Py.blank piece = true) \/
    listed s only_subs) /\
   ~ listed s skip_subs) /\
  (Py.blank (Py.or_empty (s_name s)) = true ->
   Py.blank (Py.or_empty (s_id s)) = true ->
   forall arg : string, ~ listed s arg).
Proof.
  split.
  - rewrite <- names_of_empty, <- !sub_matches_listed. unfold is_scanned.
    destruct (bool_decide (names_of only_subs <> ∅)) eqn:Eb;
      [apply bool_decide_eq_true in Eb
      | apply bool_decide_eq_false in Eb; apply dec_stable in Eb];
      destruct (sub_matches s (names_of only_subs)),
               (sub_matches s (names_of skip_subs));
      simpl; intuition congruence.
  - intros Hn Hi arg (piece & _ & Hne & [E | E]); apply Hne; rewrite E;
      now apply blank_strip.
Qed.

(** ** What the run keeps across the subscriptions *)

Section RunTotals.

Variable fadd : Q -> Q -> Q.
Variable fromisoformat : string -> option datetime.
Variable a : args.
Variable skip only : gset string.

Lemma concat_scanned {A : Type} (f : subscription * answers -> list A)
      (subs : list (subscription * answers)) :
  concat ((fun sw : subscription * answers =>
             if is_scanned skip only sw.1 then f sw else []) <$> subs)
  = concat (f <$> filter (fun sw : subscription * answers =>
                            is_scanned skip only sw.1 = true) subs).
Proof.
  induction subs as [|sw subs IH]; [reflexivity|].
  rewrite fmap_cons, filter_cons. cbn [concat].
  destruct (is_scanned skip only sw.1) eqn:E.
  - rewrite decide_True by reflexivity. rewrite fmap_cons. cbn [concat]. now rewrite IH.
  - rewrite decide_False by discriminate. now rewrite IH.
Qed.

Lemma run_currency_fold (subs : list (subscription * answers)) :
  forall st : run_state,
    grand_currency (fold_left (run_step fadd fromisoformat a skip only) subs st)
    = if no_cost a then grand_currency st
      else fold_left value_or (scanned_currencies skip only subs) (grand_currency st).
Proof.
  induction subs as [|[s w] subs IH]; intros st.
  - simpl. now destruct (no_cost a).
  - cbn [fold_left]. rewrite IH. unfold scanned_currencies.
    cbn [omap list_omap fst snd]. unfold run_step.
    destruct (is_scanned skip only s); cbn [negb]; [|reflexivity].
    destruct (no_cost a) eqn:En; cbn [grand_currency]; [reflexivity|].
    destruct (cost_lookup w); reflexivity.
Qed.

Lemma fold_value_or_truthy (cs : list value) :
  forall v : value, value_truthy v = true -> fold_left value_or cs v = v.
Proof.
  induction cs as [|c cs IH]; intros v Hv; [reflexivity|].
  cbn [fold_left]. unfold value_or at 2. rewrite Hv. now apply IH.
Qed.

Lemma fold_value_or_first (pre : list value) (c : value) (post : list value) :
  forall v : value,
    value_truthy v = false ->
    Forall (fun x => value_truthy x = false) pre ->
    value_truthy c = true ->
    fold_left value_or (pre ++ c :: post) v = c.
Proof.
  induction pre as [|x pre IH]; intros v Hv Hpre Hc.
  - cbn [app fold_left]. unfold value_or at 2. rewrite Hv.
    now apply fold_value_or_truthy.
  - apply Forall_cons in Hpre as [Hx Hpre].
    change ((x :: pre) ++ c :: post) with (x :: (pre ++ c :: post)).
    cbn [fold_left]. unfold value_or at 2. rewrite Hv. now apply IH.
Qed.

Lemma fold_value_or_none (cs : list value) :
  forall v : value,
    value_truthy v = false ->
    Forall (fun x => value_truthy x = false) cs ->
    value_truthy (fold_left value_or cs v) = false.
Proof.
  induction cs as [|c cs IH]; intros v Hv Hcs; [exact Hv|].
  apply Forall_cons in Hcs as [Hc Hcs].
  cbn [fold_left]. unfold value_or at 2. rewrite Hv. now apply IH.
Qed.

End RunTotals.

(** X24. The findings of a run are those of the scanned subscriptions, in
    the order of the subscriptions, each subscription's findings as its
    scan returns them; a subscription that is skipped or not selected adds
    none, and a text run collects none at all. *)
Theorem run_collects_findings_of_scanned_subscriptions
        (fadd : Q -> Q -> Q) (fromisoformat : string -> option datetime) (a : args)
        (skip only : gset string) (subs : list (subscription * answers)) :
  all_findings (run_subscriptions fadd fromisoformat a skip only subs)
  = concat ((fun sw : subscription * answers =>
               findings (scan_subscription fromisoformat (readings sw.2) a sw.1
                           (cost_lookup sw.2) (inventory sw.2)))
            <$> filter (fun sw : subscription * answers =>
                          is_scanned skip only sw.1 = true) subs) /\
  (is_structured (output_format a) = false ->
   all_findings (run_subscriptions fadd fromisoformat a skip only subs) = []).
Proof.
  destruct (run_fold fadd fromisoformat a skip only subs
              (run_init) counters_ready_init) as (_ & _ & F).
  unfold run_subscriptions. rewrite F. cbn [all_findings run_init app].
  rewrite concat_scanned. split; [reflexivity|].
  intros Hfmt. induction (filter _ subs) as [|sw l IH]; [reflexivity|].
  rewrite fmap_cons. cbn [concat].
  now rewrite (scan_findings_text fromisoformat (readings sw.2) a sw.1
                 (cost_lookup sw.2) (inventory sw.2) Hfmt).
Qed.

(** X25. The currency of the grand totals is the first non-empty currency
    that the cost lookup of a scanned subscription returns: later
    subscriptions in another currency do not change it, a failed lookup
    contributes none, and with [--no-cost] or without any non-empty
    currency the totals have none. *)
Theorem grand_currency_is_the_first_known
        (fadd : Q -> Q -> Q) (fromisoformat : string -> option datetime) (a : args)
        (skip only : gset string) (subs : list (subscription * answers)) :
  (no_cost a = true ->
   grand_currency (run_subscriptions fadd fromisoformat a skip only subs) = VNone) /\
  (no_cost a = false ->
   forall (pre : list value) (c : value) (post : list value),
     scanned_currencies skip only subs = pre ++ c :: post ->
     Forall (fun x => value_truthy x = false) pre ->
     value_truthy c = true ->
     grand_currency (run_subscriptions fadd fromisoformat a skip only subs) = c) /\
  (no_cost a = false ->
   Forall (fun x => value_truthy x = false) (scanned_currencies skip only subs) ->
   value_truthy (grand_currency (run_subscriptions fadd fromisoformat a skip only subs))
   = false).
Proof.
  unfold run_subscriptions. rewrite run_currency_fold. cbn [grand_currency run_init].
  split; [|split].
  - now intros ->.
  - intros -> pre c post -> Hpre Hc. now apply fold_value_or_first.
  - intros -> Hall. now apply fold_value_or_none.
Qed.
